(** * vue-virtual-grid: the layout pipeline and the loading state machine

    A shallow embedding of the script block of the [VirtualGrid] component
    and of [utils.ts]: config derivation ([computeConfigData]), the grid
    packer ([computeLayoutData]), the viewport windower
    ([computeRenderData]) and the loading protocol ([loadMoreDataAsync] and
    the methods that call it).

    Numbers.  The component computes with JavaScript numbers, which are
    IEEE 754 binary64 values.  Counts (column count, column span, row and
    column numbers, indices) are integers in every run of the component and
    are embedded as [Z]; pixel quantities (heights, widths, offsets, scroll
    positions, gaps) are embedded as exact rationals [Q] and compared with
    [==].  [null] is an [option].  A division by a zero [columnCount]
    yields [NaN] or an infinity in the source; the exact embedding has no
    such values and follows [Z.rem] and [Qdiv] there, so the geometry it
    computes is the source's for every [columnCount <> 0].

    Rounding.  The exact embedding leaves out that the engine rounds every
    quotient and product to the nearest binary64 value.  Two heights are
    products of quotients passed to [Math.round], the aspect-ratio height
    of [getItemRatioHeight] and the clipped height of the packer, and when
    the exact product is at a half the engine can return the integer below
    the one the exact embedding returns.  The statement about the first
    bounds the height on either side; the statement about the second is
    made of [Binary64.computeLayoutData], the packer once more over
    binary64 numbers (module [Double], on the [SpecFloat] of the Standard
    Library), which also has [NaN], the infinities and the two zeros.

    Asynchrony.  The component runs on the event loop, one turn at a time.
    A call of the async [loadMoreDataAsync] is embedded as two functions,
    the part before [await this.updateFunction()] and the part after it,
    and the event loop as a step function over the events it delivers: the
    triggers (mount, resize, scroll, reset) and the settling of a promise
    returned by [updateFunction]. *)

From Stdlib Require Import ZArith QArith Qround Qminmax Lia Lqa.
From Stdlib Require Import List Sorted String Bool DecimalString.
From Stdlib Require Import SpecFloat.
Import ListNotations.

Local Open Scope Z_scope.

(** ** JavaScript arithmetic used by the component *)

(** [Math.floor]. *)
Definition Math_floor (x : Q) : Z := Qfloor x.

(** [Math.round]: the nearest integer, halves rounded towards +infinity. *)
Definition Math_round (x : Q) : Z := Qfloor (x + (1 # 2)).

(** [Math.max] and [Math.min] on two numbers. *)
Definition Math_max (x y : Q) : Q := Qmax x y.
Definition Math_min (x y : Q) : Q := Qmin x y.

(** [x > y] and [x < y] on numbers. *)
Definition Qgtb (x y : Q) : bool := negb (Qle_bool x y).
Definition Qltb (x y : Q) : bool := negb (Qle_bool y x).

(** [ToNumber] at the places where the source lets [null] flow into
    arithmetic or a comparison: [null] counts as [0]. *)
Definition toNumber (x : option Q) : Q :=
  match x with
  | Some q => q
  | None => 0%Q
  end.

(** Truthiness of a possibly absent number: [undefined], [null] and [0] are
    falsy. *)
Definition truthy (x : option Q) : bool :=
  match x with
  | Some q => negb (Qeq_bool q 0)
  | None => false
  end.

(** [execFunc] of utils.ts calls its argument when it is a function and
    returns it otherwise; the component only passes it numbers. *)
Definition execFunc {A : Type} (fnc : A) : A := fnc.

(** ** Data model *)

Module ElementSize.
Record t : Type := mk { width : Q; height : Q }.
End ElementSize.

Module ElementScroll.
Record t : Type := mk { x : Q; y : Q }.
End ElementScroll.

(** [interface ContainerData].  [computeConfigData] tests [elementSize] and
    [computeRenderData] tests [elementOffset] against [null]. *)
Record ContainerData : Type := mkContainerData {
  size : ElementSize.t;
  scroll : ElementScroll.t;
  elementOffset : option Q;
  elementSize : option ElementSize.t
}.

(** Modelled from the spec: [Item] is imported from './types', which is not
    part of the sources.  The fields are those the component reads: the
    identifier, the natural height and optional width, the column span, the
    new-row flag and the opaque rendering payload. *)
Record Item (P : Type) : Type := mkItem {
  id : string;
  height : Q;
  width : option Q;
  columnSpan : Z;
  newRow : bool;
  renderComponent : P
}.

Arguments mkItem {P}.
Arguments id {P}.
Arguments height {P}.
Arguments width {P}.
Arguments columnSpan {P}.
Arguments newRow {P}.
Arguments renderComponent {P}.

(** [interface ConfigData]. *)
Record ConfigData (P : Type) : Type := mkConfigData {
  windowMargin : Q;
  gridGap : Q;
  columnCount : Z;
  entries : list (Item P)
}.

Arguments mkConfigData {P}.
Arguments windowMargin {P}.
Arguments gridGap {P}.
Arguments columnCount {P}.
Arguments entries {P}.

(** [interface Cell extends Item]: [item] holds the inherited fields. *)
Record Cell (P : Type) : Type := mkCell {
  item :> Item P;
  columnNumber : Z;
  rowNumber : Z;
  offset : Q
}.

Arguments mkCell {P}.
Arguments item {P}.
Arguments columnNumber {P}.
Arguments rowNumber {P}.
Arguments offset {P}.

(** [interface LayoutData]. *)
Record LayoutData (P : Type) : Type := mkLayoutData {
  totalHeight : Q;
  cells : list (Cell P)
}.

Arguments mkLayoutData {P}.
Arguments totalHeight {P}.
Arguments cells {P}.

(** [interface RenderData]. *)
Record RenderData (P : Type) : Type := mkRenderData {
  cellsToRender : list (Cell P);
  firstRenderedRowNumber : option Z;
  firstRenderedRowOffset : option Q
}.

Arguments mkRenderData {P}.
Arguments cellsToRender {P}.
Arguments firstRenderedRowNumber {P}.
Arguments firstRenderedRowOffset {P}.

(** ** Config derivation *)

(** [getColumnCount]. *)
Definition getColumnCount (elementWidth : option Q) : Z :=
  Math_floor (toNumber elementWidth / 250).

(** [getGridGap]. *)
Definition getGridGap (elementWidth : option Q) (windowHeight : Q) : Q :=
  if Qgtb (toNumber elementWidth) 720 && Qgtb windowHeight 480
  then 10%Q
  else 5%Q.

(** [getWindowMargin]. *)
Definition getWindowMargin (windowHeight : Q) : Q :=
  inject_Z (Math_round (windowHeight * 1.5)).

(** [getItemRatioHeight].  The ratio and the product are exact before
    [Math.round]; [Binary64.getItemRatioHeight] below rounds as the engine
    does. *)
Definition getItemRatioHeight (height width columnWidth : Q) : Q :=
  let imageRatio := (height / width)%Q in
  inject_Z (Math_round (columnWidth * imageRatio)).

(** [getColumnWidth].  [columnCount] and [gridGap] are never [null] at the
    call site, [elementWidth] can be. *)
Definition getColumnWidth (columnCount : Z) (gridGap : Q)
    (elementWidth : option Q) : option Q :=
  match elementWidth with
  | None => None
  | Some elementWidth =>
      let totalGapSpace := (inject_Z (columnCount - 1) * gridGap)%Q in
      let columnWidth :=
        Math_round ((elementWidth - totalGapSpace) / inject_Z columnCount) in
      Some (inject_Z columnWidth)
  end.

Section Pipeline.

Variable P : Type.

(** The callback of [items.map] in [computeConfigData]. *)
Definition deriveEntry (columnWidth : option Q) (gridGap : Q)
    (item : Item P) : Item P :=
  if negb (truthy (width item)) then item
  else
    let imageWidth :=
      (toNumber columnWidth * inject_Z (columnSpan item)
       + gridGap * inject_Z (columnSpan item - 1))%Q in
    mkItem (id item)
      (execFunc
         (getItemRatioHeight (height item) (toNumber (width item)) imageWidth))
      (Some imageWidth)
      (columnSpan item) (newRow item) (renderComponent item).

(** [computeConfigData]. *)
Definition computeConfigData (containerData : option ContainerData)
    (items : option (list (Item P))) : ConfigData P :=
  match containerData, items with
  | Some containerData, Some items =>
      let elementWidth :=
        match elementSize containerData with
        | Some s => Some (ElementSize.width s)
        | None => None
        end in
      let windowMargin :=
        execFunc (getWindowMargin (ElementSize.height (size containerData))) in
      let gridGap :=
        execFunc
          (getGridGap elementWidth (ElementSize.height (size containerData))) in
      let columnCount := getColumnCount elementWidth in
      let columnWidth := getColumnWidth columnCount gridGap elementWidth in
      let entries := map (deriveEntry columnWidth gridGap) items in
      mkConfigData windowMargin gridGap columnCount entries
  | _, _ => mkConfigData 0%Q 0%Q 1 []
  end.

(** ** Grid packer *)

(** The variables that the callback of [entries.map] in [computeLayoutData]
    closes over and updates. *)
Record LayoutState : Type := mkLayoutState {
  currentRowNumber : Z;
  prevRowsTotalHeight : Q;
  currentRowMaxHeight : Q;
  columnShift : Z
}.

(** Their values before the first entry. *)
Definition initialLayoutState : LayoutState := mkLayoutState 1 0 0 0.

(** A column span of 0 or less stands for the full width. *)
Definition fullRowSpan (columnCount : Z) (entry : Item P) : Z :=
  if columnSpan entry <? 1 then columnCount else columnSpan entry.

(** The callback of [entries.map]: one entry at one index, from the state
    left by the entries before it.  The clipped height is exact before
    [Math.round]; [Binary64.layoutEntry] below rounds as the engine does. *)
Definition layoutEntry (configData : ConfigData P) (st : LayoutState)
    (entry : Item P) (index : Z) : LayoutState * Cell P :=
  let columnCount := columnCount configData in
  let gridGap := gridGap configData in
  let columnSpanRecompute := fullRowSpan columnCount entry in
  let heightRecompute := height entry in
  let distanceToRowStart := Z.rem (index + columnShift st) columnCount in
  let columnShift1 :=
    if newRow entry && negb (distanceToRowStart =? 0)
    then columnShift st + (columnCount - distanceToRowStart)
    else columnShift st in
  let shiftedIndex := index + columnShift1 in
  let columnNumber := Z.rem shiftedIndex columnCount + 1 in
  let rowNumber :=
    Math_floor (inject_Z shiftedIndex / inject_Z columnCount) + 1 in
  let '(heightRecompute, columnSpanRecompute) :=
    if columnNumber + columnSpanRecompute >? columnCount + 1
    then
      let overlapNumber :=
        columnNumber + columnSpanRecompute - columnCount - 1 in
      let overlapRatio :=
        (inject_Z overlapNumber / inject_Z columnSpanRecompute)%Q in
      ((heightRecompute * (1 - overlapRatio))%Q,
       columnSpanRecompute - overlapNumber)
    else (heightRecompute, columnSpanRecompute) in
  let columnShift2 :=
    if columnSpanRecompute >? 1
    then columnShift1 + (columnSpanRecompute - 1)
    else columnShift1 in
  let '(currentRowNumber1, prevRowsTotalHeight1, currentRowMaxHeight1) :=
    if negb (rowNumber =? currentRowNumber st)
    then (rowNumber,
          (prevRowsTotalHeight st + (currentRowMaxHeight st + gridGap))%Q,
          0%Q)
    else (currentRowNumber st, prevRowsTotalHeight st,
          currentRowMaxHeight st) in
  let offset := prevRowsTotalHeight1 in
  let height := inject_Z (Math_round heightRecompute) in
  let currentRowMaxHeight2 := Math_max currentRowMaxHeight1 height in
  (mkLayoutState currentRowNumber1 prevRowsTotalHeight1 currentRowMaxHeight2
     columnShift2,
   mkCell
     (mkItem (id entry) height (width entry) columnSpanRecompute
        (newRow entry) (renderComponent entry))
     columnNumber rowNumber offset).

(** [Array.prototype.map] with a callback that also reads and writes
    variables of the enclosing function: the state is threaded from one
    element to the next, the index counts up from [index]. *)
Fixpoint mapWithState {S A B : Type} (f : S -> A -> Z -> S * B)
    (st : S) (index : Z) (l : list A) : S * list B :=
  match l with
  | [] => (st, [])
  | a :: l' =>
      let '(st1, b) := f st a index in
      let '(st2, bs) := mapWithState f st1 (index + 1) l' in
      (st2, b :: bs)
  end.

(** [computeLayoutData]. *)
Definition computeLayoutData (configData : option (ConfigData P))
    : LayoutData P :=
  match configData with
  | None => mkLayoutData 0 []
  | Some configData =>
      let '(st, cells) :=
        mapWithState (layoutEntry configData) initialLayoutState 0
          (entries configData) in
      let totalHeight :=
        (prevRowsTotalHeight st + currentRowMaxHeight st)%Q in
      mkLayoutData totalHeight cells
  end.

(** ** Viewport windower *)

(** The body of the [for ... of] loop of [computeRenderData]: [acc] holds
    [cellsToRender], [firstRenderedRowNumber] and [firstRenderedRowOffset]
    as the cells before [cell] left them. *)
Definition renderCell (configData : ConfigData P)
    (containerData : ContainerData) (elementOffset : Q)
    (acc : RenderData P) (cell : Cell P) : RenderData P :=
  let cellTop := (elementOffset + offset cell)%Q in
  let cellBottom := (cellTop + height cell)%Q in
  let windowTop := ElementScroll.y (scroll containerData) in
  let windowBottom :=
    (windowTop + ElementSize.height (size containerData))%Q in
  let renderTop := (windowTop - windowMargin configData)%Q in
  let renderBottom := (windowBottom + windowMargin configData)%Q in
  if Qgtb cellTop renderBottom then acc
  else if Qltb cellBottom renderTop then acc
  else
    let firstRenderedRowNumber1 :=
      match firstRenderedRowNumber acc with
      | None => Some (rowNumber cell)
      | Some n => Some n
      end in
    let firstRenderedRowOffset1 :=
      match firstRenderedRowNumber1 with
      | Some n =>
          if rowNumber cell =? n
          then
            if truthy (firstRenderedRowOffset acc)
            then Some (Math_min (toNumber (firstRenderedRowOffset acc))
                         (offset cell))
            else Some (offset cell)
          else firstRenderedRowOffset acc
      | None => firstRenderedRowOffset acc
      end in
    mkRenderData (cellsToRender acc ++ [cell]) firstRenderedRowNumber1
      firstRenderedRowOffset1.

(** [computeRenderData]. *)
Definition computeRenderData (configData : option (ConfigData P))
    (containerData : ContainerData) (layoutData : option (LayoutData P))
    : RenderData P :=
  match layoutData, configData with
  | Some layoutData, Some configData =>
      match elementOffset containerData with
      | Some elementOffset =>
          fold_left (renderCell configData containerData elementOffset)
            (cells layoutData) (mkRenderData [] None None)
      | None => mkRenderData [] None None
      end
  | _, _ => mkRenderData [] (Some 0) (Some 0%Q)
  end.

End Pipeline.

Arguments computeConfigData {P}.
Arguments fullRowSpan {P}.
Arguments layoutEntry {P}.
Arguments computeLayoutData {P}.
Arguments renderCell {P}.
Arguments computeRenderData {P}.

(** ** JavaScript numbers as the engine has them *)

(** IEEE 754 binary64, for the places where a statement depends on how a
    quotient or a product is rounded. *)
Module Double.

(** A number: a zero of either sign, an infinity, [NaN], or
    [(-1)^s * m * 2^e] with a mantissa [m] of at most 53 bits. *)
Definition t : Type := spec_float.

Definition prec : Z := 53.
Definition emax : Z := 1024.

(** The number written as the integer literal [z], or the index [z] of an
    array element. *)
Definition ofZ (z : Z) : t := binary_normalize prec emax z 0 false.

Definition NaN : t := S754_nan.

(** [x + y], [x - y], [x * y], [x / y]: the exact result rounded to the
    nearest number, ties to the even mantissa. *)
Definition add (x y : t) : t := SFadd prec emax x y.
Definition sub (x y : t) : t := SFsub prec emax x y.
Definition mul (x y : t) : t := SFmul prec emax x y.
Definition div (x y : t) : t := SFdiv prec emax x y.

(** [x < y], [x > y] and [x !== y]; a comparison with [NaN] is false, so
    [NaN !== y] is true. *)
Definition ltb (x y : t) : bool := SFltb x y.
Definition gtb (x y : t) : bool := SFltb y x.
Definition neqb (x y : t) : bool := negb (SFeqb x y).

(** [n % d]: the remainder of the division truncated towards zero, with
    the sign of [n]; it is always a number, so nothing is rounded. *)
Definition rem (n d : t) : t :=
  match n, d with
  | S754_nan, _ | _, S754_nan => NaN
  | S754_infinity _, _ => NaN
  | _, S754_zero _ => NaN
  | _, S754_infinity _ => n
  | S754_zero _, _ => n
  | S754_finite sn mn en, S754_finite _ md ed =>
      let e := Z.min en ed in
      match Z.rem (Z.shiftl (Zpos mn) (en - e)) (Z.shiftl (Zpos md) (ed - e))
      with
      | 0 => S754_zero sn
      | r => binary_normalize prec emax (cond_Zopp sn r) e false
      end
  end.

(** [Math.floor]. *)
Definition Math_floor (x : t) : t :=
  match x with
  | S754_finite s m e =>
      if e <? 0 then ofZ (Z.shiftr (cond_Zopp s (Zpos m)) (- e)) else x
  | _ => x
  end.

(** [Math.round]: the integer nearest to [x], the greater one of two that
    are equally near; [-0] for [-0.5 <= x < 0]. *)
Definition Math_round (x : t) : t :=
  match x with
  | S754_finite s m e =>
      if e <? 0
      then
        match Z.shiftr (2 * cond_Zopp s (Zpos m) + Z.shiftl 1 (- e)) (1 - e)
        with
        | 0 => S754_zero s
        | k => ofZ k
        end
      else x
  | _ => x
  end.

(** [Math.max] of two numbers: [NaN] if one of them is, and [+0] is
    greater than [-0]. *)
Definition Math_max (x y : t) : t :=
  match SFcompare x y with
  | None => NaN
  | Some Lt => y
  | Some Gt => x
  | Some Eq => match x with S754_zero true => y | _ => x end
  end.

(** The same number, written the same way. *)
Definition same (x y : t) : bool :=
  match x, y with
  | S754_zero s1, S754_zero s2 => Bool.eqb s1 s2
  | S754_infinity s1, S754_infinity s2 => Bool.eqb s1 s2
  | S754_nan, S754_nan => true
  | S754_finite s1 m1 e1, S754_finite s2 m2 e2 =>
      Bool.eqb s1 s2 && Pos.eqb m1 m2 && Z.eqb e1 e2
  | _, _ => false
  end.

End Double.

Declare Scope double_scope.
Delimit Scope double_scope with D.
Infix "+" := Double.add : double_scope.
Infix "-" := Double.sub : double_scope.
Infix "*" := Double.mul : double_scope.
Infix "/" := Double.div : double_scope.
Infix "<?" := Double.ltb : double_scope.
Infix ">?" := Double.gtb : double_scope.

(** ** The grid packer over binary64 numbers *)

(** [computeLayoutData] once more, with every number a binary64 value and
    every operation the engine's: the clipped height is a quotient, a
    difference and a product, each rounded, before [Math.round]. *)
Module Binary64.

Record Item (P : Type) : Type := mkItem {
  id : string;
  height : Double.t;
  width : option Double.t;
  columnSpan : Double.t;
  newRow : bool;
  renderComponent : P
}.

Arguments mkItem {P}.
Arguments id {P}.
Arguments height {P}.
Arguments width {P}.
Arguments columnSpan {P}.
Arguments newRow {P}.
Arguments renderComponent {P}.

Record ConfigData (P : Type) : Type := mkConfigData {
  windowMargin : Double.t;
  gridGap : Double.t;
  columnCount : Double.t;
  entries : list (Item P)
}.

Arguments mkConfigData {P}.
Arguments windowMargin {P}.
Arguments gridGap {P}.
Arguments columnCount {P}.
Arguments entries {P}.

Record Cell (P : Type) : Type := mkCell {
  item :> Item P;
  columnNumber : Double.t;
  rowNumber : Double.t;
  offset : Double.t
}.

Arguments mkCell {P}.
Arguments item {P}.
Arguments columnNumber {P}.
Arguments rowNumber {P}.
Arguments offset {P}.

Record LayoutData (P : Type) : Type := mkLayoutData {
  totalHeight : Double.t;
  cells : list (Cell P)
}.

Arguments mkLayoutData {P}.
Arguments totalHeight {P}.
Arguments cells {P}.

(** [getItemRatioHeight]. *)
Definition getItemRatioHeight (height width columnWidth : Double.t)
    : Double.t :=
  let imageRatio := (height / width)%D in
  Double.Math_round (columnWidth * imageRatio)%D.

Record LayoutState : Type := mkLayoutState {
  currentRowNumber : Double.t;
  prevRowsTotalHeight : Double.t;
  currentRowMaxHeight : Double.t;
  columnShift : Double.t
}.

Definition initialLayoutState : LayoutState :=
  mkLayoutState (Double.ofZ 1) (Double.ofZ 0) (Double.ofZ 0) (Double.ofZ 0).

(** The callback of [entries.map] in [computeLayoutData]. *)
Definition layoutEntry {P : Type} (configData : ConfigData P)
    (st : LayoutState) (entry : Item P) (index : Z)
    : LayoutState * Cell P :=
  let columnCount := columnCount configData in
  let gridGap := gridGap configData in
  let columnSpanRecompute := columnSpan entry in
  let heightRecompute := height entry in
  let columnSpanRecompute :=
    if (columnSpanRecompute <? Double.ofZ 1)%D
    then columnCount
    else columnSpanRecompute in
  let distanceToRowStart :=
    Double.rem (Double.ofZ index + columnShift st)%D columnCount in
  let columnShift1 :=
    if newRow entry && Double.neqb distanceToRowStart (Double.ofZ 0)
    then (columnShift st + (columnCount - distanceToRowStart))%D
    else columnShift st in
  let shiftedIndex := (Double.ofZ index + columnShift1)%D in
  let columnNumber := (Double.rem shiftedIndex columnCount + Double.ofZ 1)%D in
  let rowNumber :=
    (Double.Math_floor (shiftedIndex / columnCount) + Double.ofZ 1)%D in
  let '(heightRecompute, columnSpanRecompute) :=
    if (columnNumber + columnSpanRecompute >? columnCount + Double.ofZ 1)%D
    then
      let overlapNumber :=
        (columnNumber + columnSpanRecompute - columnCount - Double.ofZ 1)%D in
      let overlapRatio := (overlapNumber / columnSpanRecompute)%D in
      ((heightRecompute * (Double.ofZ 1 - overlapRatio))%D,
       (columnSpanRecompute - overlapNumber)%D)
    else (heightRecompute, columnSpanRecompute) in
  let columnShift2 :=
    if (columnSpanRecompute >? Double.ofZ 1)%D
    then (columnShift1 + (columnSpanRecompute - Double.ofZ 1))%D
    else columnShift1 in
  let '(currentRowNumber1, prevRowsTotalHeight1, currentRowMaxHeight1) :=
    if Double.neqb rowNumber (currentRowNumber st)
    then (rowNumber,
          (prevRowsTotalHeight st + (currentRowMaxHeight st + gridGap))%D,
          Double.ofZ 0)
    else (currentRowNumber st, prevRowsTotalHeight st,
          currentRowMaxHeight st) in
  let offset := prevRowsTotalHeight1 in
  let height := Double.Math_round heightRecompute in
  let currentRowMaxHeight2 := Double.Math_max currentRowMaxHeight1 height in
  (mkLayoutState currentRowNumber1 prevRowsTotalHeight1 currentRowMaxHeight2
     columnShift2,
   mkCell
     (mkItem (id entry) height (width entry) columnSpanRecompute
        (newRow entry) (renderComponent entry))
     columnNumber rowNumber offset).

(** [computeLayoutData]. *)
Definition computeLayoutData {P : Type} (configData : option (ConfigData P))
    : LayoutData P :=
  match configData with
  | None => mkLayoutData (Double.ofZ 0) []
  | Some configData =>
      let '(st, cells) :=
        mapWithState (layoutEntry configData) initialLayoutState 0
          (entries configData) in
      let totalHeight :=
        (prevRowsTotalHeight st + currentRowMaxHeight st)%D in
      mkLayoutData totalHeight cells
  end.

End Binary64.

Coercion Binary64.item : Binary64.Cell >-> Binary64.Item.

(** ** Loading state machine *)

(** What the component does to its reactive fields and to the outside
    world, in program order (most recent first). *)
Inductive Effect : Type :=
| SetUpdateLock (b : bool)
| SetBottomReached (b : bool)
| CallUpdateFunction
| ConsoleError (error : string).

(** The component instance: the reactive fields that the loading protocol
    reads and writes, the number of promises returned by [updateFunction]
    that have not settled yet, and the effects performed so far. *)
Record Grid : Type := mkGrid {
  updateLock : bool;
  bottomReached : bool;
  containerData : ContainerData;
  pendingUpdates : nat;
  effects : list Effect
}.

(** The field initialisers of the class. *)
Definition initialGrid : Grid :=
  mkGrid false false
    (mkContainerData (ElementSize.mk 0 0) (ElementScroll.mk 0 0) (Some 0%Q)
       (Some (ElementSize.mk 0 0)))
    0 [].

(** What the DOM answers to [getSize], [getScroll], [getElementOffset] and
    [getElementSize] at one moment. *)
Record DomReading : Type := mkDomReading {
  getSize : ElementSize.t;
  getScroll : ElementScroll.t;
  getElementOffset : Q;
  getElementSize : ElementSize.t
}.

(** [this.updateLock = b]. *)
Definition setUpdateLock (b : bool) (g : Grid) : Grid :=
  mkGrid b (bottomReached g) (containerData g) (pendingUpdates g)
    (SetUpdateLock b :: effects g).

(** [this.bottomReached = b]. *)
Definition setBottomReached (b : bool) (g : Grid) : Grid :=
  mkGrid (updateLock g) b (containerData g) (pendingUpdates g)
    (SetBottomReached b :: effects g).

(** [this.updateFunction()]: the call is made and its promise is pending. *)
Definition callUpdateFunction (g : Grid) : Grid :=
  mkGrid (updateLock g) (bottomReached g) (containerData g)
    (S (pendingUpdates g)) (CallUpdateFunction :: effects g).

(** A promise returned by [updateFunction] settles. *)
Definition settleUpdate (g : Grid) : Grid :=
  mkGrid (updateLock g) (bottomReached g) (containerData g)
    (pred (pendingUpdates g)) (effects g).

(** [console.error('Fail to load next data batch', error)]. *)
Definition consoleError (error : string) (g : Grid) : Grid :=
  mkGrid (updateLock g) (bottomReached g) (containerData g)
    (pendingUpdates g) (ConsoleError error :: effects g).

(** [computeContainerData]; [ref] is [None] while [this.ref] is [null]. *)
Definition computeContainerData (ref : option DomReading) (g : Grid) : Grid :=
  match ref with
  | None => g
  | Some dom =>
      mkGrid (updateLock g) (bottomReached g)
        (mkContainerData (getSize dom) (getScroll dom)
           (Some (getElementOffset dom)) (Some (getElementSize dom)))
        (pendingUpdates g) (effects g)
  end.

(** How far a call of an async function has come when control returns to
    the event loop: its promise is fulfilled, it is suspended at an [await],
    or its promise is rejected. *)
Inductive Completion : Type :=
| Fulfilled
| Awaiting
| Rejected (error : string).

(** The condition of the [if] in [loadMoreDataAsync], without the two flags:
    the bottom of the window has reached the trigger line. *)
Definition bottomTriggered (updateTriggerMargin : Q)
    (containerData : ContainerData) (elementSize : ElementSize.t) : bool :=
  let windowTop := ElementScroll.y (scroll containerData) in
  let windowBottom :=
    (windowTop + ElementSize.height (size containerData))%Q in
  let bottomTrigger :=
    Math_max 0
      (toNumber (elementOffset containerData)
       + ElementSize.height elementSize - updateTriggerMargin)%Q in
  Qle_bool bottomTrigger windowBottom.

(** [loadMoreDataAsync], from its call to its first [await] or to its end.
    Reading [elementSize.height] through [null] throws. *)
Definition loadMoreDataAsync (updateTriggerMargin : Q)
    (ref : option DomReading) (g : Grid) : Completion * Grid :=
  let g := computeContainerData ref g in
  match elementSize (containerData g) with
  | None => (Rejected "TypeError", g)
  | Some elementSize =>
      if negb (bottomReached g)
         && bottomTriggered updateTriggerMargin (containerData g) elementSize
         && negb (updateLock g)
      then
        let g := setUpdateLock true g in
        let g := callUpdateFunction g in
        (Awaiting, g)
      else (Fulfilled, g)
  end.

(** [loadMoreDataAsync] from the point where [await this.updateFunction()]
    yields [isLastBatch] to the next [await] or to the end.  The call ends
    with [await this.loadMoreDataAsync()], so it completes as that call
    does. *)
Definition resumeLoadMoreDataAsync (updateTriggerMargin : Q)
    (isLastBatch : bool) (ref : option DomReading) (g : Grid)
    : Completion * Grid :=
  let g := if isLastBatch then setBottomReached true g else g in
  let g := setUpdateLock false g in
  loadMoreDataAsync updateTriggerMargin ref g.

(** The handler that [loadMoreData] attaches with [.catch]: an error is
    logged when it is truthy (for a string: not empty). *)
Definition catchHandler (c : Completion) (g : Grid) : Grid :=
  match c with
  | Rejected error =>
      if (String.length error =? 0)%nat then g else consoleError error g
  | _ => g
  end.

(** [loadMoreData]. *)
Definition loadMoreData (updateTriggerMargin : Q) (ref : option DomReading)
    (g : Grid) : Grid :=
  let '(c, g) := loadMoreDataAsync updateTriggerMargin ref g in
  catchHandler c g.

(** [resize] and [scroll] (the method; [scroll] above is the field of
    [ContainerData]). *)
Definition resize := loadMoreData.
Definition scroll' := loadMoreData.

(** [initiliazeGrid], with the callback it hands to [$nextTick]. *)
Definition initiliazeGrid (updateTriggerMargin : Q) (ref : option DomReading)
    (g : Grid) : Grid :=
  let g := computeContainerData ref g in
  loadMoreData updateTriggerMargin ref g.

(** [resetGrid]. *)
Definition resetGrid (updateTriggerMargin : Q) (ref : option DomReading)
    (g : Grid) : Grid :=
  let g := setBottomReached false g in
  loadMoreData updateTriggerMargin ref g.

(** What the event loop delivers to the component.  Each event carries the
    DOM reading that the code it runs will sample. *)
Inductive Event : Type :=
| Mounted (ref : option DomReading)
| Resize (ref : option DomReading)
| Scroll (ref : option DomReading)
| ResetGrid (ref : option DomReading)
| UpdateFulfilled (isLastBatch : bool) (ref : option DomReading)
| UpdateRejected (error : string).

(** One turn of the event loop.  A promise of [updateFunction] can only
    settle while one is pending; the call suspended on it then runs on, and
    what it throws reaches the [.catch] of the [loadMoreData] it began in. *)
Definition step (updateTriggerMargin : Q) (ev : Event) (g : Grid)
    : option Grid :=
  match ev with
  | Mounted ref => Some (initiliazeGrid updateTriggerMargin ref g)
  | Resize ref => Some (resize updateTriggerMargin ref g)
  | Scroll ref => Some (scroll' updateTriggerMargin ref g)
  | ResetGrid ref => Some (resetGrid updateTriggerMargin ref g)
  | UpdateFulfilled isLastBatch ref =>
      match pendingUpdates g with
      | O => None
      | S _ =>
          let '(c, g) :=
            resumeLoadMoreDataAsync updateTriggerMargin isLastBatch ref
              (settleUpdate g) in
          Some (catchHandler c g)
      end
  | UpdateRejected error =>
      match pendingUpdates g with
      | O => None
      | S _ => Some (catchHandler (Rejected error) (settleUpdate g))
      end
  end.

(** A sequence of turns. *)
Fixpoint run (updateTriggerMargin : Q) (evs : list Event) (g : Grid)
    : option Grid :=
  match evs with
  | [] => Some g
  | ev :: evs' =>
      match step updateTriggerMargin ev g with
      | Some g' => run updateTriggerMargin evs' g'
      | None => None
      end
  end.

(** The number of calls of [updateFunction] so far. *)
Definition isCallUpdateFunction (e : Effect) : bool :=
  match e with
  | CallUpdateFunction => true
  | _ => false
  end.

Definition fetchCount (g : Grid) : nat :=
  List.length (filter isCallUpdateFunction (effects g)).

(** ** Rendering helpers *)

(** The template literal [`${n}`] on an integer: its decimal numeral. *)
Definition numberToString (n : Z) : string :=
  NilZero.string_of_int (Z.to_int n).

(** [getGridRowStart]; [None] is [undefined]. *)
Definition getGridRowStart {P : Type} (cell : Cell P)
    (renderData : option (RenderData P)) : option string :=
  match renderData with
  | None => None
  | Some renderData =>
      let offset :=
        match firstRenderedRowNumber renderData with
        | Some n => n - 1
        | None => 0
        end in
      let gridRowStart := rowNumber cell - offset in
      Some (numberToString gridRowStart)
  end.

(** The getter [loadingBatch], [this.loader && this.updateLock]: the
    [loader] prop is [null] ([None]) or a component, which is truthy. *)
Definition loadingBatch {L : Type} (loader : option L) (g : Grid)
    : option bool :=
  match loader with
  | None => None
  | Some _ => Some (updateLock g)
  end.

(** ** Vocabulary of the statements *)

(** *** Config derivation *)

(** The width of the tracked element as [computeConfigData] reads it. *)
Definition trackedElementWidth (containerData : ContainerData) : option Q :=
  match elementSize containerData with
  | Some s => Some (ElementSize.width s)
  | None => None
  end.

(** *** Grid packer *)

(** What a cell keeps of the entry it was made from: every field but the
    five that [computeLayoutData] computes ([columnNumber], [rowNumber],
    [offset], [height], [columnSpan]). *)
Definition carriesOver {P : Type} (entry : Item P) (cell : Cell P) : Prop :=
  id cell = id entry
  /\ width cell = width entry
  /\ newRow cell = newRow entry
  /\ renderComponent cell = renderComponent entry.

(** The geometry of a cell stays inside a grid of [columnCount] columns. *)
Definition insideGrid {P : Type} (columnCount : Z) (cell : Cell P) : Prop :=
  1 <= columnNumber cell <= columnCount
  /\ columnNumber cell + columnSpan cell - 1 <= columnCount.

(** [columnShift] once a forced new row has padded out the current row. *)
Definition newRowShift {P : Type} (configData : ConfigData P)
    (st : LayoutState) (entry : Item P) (index : Z) : Z :=
  let distanceToRowStart :=
    Z.rem (index + columnShift st) (columnCount configData) in
  if newRow entry && negb (distanceToRowStart =? 0)
  then columnShift st + (columnCount configData - distanceToRowStart)
  else columnShift st.

(** [shiftedIndex]. *)
Definition shiftedIndexOf {P : Type} (configData : ConfigData P)
    (st : LayoutState) (entry : Item P) (index : Z)
    : Z :=
  index + newRowShift configData st entry index.

(** An invariant of the packer's loop: index and column shift are not
    negative. *)
Definition shiftInv (st : LayoutState) (index : Z) : Prop :=
  0 <= index /\ 0 <= columnShift st.

(** A second invariant of the packer's loop: the row being filled is not
    after the row of the next free position, and its running maximum is not
    negative. *)
Definition rowInv {P : Type} (configData : ConfigData P) (st : LayoutState)
    (index : Z) : Prop :=
  shiftInv st index
  /\ currentRowNumber st
     <= (index + columnShift st) / columnCount configData + 1
  /\ (0 <= currentRowMaxHeight st)%Q.

(** Two cells in the order the packer lays rows out. *)
Definition rowOrder {P : Type} (c1 c2 : Cell P) : Prop :=
  rowNumber c1 <= rowNumber c2
  /\ (rowNumber c1 = rowNumber c2 -> offset c1 = offset c2).

(** The greatest of 0 and the heights of the cells of row [r]. *)
Definition rowMaxHeight {P : Type} (r : Z) (cells : list (Cell P)) : Q :=
  fold_left
    (fun (m : Q) (cell : Cell P) =>
       if rowNumber cell =? r then Math_max m (height cell) else m)
    cells 0%Q.

(** A config with another grid gap. *)
Definition withGridGap {P : Type} (gap : Q) (configData : ConfigData P)
    : ConfigData P :=
  mkConfigData (windowMargin configData) gap (columnCount configData)
    (entries configData).

(** What a change of the grid gap leaves alone in the packer's state. *)
Definition sameRowState (st1 st2 : LayoutState) : Prop :=
  currentRowNumber st1 = currentRowNumber st2
  /\ currentRowMaxHeight st1 = currentRowMaxHeight st2
  /\ columnShift st1 = columnShift st2.

(** *** Viewport windower *)

(** The geometry of the windower: the absolute top and bottom of a cell
    and the band of the window extended by the margin. *)
Definition cellTop {P : Type} (elementOffset : Q) (cell : Cell P) : Q :=
  (elementOffset + offset cell)%Q.

Definition cellBottom {P : Type} (elementOffset : Q) (cell : Cell P) : Q :=
  (cellTop elementOffset cell + height cell)%Q.

Definition renderTop {P : Type} (configData : ConfigData P)
    (containerData : ContainerData) : Q :=
  (ElementScroll.y (scroll containerData) - windowMargin configData)%Q.

Definition renderBottom {P : Type} (configData : ConfigData P)
    (containerData : ContainerData) : Q :=
  (ElementScroll.y (scroll containerData)
   + ElementSize.height (size containerData) + windowMargin configData)%Q.

(** The cell is neither entirely below nor entirely above the band. *)
Definition inRenderBand {P : Type} (configData : ConfigData P)
    (containerData : ContainerData) (elementOffset : Q) (cell : Cell P)
    : bool :=
  Qle_bool (cellTop elementOffset cell) (renderBottom configData containerData)
  && Qle_bool (renderTop configData containerData)
       (cellBottom elementOffset cell).

(** *** Loading state machine *)

(** The single-flight invariant: at most one promise of [updateFunction]
    is pending, and the lock is held while one is. *)
Definition singleFlight (g : Grid) : Prop :=
  (pendingUpdates g <= 1)%nat
  /\ (pendingUpdates g = 1%nat -> updateLock g = true).

(** The caller's reset, told from the other events. *)
Definition isResetGrid (ev : Event) : bool :=
  match ev with
  | ResetGrid _ => true
  | _ => false
  end.

(** *** Further vocabulary *)


(** The place of a cell in reading order, counted from 0 in grid slots. *)
Definition position {P : Type} (columnCount : Z) (cell : Cell P) : Z :=
  (rowNumber cell - 1) * columnCount + (columnNumber cell - 1).

(** An entry one column wide that does not force a new row. *)
Definition plainEntry {P : Type} (entry : Item P) : Prop :=
  columnSpan entry = 1 /\ newRow entry = false.

(** The geometry of a cell that does not depend on the grid gap. *)
Definition gridSlot {P : Type} (cell : Cell P) : Z * Z * Z * Q :=
  (columnNumber cell, rowNumber cell, columnSpan cell, height cell).

(** The settling of a promise of [updateFunction], and how many of the
    events are one. *)
Definition isSettlement (ev : Event) : bool :=
  match ev with
  | UpdateFulfilled _ _ => true
  | UpdateRejected _ => true
  | _ => false
  end.

Definition settledCount (evs : list Event) : nat :=
  List.length (filter isSettlement evs).

Definition isRejection (ev : Event) : bool :=
  match ev with
  | UpdateRejected _ => true
  | _ => false
  end.

Definition isLastBatchFulfilled (ev : Event) : bool :=
  match ev with
  | UpdateFulfilled true _ => true
  | _ => false
  end.

(** The errors written with [console.error], most recent first. *)
Fixpoint loggedErrors (effs : list Effect) : list string :=
  match effs with
  | [] => []
  | ConsoleError error :: effs' => error :: loggedErrors effs'
  | _ :: effs' => loggedErrors effs'
  end.

(** The truthy reasons with which promises of [updateFunction] were
    rejected, in the order of the events. *)
Fixpoint rejectionReasons (evs : list Event) : list string :=
  match evs with
  | [] => []
  | UpdateRejected error :: evs' =>
      if (String.length error =? 0)%nat then rejectionReasons evs'
      else error :: rejectionReasons evs'
  | _ :: evs' => rejectionReasons evs'
  end.

(** The sampled geometry has no [null] in it. *)
Definition geometryKnown (g : Grid) : Prop :=
  elementSize (containerData g) <> None.

(** A third invariant of the packer's loop: the next free slot is not
    beyond the end of the row being filled. *)
Definition rowBound {P : Type} (configData : ConfigData P)
    (st : LayoutState) (index : Z) : Prop :=
  shiftInv st index
  /\ index + columnShift st <= currentRowNumber st * columnCount configData.

(** The lock is held exactly while a promise of [updateFunction] is
    pending, and at most one is. *)
Definition lockExact (g : Grid) : Prop :=
  (pendingUpdates g <= 1)%nat
  /\ (updateLock g = true <-> pendingUpdates g = 1%nat).

(** *** Binary64 *)

(** [f] holds of the [n] integers from [z] on. *)
Fixpoint allFrom (f : Z -> bool) (z : Z) (n : nat) : bool :=
  match n with
  | O => true
  | S n' => f z && allFrom f (z + 1) n'
  end.

(** For the height [h], [Math.round (h * (1 - 2 / 6))] as the engine
    computes it is two thirds of [h] rounded to the nearest integer. *)
Definition clipsToTwoThirds (h : Z) : bool :=
  Double.same
    (Double.Math_round
       (Double.ofZ h * (Double.ofZ 1 - Double.ofZ 2 / Double.ofZ 6))%D)
    (Double.ofZ (Math_round ((2 # 3) * inject_Z h))).

(** *** Inputs to evaluate the statements on *)

(** A container whose tracked element is [w] wide, in a 800 x 600 window. *)
Definition containerOfWidth (w : Q) : ContainerData :=
  mkContainerData (ElementSize.mk 800 600) (ElementScroll.mk 0 0) (Some 0%Q)
    (Some (ElementSize.mk w 0)).

(** Four columns: an entry of span 6 at the start of the first row, a
    forced new row, an entry of full width. *)
Definition sampleEntries : list (Item unit) :=
  [ mkItem "a" 300 None 6 false tt;
    mkItem "b" 120 None 1 false tt;
    mkItem "c" 80 None 2 false tt;
    mkItem "d" 95 None 1 true tt;
    mkItem "e" 210 None 0 false tt ].

Definition sampleConfig : ConfigData unit :=
  mkConfigData 900 10 4 sampleEntries.

(** One column, two entries 10 high, and a gap of -100. *)
Definition negativeGapConfig : ConfigData unit :=
  mkConfigData 0 (-100) 1
    [ mkItem "a" 10 None 1 false tt; mkItem "b" 10 None 1 false tt ].

(** One column and a single entry of height -5. *)
Definition negativeHeightConfig : ConfigData unit :=
  mkConfigData 0 0 1 [ mkItem "a" (-5) None 1 false tt ].

(** A window 600 high scrolled to 1000 with a margin of 100, over cells
    that lie above the band, across its upper edge, inside it, across its
    lower edge and below it. *)
Definition sampleWindow : ContainerData :=
  mkContainerData (ElementSize.mk 800 600) (ElementScroll.mk 0 1000)
    (Some 50%Q) (Some (ElementSize.mk 800 3000)).

Definition sampleWindowConfig : ConfigData unit :=
  mkConfigData 100 10 1 [].

Definition sampleWindowCells : list (Cell unit) :=
  [ mkCell (mkItem "above" 200 None 1 false tt) 1 1 0;
    mkCell (mkItem "upper" 700 None 1 false tt) 1 2 210;
    mkCell (mkItem "inside" 300 None 1 false tt) 1 3 920;
    mkCell (mkItem "lower" 500 None 1 false tt) 1 4 1230;
    mkCell (mkItem "below" 100 None 1 false tt) 1 5 1740 ].

(** A reading of the DOM at which the trigger condition holds for the
    default margin of 500: an empty grid at the top of a window 600 high. *)
Definition emptyGridReading : DomReading :=
  mkDomReading (ElementSize.mk 800 600) (ElementScroll.mk 0 0) 0
    (ElementSize.mk 800 0).

(** Two items for a container 1000 wide (four columns 243 wide, gap 10):
    one 800 x 600 spanning two columns, one without a width. *)
Definition sampleItems : list (Item unit) :=
  [ mkItem "p" 600 (Some 800%Q) 2 false tt;
    mkItem "q" 120 None 1 false tt ].

(** Three columns and four entries one column wide. *)
Definition samplePlainConfig : ConfigData unit :=
  mkConfigData 900 5 3
    [ mkItem "a" 100 None 1 false tt;
      mkItem "b" 110 None 1 false tt;
      mkItem "c" 120 None 1 false tt;
      mkItem "d" 130 None 1 false tt ].

(** The sample entries without a window margin, in a window 100 high
    scrolled to 300 over an element at offset 50: the first row is above
    the band. *)
Definition sampleScrolledConfig : ConfigData unit :=
  mkConfigData 0 10 4 sampleEntries.

Definition sampleScrolledWindow : ContainerData :=
  mkContainerData (ElementSize.mk 1000 100) (ElementScroll.mk 0 300)
    (Some 50%Q) (Some (ElementSize.mk 1000 498)).

(** A container 1000 wide and one item 800 x 600 of full width (span 0). *)
Definition fullWidthItems : list (Item unit) :=
  [ mkItem "z" 600 (Some 800%Q) 0 false tt ].

(** Four columns over binary64 numbers: three entries one column wide,
    then an entry 51 high of span 6 in column 4, an entry of span 6 at the
    start of a row, and an entry of full width (span 0) in column 2. *)
Definition doubleEntries : list (Binary64.Item unit) :=
  [ Binary64.mkItem "a" (Double.ofZ 100) None (Double.ofZ 1) false tt;
    Binary64.mkItem "b" (Double.ofZ 100) None (Double.ofZ 1) false tt;
    Binary64.mkItem "c" (Double.ofZ 100) None (Double.ofZ 1) false tt;
    Binary64.mkItem "d" (Double.ofZ 51) None (Double.ofZ 6) false tt;
    Binary64.mkItem "e" (Double.ofZ 300) None (Double.ofZ 6) false tt;
    Binary64.mkItem "f" (Double.ofZ 100) None (Double.ofZ 1) false tt;
    Binary64.mkItem "g" (Double.ofZ 90) None (Double.ofZ 0) false tt ].

Definition doubleConfig : Binary64.ConfigData unit :=
  Binary64.mkConfigData (Double.ofZ 900) (Double.ofZ 10) (Double.ofZ 4)
    doubleEntries.

Definition fullWidthConfig : ConfigData unit :=
  computeConfigData (Some (containerOfWidth 1000)) (Some fullWidthItems).

(** * Verified properties *)

(** ** Arithmetic *)

Lemma Qgtb_spec (x y : Q) : Qgtb x y = true <-> (y < x)%Q.
Proof.
  unfold Qgtb. rewrite negb_true_iff.
  split; intro H.
  - apply Qnot_le_lt. intro Hle. apply Qle_bool_iff in Hle. congruence.
  - destruct (Qle_bool x y) eqn:E; [|reflexivity].
    apply Qle_bool_iff in E. exfalso. apply (Qlt_not_le _ _ H E).
Qed.

Lemma Qltb_spec (x y : Q) : Qltb x y = true <-> (x < y)%Q.
Proof. apply (Qgtb_spec y x). Qed.

Lemma Math_floor_ge_1 (x : Q) : 1 <= Math_floor x <-> (1 <= x)%Q.
Proof.
  unfold Math_floor. split; intro H.
  - apply Qle_trans with (inject_Z (Qfloor x)); [|apply Qfloor_le].
    change (inject_Z 1 <= inject_Z (Qfloor x))%Q. rewrite <- Zle_Qle. exact H.
  - change 1 with (Qfloor (inject_Z 1)). apply Qfloor_resp_le. exact H.
Qed.

(** ** Config derivation *)

(** C4, as amended: when an input is absent the derived Config is the
    degenerate one, with a single column; otherwise
    [columnCount = floor(trackedElementWidth / 250)], an unknown width
    counting as 0, and that count is at least 1 exactly when the tracked
    element is at least 250 wide. *)
Theorem computeConfigData_columnCount (P : Type)
    (containerData : option ContainerData) (items : option (list (Item P))) :
  match containerData, items with
  | Some c, Some _ =>
      columnCount (computeConfigData containerData items)
      = Math_floor (toNumber (trackedElementWidth c) / 250)
      /\ (1 <= columnCount (computeConfigData containerData items)
          <-> (250 <= toNumber (trackedElementWidth c))%Q)
  | _, _ => computeConfigData containerData items = mkConfigData 0 0 1 []
  end.
Proof.
  destruct containerData as [c|], items as [l|]; try reflexivity.
  cbn [computeConfigData columnCount]. unfold getColumnCount.
  fold (trackedElementWidth c).
  split; [reflexivity|].
  rewrite Math_floor_ge_1.
  set (w := toNumber (trackedElementWidth c)).
  split; intro H.
  - setoid_replace w with ((w / 250) * 250)%Q by field. lra.
  - setoid_replace w with ((w / 250) * 250)%Q in H by field. lra.
Qed.

(** The derived grid gap is 0, 5 or 10. *)
Lemma computeConfigData_gridGap (P : Type)
    (containerData : option ContainerData) (items : option (list (Item P))) :
  gridGap (computeConfigData containerData items) = 0%Q
  \/ gridGap (computeConfigData containerData items) = 5%Q
  \/ gridGap (computeConfigData containerData items) = 10%Q.
Proof.
  destruct containerData as [c|], items as [l|]; auto.
  cbn [computeConfigData gridGap]. unfold execFunc, getGridGap.
  destruct (_ && _); auto.
Qed.

(** C4 as stated fails: a tracked element 100 wide, or one of unknown
    width, gives a Config with [columnCount = 0]. *)
Lemma computeConfigData_columnCount_zero :
  columnCount (computeConfigData (P := unit)
                 (Some (containerOfWidth 100)) (Some [])) = 0
  /\ columnCount (computeConfigData (P := unit)
                    (Some (mkContainerData (ElementSize.mk 800 600)
                             (ElementScroll.mk 0 0) (Some 0%Q) None))
                    (Some [])) = 0
  /\ ~ (forall (c : option ContainerData) (items : option (list (Item unit))),
          1 <= columnCount (computeConfigData c items)).
Proof.
  split; [reflexivity|]. split; [reflexivity|].
  intro H.
  specialize (H (Some (containerOfWidth 100)) (Some [])).
  vm_compute in H. apply H. reflexivity.
Qed.

(** ** [mapWithState] *)

Section MapWithState.

Context {S A B : Type}.
Variable f : S -> A -> Z -> S * B.

Lemma mapWithState_cons (st : S) (index : Z) (a : A) (l : list A) :
  mapWithState f st index (a :: l)
  = (fst (mapWithState f (fst (f st a index)) (index + 1) l),
     snd (f st a index)
     :: snd (mapWithState f (fst (f st a index)) (index + 1) l)).
Proof.
  cbn [mapWithState].
  destruct (f st a index) as [st1 b]. cbn [fst snd].
  destruct (mapWithState f st1 (index + 1) l) as [st2 bs].
  reflexivity.
Qed.

Lemma mapWithState_length (l : list A) (st : S) (index : Z) :
  List.length (snd (mapWithState f st index l)) = List.length l.
Proof.
  revert st index.
  induction l as [|a l IH]; intros st index; [reflexivity|].
  rewrite mapWithState_cons. cbn [snd List.length]. now rewrite IH.
Qed.

(** Every element of the result is the callback applied to the element of
    the same position, at that position's index, from some state that an
    invariant of the callback holds of. *)
Lemma mapWithState_nth_error (Inv : S -> Z -> Prop) :
  (forall st a index, Inv st index -> Inv (fst (f st a index)) (index + 1)) ->
  forall (l : list A) (st : S) (index : Z), Inv st index ->
  forall (n : nat) (a : A), nth_error l n = Some a ->
  exists st_n : S,
    Inv st_n (index + Z.of_nat n)
    /\ nth_error (snd (mapWithState f st index l)) n
       = Some (snd (f st_n a (index + Z.of_nat n))).
Proof.
  intros Hstep l.
  induction l as [|a0 l IH]; intros st index Hinv n a Hn.
  - destruct n; discriminate.
  - rewrite mapWithState_cons. cbn [snd].
    destruct n as [|n].
    + injection Hn as ->. exists st.
      rewrite Z.add_0_r. split; [assumption|reflexivity].
    + cbn [nth_error] in Hn |- *.
      destruct (IH (fst (f st a0 index)) (index + 1) (Hstep _ _ _ Hinv) n a Hn)
        as [st_n [Hinv_n Hnth]].
      exists st_n.
      replace (index + Z.of_nat (Datatypes.S n))
        with (index + 1 + Z.of_nat n) by lia.
      split; assumption.
Qed.

(** A property that the callback gives every element it makes from a state
    satisfying the invariant holds of the whole result. *)
Lemma mapWithState_Forall (Inv : S -> Z -> Prop) (Q : B -> Prop) :
  (forall st a index, Inv st index -> Inv (fst (f st a index)) (index + 1)) ->
  (forall st a index, Inv st index -> Q (snd (f st a index))) ->
  forall (l : list A) (st : S) (index : Z), Inv st index ->
  Forall Q (snd (mapWithState f st index l)).
Proof.
  intros Hstep HQ l.
  induction l as [|a l IH]; intros st index Hinv.
  - constructor.
  - rewrite mapWithState_cons. cbn [snd].
    constructor; [apply HQ; assumption|].
    apply IH, Hstep, Hinv.
Qed.

(** The invariant holds of the final state. *)
Lemma mapWithState_final (Inv : S -> Z -> Prop) :
  (forall st a index, Inv st index -> Inv (fst (f st a index)) (index + 1)) ->
  forall (l : list A) (st : S) (index : Z), Inv st index ->
  Inv (fst (mapWithState f st index l)) (index + Z.of_nat (List.length l)).
Proof.
  intros Hstep l.
  induction l as [|a l IH]; intros st index Hinv.
  - cbn. now rewrite Z.add_0_r.
  - rewrite mapWithState_cons. cbn [fst].
    replace (index + Z.of_nat (List.length (a :: l)))
      with (index + 1 + Z.of_nat (List.length l))
      by (cbn [List.length]; lia).
    apply IH, Hstep, Hinv.
Qed.

(** A relation between element and result that the callback always
    establishes holds position by position. *)
Lemma mapWithState_Forall2 (R : A -> B -> Prop) :
  (forall st a index, R a (snd (f st a index))) ->
  forall (l : list A) (st : S) (index : Z),
  Forall2 R l (snd (mapWithState f st index l)).
Proof.
  intros HR l.
  induction l as [|a l IH]; intros st index.
  - constructor.
  - rewrite mapWithState_cons. cbn [snd].
    constructor; [apply HR|apply IH].
Qed.

End MapWithState.

(** ** Grid packer: what [layoutEntry] computes *)

Section LayoutEntry.

Context {P : Type}.
Variable configData : ConfigData P.

Lemma layoutEntry_carriesOver (st : LayoutState) (entry : Item P)
    (index : Z) :
  carriesOver entry (snd (layoutEntry configData st entry index)).
Proof.
  unfold layoutEntry, carriesOver.
  destruct (_ >? _); destruct (negb _); cbn; repeat split.
Qed.

Lemma layoutEntry_columnNumber (st : LayoutState) (entry : Item P)
    (index : Z) :
  columnNumber (snd (layoutEntry configData st entry index))
  = Z.rem (shiftedIndexOf configData st entry index) (columnCount configData)
    + 1.
Proof.
  unfold layoutEntry, shiftedIndexOf, newRowShift.
  destruct (_ >? _); destruct (negb (_ =? currentRowNumber st)); reflexivity.
Qed.

Lemma layoutEntry_rowNumber (st : LayoutState) (entry : Item P) (index : Z) :
  rowNumber (snd (layoutEntry configData st entry index))
  = shiftedIndexOf configData st entry index / columnCount configData + 1.
Proof.
  unfold layoutEntry, shiftedIndexOf, newRowShift, Math_floor.
  rewrite <- Zdiv_Qdiv.
  destruct (_ >? _); destruct (negb (_ =? currentRowNumber st)); reflexivity.
Qed.

(** The clipping step, read off the cell: span and height of the cell from
    the entry's and from the cell's column. *)
Lemma layoutEntry_clip (st : LayoutState) (entry : Item P) (index : Z) :
  let cell := snd (layoutEntry configData st entry index) in
  let span := fullRowSpan (columnCount configData) entry in
  let overlap :=
    columnNumber cell + span - columnCount configData - 1 in
  if columnNumber cell + span >? columnCount configData + 1
  then columnSpan cell = span - overlap
       /\ height cell
          = inject_Z
              (Math_round
                 (height entry * (1 - inject_Z overlap / inject_Z span)))
  else columnSpan cell = span
       /\ height cell = inject_Z (Math_round (height entry)).
Proof.
  intros cell span overlap.
  assert (Hcol : columnNumber cell
                 = Z.rem (shiftedIndexOf configData st entry index)
                     (columnCount configData) + 1)
    by apply layoutEntry_columnNumber.
  subst overlap. rewrite Hcol. subst cell span.
  unfold layoutEntry, shiftedIndexOf, newRowShift.
  destruct (_ >? _); destruct (negb (_ =? currentRowNumber st));
    cbn; split; reflexivity.
Qed.

End LayoutEntry.

(** ** Grid packer: frame, validity and clipping *)

Lemma computeLayoutData_cells {P : Type} (configData : ConfigData P) :
  cells (computeLayoutData (Some configData))
  = snd (mapWithState (layoutEntry configData) initialLayoutState 0
           (entries configData)).
Proof.
  unfold computeLayoutData.
  destruct (mapWithState _ _ _ _) as [st cs]. reflexivity.
Qed.

Lemma computeLayoutData_totalHeight {P : Type} (configData : ConfigData P) :
  totalHeight (computeLayoutData (Some configData))
  = (let st := fst (mapWithState (layoutEntry configData) initialLayoutState
                      0 (entries configData)) in
     prevRowsTotalHeight st + currentRowMaxHeight st)%Q.
Proof.
  unfold computeLayoutData.
  destruct (mapWithState _ _ _ _) as [st cs]. reflexivity.
Qed.

(** C10: the packer returns one cell per entry, in the order of the entries;
    each cell has the identifier, width, new-row flag and payload of its
    entry; without a config, and for an empty entry list, it returns no cell
    and a total height of 0. *)
Theorem computeLayoutData_frame (P : Type) (configData : ConfigData P) :
  Forall2 carriesOver (entries configData)
    (cells (computeLayoutData (Some configData)))
  /\ List.length (cells (computeLayoutData (Some configData)))
     = List.length (entries configData)
  /\ map (fun cell : Cell P => id cell)
       (cells (computeLayoutData (Some configData)))
     = map (fun entry : Item P => id entry) (entries configData)
  /\ (entries configData = [] ->
      computeLayoutData (Some configData) = mkLayoutData 0 [])
  /\ computeLayoutData (@None (ConfigData P)) = mkLayoutData 0 [].
Proof.
  assert (HF : Forall2 carriesOver (entries configData)
                 (cells (computeLayoutData (Some configData)))).
  { rewrite computeLayoutData_cells.
    apply mapWithState_Forall2. intros st a index.
    apply layoutEntry_carriesOver. }
  split; [exact HF|].
  split; [symmetry; eapply Forall2_length; exact HF|].
  split.
  - induction HF as [|e c es cs [Hid _] _ IH]; [reflexivity|].
    cbn [map]. now rewrite Hid, IH.
  - split; [|reflexivity].
    intro He. unfold computeLayoutData. rewrite He. reflexivity.
Qed.

Section PackerValidity.

Context {P : Type}.
Variable configData : ConfigData P.
Hypothesis columnCount_pos : 1 <= columnCount configData.

Lemma newRowShift_ge (st : LayoutState) (entry : Item P) (index : Z) :
  shiftInv st index ->
  columnShift st <= newRowShift configData st entry index.
Proof.
  intros [Hi Hs]. unfold newRowShift.
  destruct (newRow entry && _); [|lia].
  pose proof (Z.rem_bound_pos (index + columnShift st)
                (columnCount configData)).
  lia.
Qed.

Lemma layoutEntry_insideGrid (st : LayoutState) (entry : Item P)
    (index : Z) :
  shiftInv st index ->
  insideGrid (columnCount configData)
    (snd (layoutEntry configData st entry index)).
Proof.
  intros Hinv.
  pose proof (newRowShift_ge st entry index Hinv) as Hge.
  destruct Hinv as [Hi Hs].
  pose proof (layoutEntry_clip configData st entry index) as Hclip.
  cbv zeta in Hclip.
  pose proof (layoutEntry_columnNumber configData st entry index) as Hcol.
  pose proof (Z.rem_bound_pos (shiftedIndexOf configData st entry index)
                (columnCount configData)) as Hrem.
  unfold shiftedIndexOf in Hrem at 1.
  unfold insideGrid.
  destruct (_ >? _) eqn:E in Hclip; destruct Hclip as [Hspan _].
  - lia.
  - rewrite Z.gtb_ltb in E. apply Z.ltb_ge in E. lia.
Qed.

Lemma layoutEntry_columnShift (st : LayoutState) (entry : Item P)
    (index : Z) :
  columnShift (fst (layoutEntry configData st entry index))
  = let span :=
      columnSpan (snd (layoutEntry configData st entry index)) in
    if span >? 1
    then newRowShift configData st entry index + (span - 1)
    else newRowShift configData st entry index.
Proof.
  unfold layoutEntry, newRowShift.
  destruct (_ >? columnCount configData + 1);
    destruct (negb (_ =? currentRowNumber st)); reflexivity.
Qed.

Lemma layoutEntry_shiftInv (st : LayoutState) (entry : Item P) (index : Z) :
  shiftInv st index ->
  shiftInv (fst (layoutEntry configData st entry index)) (index + 1).
Proof.
  intros Hinv.
  pose proof (newRowShift_ge st entry index Hinv) as Hge.
  destruct Hinv as [Hi Hs].
  split; [lia|].
  rewrite layoutEntry_columnShift. cbv zeta.
  destruct (_ >? 1) eqn:E; [|lia].
  rewrite Z.gtb_ltb in E. apply Z.ltb_lt in E. lia.
Qed.

Lemma shiftInv_initial : shiftInv initialLayoutState 0.
Proof. split; cbn; lia. Qed.

End PackerValidity.

(** C5: with at least one column, every cell the packer produces has
    [1 <= columnNumber <= columnCount] and
    [columnNumber + columnSpan - 1 <= columnCount]. *)
Theorem computeLayoutData_insideGrid (P : Type) (configData : ConfigData P) :
  1 <= columnCount configData ->
  Forall (insideGrid (columnCount configData))
    (cells (computeLayoutData (Some configData))).
Proof.
  intro Hcc.
  rewrite computeLayoutData_cells.
  apply mapWithState_Forall with (Inv := shiftInv).
  - intros st a index. apply layoutEntry_shiftInv, Hcc.
  - intros st a index. apply layoutEntry_insideGrid, Hcc.
  - apply shiftInv_initial.
Qed.

Lemma computeLayoutData_insideGrid_sample :
  1 <= columnCount sampleConfig
  /\ Forall (insideGrid 4) (cells (computeLayoutData (Some sampleConfig))).
Proof.
  split; [cbn; lia|].
  apply (computeLayoutData_insideGrid unit sampleConfig).
  cbn. lia.
Defined.

Lemma computeLayoutData_nth_error {P : Type} (configData : ConfigData P)
    (n : nat) (entry : Item P) (cell : Cell P) :
  nth_error (entries configData) n = Some entry ->
  nth_error (cells (computeLayoutData (Some configData))) n = Some cell ->
  exists st : LayoutState,
    cell = snd (layoutEntry configData st entry (Z.of_nat n)).
Proof.
  intros He Hc.
  rewrite computeLayoutData_cells in Hc.
  destruct (mapWithState_nth_error (layoutEntry configData)
              (fun _ _ => True) (fun _ _ _ _ => I) (entries configData)
              initialLayoutState 0 I n entry He) as [st [_ Hn]].
  rewrite Hn in Hc. injection Hc as <-.
  exists st. reflexivity.
Qed.

(** ** Grid packer over binary64 numbers: the clipping step *)

Lemma Double_same_eq (x y : Double.t) : Double.same x y = true -> x = y.
Proof.
  destruct x as [s1|s1| |s1 m1 e1], y as [s2|s2| |s2 m2 e2];
    cbn [Double.same]; try discriminate; try reflexivity.
  - intro H. apply Bool.eqb_prop in H. now subst.
  - intro H. apply Bool.eqb_prop in H. now subst.
  - intro H. apply andb_true_iff in H. destruct H as [H He].
    apply andb_true_iff in H. destruct H as [Hs Hm].
    apply Bool.eqb_prop in Hs. apply Pos.eqb_eq in Hm. apply Z.eqb_eq in He.
    now subst.
Qed.

Lemma allFrom_spec (f : Z -> bool) (n : nat) (z : Z) :
  allFrom f z n = true ->
  forall h : Z, z <= h < z + Z.of_nat n -> f h = true.
Proof.
  revert z.
  induction n as [|n IH]; intros z Hall h Hh; [lia|].
  cbn [allFrom] in Hall. apply andb_true_iff in Hall.
  destruct Hall as [Hz Hrest].
  destruct (Z.eq_dec h z) as [->|Hne]; [exact Hz|].
  apply (IH (z + 1) Hrest). lia.
Qed.

(** The factor of an entry of span 6 clipped to four columns: [1 - 2 / 6]
    is the number above two thirds, [2 / 3] the one below. *)
Lemma clipping_factor_two_thirds :
  (Double.ofZ 1 - Double.ofZ 2 / Double.ofZ 6)%D
  = S754_finite false 6004799503160662 (-53)
  /\ (Double.ofZ 2 / Double.ofZ 3)%D
     = S754_finite false 6004799503160661 (-53).
Proof. split; vm_compute; reflexivity. Qed.

(** With that factor, every integer height from 0 to 10000 is clipped to
    two thirds of it, rounded to the nearest integer. *)
Lemma clipsToTwoThirds_heights (h : Z) :
  0 <= h <= 10000 -> clipsToTwoThirds h = true.
Proof.
  intro Hh.
  apply (allFrom_spec clipsToTwoThirds (Z.to_nat 10001) 0).
  - vm_compute. reflexivity.
  - rewrite Z2Nat.id; lia.
Qed.

(** A height that is not an integer can be clipped to another integer than
    two thirds of it rounded: for the number below 0.75 the product is
    rounded to 0.5 and then to 1, while two thirds of it are below 0.5. *)
Lemma clipping_two_thirds_not_exact :
  Double.Math_round
    (S754_finite false 6755399441055743 (-53)
     * (Double.ofZ 1 - Double.ofZ 2 / Double.ofZ 6))%D
  = Double.ofZ 1
  /\ Math_round ((2 # 3) * (6755399441055743 # 9007199254740992)) = 0.
Proof. split; vm_compute; reflexivity. Qed.

Section Binary64Packer.

Context {P : Type}.
Variable configData : Binary64.ConfigData P.

Lemma Binary64_computeLayoutData_cells :
  Binary64.cells (Binary64.computeLayoutData (Some configData))
  = snd (mapWithState (Binary64.layoutEntry configData)
           Binary64.initialLayoutState 0 (Binary64.entries configData)).
Proof.
  unfold Binary64.computeLayoutData.
  destruct (mapWithState _ _ _ _) as [st cs]. reflexivity.
Qed.

Lemma Binary64_computeLayoutData_nth_error (n : nat)
    (entry : Binary64.Item P) (cell : Binary64.Cell P) :
  nth_error (Binary64.entries configData) n = Some entry ->
  nth_error (Binary64.cells (Binary64.computeLayoutData (Some configData))) n
  = Some cell ->
  exists st : Binary64.LayoutState,
    cell = snd (Binary64.layoutEntry configData st entry (Z.of_nat n)).
Proof.
  intros He Hc.
  rewrite Binary64_computeLayoutData_cells in Hc.
  destruct (mapWithState_nth_error (Binary64.layoutEntry configData)
              (fun _ _ => True) (fun _ _ _ _ => I)
              (Binary64.entries configData)
              Binary64.initialLayoutState 0 I n entry He) as [st [_ Hn]].
  rewrite Hn in Hc. injection Hc as <-.
  exists st. reflexivity.
Qed.

(** The clipping step, read off the cell. *)
Lemma Binary64_layoutEntry_clip (st : Binary64.LayoutState)
    (entry : Binary64.Item P) (index : Z) :
  let cell := snd (Binary64.layoutEntry configData st entry index) in
  let span :=
    if (Binary64.columnSpan entry <? Double.ofZ 1)%D
    then Binary64.columnCount configData
    else Binary64.columnSpan entry in
  let overlap :=
    (Binary64.columnNumber cell + span - Binary64.columnCount configData
     - Double.ofZ 1)%D in
  if (Binary64.columnNumber cell + span
      >? Binary64.columnCount configData + Double.ofZ 1)%D
  then Binary64.columnSpan cell = (span - overlap)%D
       /\ Binary64.height cell
          = Double.Math_round
              (Binary64.height entry * (Double.ofZ 1 - overlap / span))%D
  else Binary64.columnSpan cell = span
       /\ Binary64.height cell = Double.Math_round (Binary64.height entry).
Proof.
  intros cell span overlap. subst overlap cell.
  unfold Binary64.layoutEntry. fold span.
  set (one := Double.ofZ 1).
  set (columnShift1 := if (Binary64.newRow entry && _)%bool then _ else _).
  set (columnNumber :=
         (Double.rem (Double.ofZ index + columnShift1)
            (Binary64.columnCount configData) + one)%D).
  destruct (columnNumber + span >? Binary64.columnCount configData + one)%D
    eqn:Hclip;
    destruct (Double.neqb _ (Binary64.currentRowNumber st));
    cbn [snd Binary64.columnNumber Binary64.columnSpan Binary64.height
         Binary64.item];
    rewrite Hclip; split; reflexivity.
Qed.

End Binary64Packer.

(** C6: in the packer as the engine runs it, with [span] the entry's column
    span, or the column count when that span is below 1: when the cell's
    column plus [span] exceeds [columnCount + 1], the cell has the span
    [span - overlap], for [overlap = columnNumber + span - columnCount - 1],
    and the height [Math.round (height * (1 - overlap / span))], where the
    quotient, the difference and the product are each rounded to the
    nearest number; otherwise it has the span [span] and the entry's height
    rounded.  With four columns, an entry of span 6 in column 1 gets span 4
    and the height [Math.round (height * (1 - 2 / 6))], which for an
    integer height from 0 to 10000 is two thirds of it rounded to the
    nearest integer. *)
Theorem computeLayoutData_overflow_clipping (P : Type)
    (configData : Binary64.ConfigData P) (n : nat)
    (entry : Binary64.Item P) (cell : Binary64.Cell P) :
  nth_error (Binary64.entries configData) n = Some entry ->
  nth_error (Binary64.cells (Binary64.computeLayoutData (Some configData))) n
  = Some cell ->
  let columnCount := Binary64.columnCount configData in
  let columnNumber := Binary64.columnNumber cell in
  let span :=
    if (Binary64.columnSpan entry <? Double.ofZ 1)%D
    then columnCount
    else Binary64.columnSpan entry in
  let overlap := (columnNumber + span - columnCount - Double.ofZ 1)%D in
  ((columnNumber + span >? columnCount + Double.ofZ 1)%D = true ->
   Binary64.columnSpan cell = (span - overlap)%D
   /\ Binary64.height cell
      = Double.Math_round
          (Binary64.height entry * (Double.ofZ 1 - overlap / span))%D)
  /\ ((columnNumber + span >? columnCount + Double.ofZ 1)%D = false ->
      Binary64.columnSpan cell = span
      /\ Binary64.height cell = Double.Math_round (Binary64.height entry))
  /\ (columnCount = Double.ofZ 4 ->
      Binary64.columnSpan entry = Double.ofZ 6 ->
      columnNumber = Double.ofZ 1 ->
      Binary64.columnSpan cell = Double.ofZ 4
      /\ Binary64.height cell
         = Double.Math_round
             (Binary64.height entry
              * (Double.ofZ 1 - Double.ofZ 2 / Double.ofZ 6))%D
      /\ forall h : Z,
           0 <= h <= 10000 ->
           Binary64.height entry = Double.ofZ h ->
           Binary64.height cell
           = Double.ofZ (Math_round ((2 # 3) * inject_Z h))).
Proof.
  intros He Hc columnCount columnNumber span overlap.
  destruct (Binary64_computeLayoutData_nth_error configData n entry cell
              He Hc) as [st Hcell].
  pose proof (Binary64_layoutEntry_clip configData st entry (Z.of_nat n))
    as Hclip.
  cbv zeta in Hclip. rewrite <- Hcell in Hclip.
  fold columnCount columnNumber span in Hclip. fold overlap in Hclip.
  split; [|split].
  - intro Hover. rewrite Hover in Hclip. exact Hclip.
  - intro Hfits. rewrite Hfits in Hclip. exact Hclip.
  - intros Hcc Hspan Hcol.
    assert (Hs : span = Double.ofZ 6).
    { unfold span. rewrite Hspan. reflexivity. }
    assert (Ho : overlap = Double.ofZ 2).
    { unfold overlap. rewrite Hs, Hcol, Hcc. vm_compute. reflexivity. }
    rewrite Ho, Hs, Hcol, Hcc in Hclip.
    change (Double.ofZ 1 + Double.ofZ 6 >? Double.ofZ 4 + Double.ofZ 1)%D
      with true in Hclip.
    destruct Hclip as [Hspan' Hheight].
    split; [rewrite Hspan'; vm_compute; reflexivity|].
    split; [exact Hheight|].
    intros h Hh Hentry.
    rewrite Hheight, Hentry.
    apply Double_same_eq, (clipsToTwoThirds_heights h Hh).
Qed.

Lemma computeLayoutData_overflow_clipping_sample :
  (exists cell : Binary64.Cell unit,
     nth_error
       (Binary64.cells (Binary64.computeLayoutData (Some doubleConfig))) 6
     = Some cell
     /\ Binary64.columnNumber cell = Double.ofZ 2
     /\ Binary64.columnSpan cell = Double.ofZ 3
     /\ Binary64.height cell = Double.ofZ 68)
  /\ (exists cell : Binary64.Cell unit,
        nth_error
          (Binary64.cells (Binary64.computeLayoutData (Some doubleConfig))) 4
        = Some cell
        /\ Binary64.columnNumber cell = Double.ofZ 1
        /\ Binary64.columnSpan cell = Double.ofZ 4
        /\ Binary64.height cell = Double.ofZ 200).
Proof.
  split.
  - eexists. split; [vm_compute; reflexivity|].
    split; [vm_compute; reflexivity|].
    refine (proj1 (computeLayoutData_overflow_clipping unit doubleConfig 6
                     (Binary64.mkItem "g" (Double.ofZ 90) None (Double.ofZ 0)
                        false tt) _ _ _)
              _);
      vm_compute; reflexivity.
  - eexists. split; [vm_compute; reflexivity|].
    split; [vm_compute; reflexivity|].
    destruct (proj2 (proj2 (computeLayoutData_overflow_clipping unit
                              doubleConfig 4
                              (Binary64.mkItem "e" (Double.ofZ 300) None
                                 (Double.ofZ 6) false tt) _
                              ltac:(vm_compute; reflexivity)
                              ltac:(vm_compute; reflexivity)))
                eq_refl eq_refl ltac:(vm_compute; reflexivity))
      as [Hspan [_ Hheight]].
    split; [exact Hspan|].
    refine (Hheight 300 _ _); [lia|vm_compute; reflexivity].
Defined.

(** C6 as stated fails where the product is next to a half: an entry 51
    high of span 6 in column 4 of 4 overlaps by 5, and 51 * (1 - 5/6) is
    8.5, which rounds to 9; the packer computes 5 / 6, 1 - 5 / 6 and the
    product in binary64, gets the number below 8.5 and returns 8. *)
Lemma computeLayoutData_clipped_height_rounding :
  map (fun c : Binary64.Cell unit =>
         (Binary64.columnNumber c, Binary64.columnSpan c, Binary64.height c))
    (firstn 4
       (Binary64.cells (Binary64.computeLayoutData (Some doubleConfig))))
  = [ (Double.ofZ 1, Double.ofZ 1, Double.ofZ 100);
      (Double.ofZ 2, Double.ofZ 1, Double.ofZ 100);
      (Double.ofZ 3, Double.ofZ 1, Double.ofZ 100);
      (Double.ofZ 4, Double.ofZ 1, Double.ofZ 8) ]
  /\ (Double.ofZ 51 * (Double.ofZ 1 - Double.ofZ 5 / Double.ofZ 6))%D
     = S754_finite false 4785074604081151 (-49)
  /\ Math_round (51 * (1 - inject_Z 5 / inject_Z 6)) = 9.
Proof. repeat split; vm_compute; reflexivity. Qed.

(** ** Grid packer: rows, offsets and total height *)

Section PackerRows.

Context {P : Type}.
Variable configData : ConfigData P.
Hypothesis columnCount_pos : 1 <= columnCount configData.

Lemma layoutEntry_currentRowNumber (st : LayoutState) (entry : Item P)
    (index : Z) :
  currentRowNumber (fst (layoutEntry configData st entry index))
  = rowNumber (snd (layoutEntry configData st entry index)).
Proof.
  unfold layoutEntry.
  destruct (_ >? columnCount configData + 1);
    destruct (_ =? currentRowNumber st) eqn:E;
    cbn [negb fst snd currentRowNumber rowNumber];
    try reflexivity; apply Z.eqb_eq in E; symmetry; exact E.
Qed.

Lemma layoutEntry_offset (st : LayoutState) (entry : Item P) (index : Z) :
  offset (snd (layoutEntry configData st entry index))
  = prevRowsTotalHeight (fst (layoutEntry configData st entry index)).
Proof.
  unfold layoutEntry.
  destruct (_ >? columnCount configData + 1);
    destruct (negb (_ =? currentRowNumber st)); reflexivity.
Qed.

Lemma layoutEntry_prevRowsTotalHeight (st : LayoutState) (entry : Item P)
    (index : Z) :
  prevRowsTotalHeight (fst (layoutEntry configData st entry index))
  = if rowNumber (snd (layoutEntry configData st entry index))
       =? currentRowNumber st
    then prevRowsTotalHeight st
    else (prevRowsTotalHeight st
          + (currentRowMaxHeight st + gridGap configData))%Q.
Proof.
  unfold layoutEntry.
  destruct (_ >? columnCount configData + 1);
    destruct (_ =? currentRowNumber st) eqn:E;
    cbn [negb fst snd prevRowsTotalHeight currentRowMaxHeight rowNumber
           height item];
    rewrite E; reflexivity.
Qed.

Lemma layoutEntry_currentRowMaxHeight (st : LayoutState) (entry : Item P)
    (index : Z) :
  currentRowMaxHeight (fst (layoutEntry configData st entry index))
  = Math_max
      (if rowNumber (snd (layoutEntry configData st entry index))
          =? currentRowNumber st
       then currentRowMaxHeight st
       else 0%Q)
      (height (snd (layoutEntry configData st entry index))).
Proof.
  unfold layoutEntry.
  destruct (_ >? columnCount configData + 1);
    destruct (_ =? currentRowNumber st) eqn:E;
    cbn [negb fst snd prevRowsTotalHeight currentRowMaxHeight rowNumber
           height item];
    rewrite E; reflexivity.
Qed.

(** The row of a cell is not before the row being filled when its entry is
    reached. *)
Lemma layoutEntry_rowNumber_ge (st : LayoutState) (entry : Item P)
    (index : Z) :
  rowInv configData st index ->
  currentRowNumber st
  <= rowNumber (snd (layoutEntry configData st entry index)).
Proof.
  intros [Hshift [Hrow _]].
  pose proof (newRowShift_ge configData columnCount_pos st entry index Hshift)
    as Hge.
  rewrite layoutEntry_rowNumber. unfold shiftedIndexOf.
  pose proof (Z.div_le_mono (index + columnShift st)
                (index + newRowShift configData st entry index)
                (columnCount configData)).
  lia.
Qed.

Lemma layoutEntry_rowInv (st : LayoutState) (entry : Item P) (index : Z) :
  rowInv configData st index ->
  rowInv configData (fst (layoutEntry configData st entry index)) (index + 1).
Proof.
  intros Hinv.
  pose proof Hinv as [Hshift [Hrow Hmax]].
  split; [apply layoutEntry_shiftInv; assumption|].
  split.
  - rewrite layoutEntry_currentRowNumber, layoutEntry_rowNumber.
    rewrite layoutEntry_columnShift. cbv zeta. unfold shiftedIndexOf.
    apply Z.add_le_mono_r, Z.div_le_mono; [lia|].
    destruct (_ >? 1) eqn:E; [|lia].
    rewrite Z.gtb_ltb in E. apply Z.ltb_lt in E. lia.
  - rewrite layoutEntry_currentRowMaxHeight. unfold Math_max.
    eapply Qle_trans; [|apply Q.le_max_l].
    destruct (_ =? _); [assumption|apply Qle_refl].
Qed.

Lemma rowInv_initial : rowInv configData initialLayoutState 0.
Proof.
  split; [apply shiftInv_initial|].
  split; [|apply Qle_refl].
  cbn [initialLayoutState currentRowNumber columnShift].
  change (0 + 0) with 0. rewrite Zdiv_0_l. lia.
Qed.

End PackerRows.

Lemma StronglySorted_nth_error {A : Type} (R : A -> A -> Prop) (l : list A) :
  StronglySorted R l ->
  forall (i j : nat) (a b : A), (i < j)%nat ->
  nth_error l i = Some a -> nth_error l j = Some b -> R a b.
Proof.
  induction 1 as [|x l Hs IH Hx]; intros i j a b Hij Hi Hj.
  - destruct i; discriminate.
  - destruct j as [|j]; [lia|].
    cbn [nth_error] in Hj.
    destruct i as [|i].
    + injection Hi as <-.
      rewrite Forall_forall in Hx. apply Hx.
      eapply nth_error_In; eassumption.
    + cbn [nth_error] in Hi. apply (IH i j); [lia|assumption..].
Qed.

Section PackerRowsOfRun.

Context {P : Type}.
Variable configData : ConfigData P.
Hypothesis columnCount_pos : 1 <= columnCount configData.

(** Rows along a run of the packer: the row being filled only advances,
    every cell lies between the row being filled at the start and the one
    at the end, cells of the starting row sit at the starting offset, and
    the cells come out in row order. *)
Lemma pack_rows (l : list (Item P)) (st : LayoutState) (index : Z) :
  rowInv configData st index ->
  currentRowNumber st
  <= currentRowNumber
       (fst (mapWithState (layoutEntry configData) st index l))
  /\ Forall
       (fun c : Cell P =>
          currentRowNumber st <= rowNumber c
          /\ rowNumber c
             <= currentRowNumber
                  (fst (mapWithState (layoutEntry configData) st index l))
          /\ (rowNumber c = currentRowNumber st ->
              offset c = prevRowsTotalHeight st))
       (snd (mapWithState (layoutEntry configData) st index l))
  /\ StronglySorted rowOrder
       (snd (mapWithState (layoutEntry configData) st index l)).
Proof.
  revert st index.
  induction l as [|e l IH]; intros st index Hinv.
  - cbn. split; [lia|]. split; constructor.
  - rewrite mapWithState_cons. cbn [fst snd].
    pose proof (layoutEntry_rowNumber_ge configData columnCount_pos
                  st e index Hinv) as Hge.
    pose proof (layoutEntry_currentRowNumber configData st e index) as Hcur.
    pose proof (layoutEntry_offset configData st e index) as Hoff.
    pose proof (layoutEntry_prevRowsTotalHeight configData st e index)
      as Hprev.
    destruct (IH _ _ (layoutEntry_rowInv configData columnCount_pos
                        st e index Hinv)) as [Hmono [Hall Hsorted]].
    set (st1 := fst (layoutEntry configData st e index)) in *.
    set (c := snd (layoutEntry configData st e index)) in *.
    set (rest := mapWithState (layoutEntry configData) st1 (index + 1) l)
      in *.
    split; [lia|].
    split; [constructor|constructor].
    + split; [lia|]. split; [lia|].
      intro Hrow. rewrite Hoff, Hprev.
      apply Z.eqb_eq in Hrow. rewrite Hrow. reflexivity.
    + eapply Forall_impl; [|exact Hall].
      intros c' [Hlo [Hhi Hsame]]. split; [lia|]. split; [lia|].
      intro Hrow.
      assert (Hc1 : rowNumber c' = currentRowNumber st1) by lia.
      rewrite (Hsame Hc1), Hprev.
      assert (Hc : (rowNumber c =? currentRowNumber st) = true)
        by (apply Z.eqb_eq; lia).
      rewrite Hc. reflexivity.
    + exact Hsorted.
    + eapply Forall_impl; [|exact Hall].
      intros c' [Hlo [Hhi Hsame]]. split; [lia|].
      intro Hrow. rewrite Hoff. symmetry. apply Hsame. lia.
Qed.

(** Offsets along a run of the packer, when the gap is not negative: no
    cell sits above the starting offset, and offsets never decrease. *)
Lemma pack_offsets (l : list (Item P)) (st : LayoutState) (index : Z) :
  (0 <= gridGap configData)%Q ->
  rowInv configData st index ->
  Forall (fun c : Cell P => (prevRowsTotalHeight st <= offset c)%Q)
    (snd (mapWithState (layoutEntry configData) st index l))
  /\ StronglySorted (fun c1 c2 : Cell P => (offset c1 <= offset c2)%Q)
       (snd (mapWithState (layoutEntry configData) st index l)).
Proof.
  intro Hgap. revert st index.
  induction l as [|e l IH]; intros st index Hinv.
  - cbn. split; constructor.
  - rewrite mapWithState_cons. cbn [fst snd].
    pose proof (layoutEntry_offset configData st e index) as Hoff.
    pose proof (layoutEntry_prevRowsTotalHeight configData st e index)
      as Hprev.
    destruct (IH _ _ (layoutEntry_rowInv configData columnCount_pos
                        st e index Hinv)) as [Hall Hsorted].
    destruct Hinv as [_ [_ Hmax]].
    assert (Hle : (prevRowsTotalHeight st
                   <= prevRowsTotalHeight
                        (fst (layoutEntry configData st e index)))%Q).
    { rewrite Hprev. destruct (_ =? _); lra. }
    split; [constructor|constructor].
    + rewrite Hoff. exact Hle.
    + eapply Forall_impl; [|exact Hall].
      intros c' Hc'. cbv beta in Hc'. lra.
    + exact Hsorted.
    + rewrite Hoff. exact Hall.
Qed.

End PackerRowsOfRun.

(** C9, as amended: with at least one column, row numbers never decrease
    along the cells in input order; and when the grid gap is not negative, a
    cell of a later or the same row is never at a smaller offset than a cell
    of an earlier row. *)
Theorem computeLayoutData_rows_monotone (P : Type)
    (configData : ConfigData P) :
  1 <= columnCount configData ->
  (forall (i j : nat) (c1 c2 : Cell P), (i <= j)%nat ->
     nth_error (cells (computeLayoutData (Some configData))) i = Some c1 ->
     nth_error (cells (computeLayoutData (Some configData))) j = Some c2 ->
     rowNumber c1 <= rowNumber c2)
  /\ ((0 <= gridGap configData)%Q ->
      forall c1 c2 : Cell P,
        In c1 (cells (computeLayoutData (Some configData))) ->
        In c2 (cells (computeLayoutData (Some configData))) ->
        rowNumber c1 <= rowNumber c2 ->
        (offset c1 <= offset c2)%Q).
Proof.
  intro Hcc.
  rewrite computeLayoutData_cells.
  destruct (pack_rows configData Hcc (entries configData)
              initialLayoutState 0 (rowInv_initial configData))
    as [_ [_ Hrows]].
  split.
  - intros i j c1 c2 Hij H1 H2.
    destruct (Nat.eq_dec i j) as [->|Hne].
    + rewrite H1 in H2. injection H2 as ->. lia.
    + apply (StronglySorted_nth_error _ _ Hrows i j c1 c2); [lia|assumption..].
  - intros Hgap c1 c2 H1 H2 Hrow.
    destruct (pack_offsets configData Hcc (entries configData)
                initialLayoutState 0 Hgap (rowInv_initial configData))
      as [_ Hoffs].
    apply In_nth_error in H1, H2.
    destruct H1 as [i H1], H2 as [j H2].
    destruct (Nat.lt_trichotomy i j) as [Hlt|[->|Hgt]].
    + apply (StronglySorted_nth_error _ _ Hoffs i j c1 c2); assumption.
    + rewrite H1 in H2. injection H2 as ->. apply Qle_refl.
    + destruct (StronglySorted_nth_error _ _ Hrows j i c2 c1 Hgt H2 H1)
        as [Hle Hsame].
      rewrite (Hsame ltac:(lia)). apply Qle_refl.
Qed.

Lemma computeLayoutData_rows_monotone_sample :
  1 <= columnCount sampleConfig
  /\ (forall (i j : nat) (c1 c2 : Cell unit), (i <= j)%nat ->
        nth_error (cells (computeLayoutData (Some sampleConfig))) i = Some c1 ->
        nth_error (cells (computeLayoutData (Some sampleConfig))) j = Some c2 ->
        rowNumber c1 <= rowNumber c2).
Proof.
  split; [cbn; lia|].
  apply (computeLayoutData_rows_monotone unit sampleConfig).
  cbn. lia.
Defined.

(** C9 as stated fails: with one column and a grid gap of -100, the second
    of two cells 10 high is in row 2 at offset -90, above the cell of row 1
    at offset 0. *)
Lemma computeLayoutData_offsets_negative_gap :
  1 <= columnCount negativeGapConfig
  /\ map (fun c : Cell unit => (rowNumber c, offset c))
       (cells (computeLayoutData (Some negativeGapConfig)))
     = [ (1, 0%Q); (2, (-90)%Q) ]
  /\ ~ (forall c1 c2 : Cell unit,
          In c1 (cells (computeLayoutData (Some negativeGapConfig))) ->
          In c2 (cells (computeLayoutData (Some negativeGapConfig))) ->
          rowNumber c1 < rowNumber c2 ->
          (offset c1 <= offset c2)%Q).
Proof.
  split; [cbn; lia|]. split; [reflexivity|].
  intro H.
  specialize (H (mkCell (mkItem "a" 10 None 1 false tt) 1 1 0)
                (mkCell (mkItem "b" 10 None 1 false tt) 1 2 (-90))).
  assert (Hle : (0 <= -90)%Q).
  { apply H; [left; reflexivity|right; left; reflexivity|cbn; lia]. }
  revert Hle. apply Qlt_not_le. reflexivity.
Qed.

(** [Math.max] returns one of its arguments. *)
Lemma Math_max_cases (x y : Q) : Math_max x y = x \/ Math_max x y = y.
Proof.
  unfold Math_max, Qmax, GenericMinMax.gmax.
  destruct (x ?= y)%Q; auto.
Qed.

(** The running maximum of one row, folded from [m0]: it is above [m0] and
    above the height of every cell of the row, and it is [m0] or the height
    of a cell of the row. *)
Lemma rowMax_fold_spec {P : Type} (r : Z) (cs : list (Cell P)) (m0 : Q) :
  let M :=
    fold_left
      (fun (m : Q) (cell : Cell P) =>
         if rowNumber cell =? r then Math_max m (height cell) else m)
      cs m0 in
  (m0 <= M)%Q
  /\ (forall c : Cell P, In c cs -> rowNumber c = r -> (height c <= M)%Q)
  /\ (M = m0
      \/ exists c : Cell P, In c cs /\ rowNumber c = r /\ height c = M).
Proof.
  revert m0.
  induction cs as [|c cs IH]; intro m0; cbn [fold_left].
  - split; [apply Qle_refl|]. split; [intros c []|left; reflexivity].
  - specialize (IH (if rowNumber c =? r
                    then Math_max m0 (height c) else m0)).
    cbv zeta in IH.
    set (M := fold_left _ cs _) in *.
    destruct IH as [Hlo [Hub Hatt]].
    destruct (rowNumber c =? r) eqn:E.
    + apply Z.eqb_eq in E.
      pose proof (Q.le_max_l m0 (height c)) as Hl.
      pose proof (Q.le_max_r m0 (height c)) as Hr.
      fold (Math_max m0 (height c)) in Hl, Hr.
      split; [eapply Qle_trans; eassumption|].
      split.
      * intros c' [<-|Hin] Hrow;
          [eapply Qle_trans; eassumption|apply Hub; assumption].
      * destruct Hatt as [HM|[c' [Hin [Hrow Hh]]]].
        -- destruct (Math_max_cases m0 (height c)) as [Hm|Hm].
           ++ left. congruence.
           ++ right. exists c. split; [left; reflexivity|].
              split; [assumption|congruence].
        -- right. exists c'. split; [right; assumption|]. split; assumption.
    + split; [assumption|].
      split.
      * intros c' [<-|Hin] Hrow;
          [apply Z.eqb_neq in E; contradiction|apply Hub; assumption].
      * destruct Hatt as [HM|[c' [Hin [Hrow Hh]]]]; [left; assumption|].
        right. exists c'. split; [right; assumption|]. split; assumption.
Qed.

Section PackerTotalHeight.

Context {P : Type}.
Variable configData : ConfigData P.
Hypothesis columnCount_pos : 1 <= columnCount configData.

(** The last cell of a run is in the row being filled at the end, at the
    offset where that row begins. *)
Lemma pack_last (l : list (Item P)) (st : LayoutState) (index : Z)
    (front : list (Cell P)) (lastCell : Cell P) :
  snd (mapWithState (layoutEntry configData) st index l)
  = front ++ [lastCell] ->
  offset lastCell
  = prevRowsTotalHeight
      (fst (mapWithState (layoutEntry configData) st index l))
  /\ rowNumber lastCell
     = currentRowNumber
         (fst (mapWithState (layoutEntry configData) st index l)).
Proof.
  revert st index front.
  induction l as [|e l IH]; intros st index front Hcells.
  - destruct front; discriminate.
  - rewrite mapWithState_cons in Hcells |- *. cbn [fst snd] in Hcells |- *.
    destruct front as [|c0 front].
    + injection Hcells as Hc Hrest.
      assert (Hl : l = []).
      { apply length_zero_iff_nil.
        rewrite <- (mapWithState_length (layoutEntry configData) l
                      (fst (layoutEntry configData st e index)) (index + 1)).
        rewrite Hrest. reflexivity. }
      subst l. cbn [mapWithState fst]. subst lastCell.
      split; [apply layoutEntry_offset|].
      symmetry. apply layoutEntry_currentRowNumber.
    + injection Hcells as _ Hrest.
      apply (IH _ _ _ Hrest).
Qed.

(** The running maximum at the end of a run is the maximum of the last
    row, started from the running maximum at the start when that is the
    same row and from 0 when it is not. *)
Lemma pack_rowMax (l : list (Item P)) (st : LayoutState) (index : Z) :
  rowInv configData st index ->
  let st' := fst (mapWithState (layoutEntry configData) st index l) in
  currentRowMaxHeight st'
  = fold_left
      (fun (m : Q) (cell : Cell P) =>
         if rowNumber cell =? currentRowNumber st'
         then Math_max m (height cell) else m)
      (snd (mapWithState (layoutEntry configData) st index l))
      (if currentRowNumber st' =? currentRowNumber st
       then currentRowMaxHeight st else 0%Q).
Proof.
  revert st index.
  induction l as [|e l IH]; intros st index Hinv; cbv zeta.
  - cbn. rewrite Z.eqb_refl. reflexivity.
  - rewrite mapWithState_cons. cbn [fst snd fold_left].
    pose proof (layoutEntry_rowNumber_ge configData columnCount_pos
                  st e index Hinv) as Hge.
    pose proof (layoutEntry_currentRowNumber configData st e index) as Hcur.
    pose proof (layoutEntry_currentRowMaxHeight configData st e index)
      as Hmax.
    pose proof (layoutEntry_rowInv configData columnCount_pos st e index Hinv)
      as Hinv1.
    destruct (pack_rows configData columnCount_pos l _ _ Hinv1)
      as [Hmono _].
    specialize (IH _ _ Hinv1). cbv zeta in IH.
    set (st1 := fst (layoutEntry configData st e index)) in *.
    set (c := snd (layoutEntry configData st e index)) in *.
    set (st' := fst (mapWithState (layoutEntry configData) st1 (index + 1) l))
      in *.
    rewrite IH. f_equal.
    rewrite Hcur, Hmax.
    destruct (Z.eq_dec (rowNumber c) (currentRowNumber st')) as [E|E].
    + rewrite <- E, Z.eqb_refl. reflexivity.
    + assert (H1 : (rowNumber c =? currentRowNumber st') = false)
        by (apply Z.eqb_neq; assumption).
      assert (H2 : (currentRowNumber st' =? rowNumber c) = false)
        by (apply Z.eqb_neq; congruence).
      assert (H3 : (currentRowNumber st' =? currentRowNumber st) = false)
        by (apply Z.eqb_neq; lia).
      rewrite H1, H2, H3. reflexivity.
Qed.

(** While every cell stays in the row being filled, no row is closed. *)
Lemma pack_single_row (l : list (Item P)) (st : LayoutState) (index : Z) :
  Forall (fun c : Cell P => rowNumber c = currentRowNumber st)
    (snd (mapWithState (layoutEntry configData) st index l)) ->
  prevRowsTotalHeight (fst (mapWithState (layoutEntry configData) st index l))
  = prevRowsTotalHeight st.
Proof.
  revert st index.
  induction l as [|e l IH]; intros st index Hall; [reflexivity|].
  rewrite mapWithState_cons in Hall |- *. cbn [fst snd] in Hall |- *.
  inversion Hall as [|c cs Hc Hcs]; subst.
  pose proof (layoutEntry_currentRowNumber configData st e index) as Hcur.
  pose proof (layoutEntry_prevRowsTotalHeight configData st e index)
    as Hprev.
  rewrite Hc, Z.eqb_refl in Hprev.
  rewrite IH; [exact Hprev|].
  eapply Forall_impl; [|exact Hcs].
  intros c' Hc'. cbv beta in Hc'. congruence.
Qed.

(** The packer's rows, heights and shifts do not depend on the gap. *)
Lemma layoutEntry_withGridGap (gap : Q) (st1 st2 : LayoutState)
    (entry : Item P) (index : Z) :
  sameRowState st1 st2 ->
  sameRowState (fst (layoutEntry configData st1 entry index))
    (fst (layoutEntry (withGridGap gap configData) st2 entry index))
  /\ rowNumber (snd (layoutEntry configData st1 entry index))
     = rowNumber (snd (layoutEntry (withGridGap gap configData) st2 entry
                         index))
  /\ height (snd (layoutEntry configData st1 entry index))
     = height (snd (layoutEntry (withGridGap gap configData) st2 entry
                      index)).
Proof.
  intros [Hcur [Hmax Hshift]].
  unfold layoutEntry, sameRowState.
  cbn [withGridGap columnCount gridGap].
  rewrite <- Hcur, <- Hmax, <- Hshift.
  destruct (_ >? columnCount configData + 1);
    destruct (negb (_ =? currentRowNumber st1)); cbn; repeat split.
Qed.

Lemma pack_withGridGap (gap : Q) (l : list (Item P))
    (st1 st2 : LayoutState) (index : Z) :
  sameRowState st1 st2 ->
  sameRowState (fst (mapWithState (layoutEntry configData) st1 index l))
    (fst (mapWithState (layoutEntry (withGridGap gap configData)) st2 index
            l))
  /\ map (fun c : Cell P => rowNumber c)
       (snd (mapWithState (layoutEntry configData) st1 index l))
     = map (fun c : Cell P => rowNumber c)
         (snd (mapWithState (layoutEntry (withGridGap gap configData)) st2
                 index l)).
Proof.
  revert st1 st2 index.
  induction l as [|e l IH]; intros st1 st2 index Hsame.
  - split; [exact Hsame|reflexivity].
  - rewrite !mapWithState_cons. cbn [fst snd map].
    destruct (layoutEntry_withGridGap gap st1 st2 e index Hsame)
      as [Hsame1 [Hrow _]].
    destruct (IH _ _ (index + 1) Hsame1) as [Hsame' Hrows].
    split; [exact Hsame'|]. now rewrite Hrow, Hrows.
Qed.

End PackerTotalHeight.

(** The first cell is in row 1. *)
Lemma layoutEntry_first_row {P : Type} (configData : ConfigData P)
    (entry : Item P) :
  1 <= columnCount configData ->
  rowNumber (snd (layoutEntry configData initialLayoutState entry 0)) = 1.
Proof.
  intro Hcc. rewrite layoutEntry_rowNumber.
  unfold shiftedIndexOf, newRowShift.
  cbn [initialLayoutState columnShift]. change (0 + 0) with 0.
  rewrite Z.rem_0_l by lia. cbn [Z.eqb negb].
  rewrite andb_false_r. change (0 + 0) with 0.
  rewrite Zdiv_0_l. reflexivity.
Qed.

(** When all cells share one row, that row is row 1. *)
Lemma pack_single_row_is_first {P : Type} (configData : ConfigData P) :
  1 <= columnCount configData ->
  (forall c1 c2 : Cell P,
     In c1 (cells (computeLayoutData (Some configData))) ->
     In c2 (cells (computeLayoutData (Some configData))) ->
     rowNumber c1 = rowNumber c2) ->
  Forall (fun c : Cell P => rowNumber c = 1)
    (cells (computeLayoutData (Some configData))).
Proof.
  intros Hcc Hsingle.
  rewrite computeLayoutData_cells in *.
  destruct (entries configData) as [|e l]; [constructor|].
  rewrite mapWithState_cons in *. cbn [snd] in *.
  apply Forall_forall. intros c Hin.
  rewrite <- (layoutEntry_first_row configData e Hcc).
  apply Hsingle; [exact Hin|left; reflexivity].
Qed.

(** C7, as amended: with at least one column, the total height is the
    offset of the last row plus the greatest of 0 and the heights of the
    cells of that row, which is the greatest cell height of the row as soon
    as one of them is not negative; no gap follows the last row.  When all
    cells are in one row, the total height does not depend on the gap. *)
Theorem computeLayoutData_totalHeight_lastRow (P : Type)
    (configData : ConfigData P) :
  1 <= columnCount configData ->
  (forall (front : list (Cell P)) (lastCell : Cell P),
     cells (computeLayoutData (Some configData)) = front ++ [lastCell] ->
     let M :=
       rowMaxHeight (rowNumber lastCell)
         (cells (computeLayoutData (Some configData))) in
     totalHeight (computeLayoutData (Some configData))
     = (offset lastCell + M)%Q
     /\ (forall c : Cell P,
           In c (cells (computeLayoutData (Some configData))) ->
           rowNumber c = rowNumber lastCell ->
           offset c = offset lastCell /\ (height c <= M)%Q)
     /\ (0 <= M)%Q
     /\ (M = 0%Q
         \/ exists c : Cell P,
              In c (cells (computeLayoutData (Some configData)))
              /\ rowNumber c = rowNumber lastCell /\ height c = M)
     /\ ((0 <= height lastCell)%Q ->
         exists c : Cell P,
           In c (cells (computeLayoutData (Some configData)))
           /\ rowNumber c = rowNumber lastCell /\ (height c == M)%Q))
  /\ (forall gap : Q,
        (forall c1 c2 : Cell P,
           In c1 (cells (computeLayoutData (Some configData))) ->
           In c2 (cells (computeLayoutData (Some configData))) ->
           rowNumber c1 = rowNumber c2) ->
        totalHeight (computeLayoutData (Some (withGridGap gap configData)))
        = totalHeight (computeLayoutData (Some configData))).
Proof.
  intro Hcc. split.
  - intros front lastCell Hcells M. subst M.
    pose proof (rowInv_initial configData) as Hinit.
    destruct (pack_rows configData Hcc (entries configData)
                initialLayoutState 0 Hinit) as [_ [_ Hsorted]].
    pose proof (pack_rowMax configData Hcc (entries configData)
                  initialLayoutState 0 Hinit) as Hmax.
    cbv zeta in Hmax.
    rewrite computeLayoutData_totalHeight. cbv zeta.
    rewrite computeLayoutData_cells in *.
    destruct (pack_last configData _ _ _ _ _ Hcells) as [Hoff Hrow].
    rewrite <- Hrow in Hmax. rewrite <- Hoff.
    set (cs := snd (mapWithState (layoutEntry configData)
                      initialLayoutState 0 (entries configData))) in *.
    set (M := rowMaxHeight (rowNumber lastCell) cs).
    assert (HM : currentRowMaxHeight
                   (fst (mapWithState (layoutEntry configData)
                           initialLayoutState 0 (entries configData)))
                 = M).
    { rewrite Hmax. unfold M, rowMaxHeight.
      cbn [initialLayoutState currentRowNumber currentRowMaxHeight].
      destruct (_ =? 1); reflexivity. }
    rewrite HM.
    destruct (rowMax_fold_spec (rowNumber lastCell) cs 0%Q)
      as [Hlo [Hub Hatt]].
    fold (rowMaxHeight (rowNumber lastCell) cs) in Hlo, Hub, Hatt.
    fold M in Hlo, Hub, Hatt.
    assert (Hlast : In lastCell cs).
    { rewrite Hcells. apply in_or_app. right. left. reflexivity. }
    split; [reflexivity|].
    split; [|split; [exact Hlo|split; [exact Hatt|]]].
    + intros c Hin Hc. split; [|apply Hub; assumption].
      apply In_nth_error in Hin. destruct Hin as [i Hi].
      assert (Hlen : nth_error cs (List.length front) = Some lastCell).
      { rewrite Hcells, nth_error_app2 by lia.
        rewrite Nat.sub_diag. reflexivity. }
      assert (Hi' : (i < List.length (front ++ [lastCell]))%nat).
      { rewrite <- Hcells. apply nth_error_Some. congruence. }
      rewrite length_app in Hi'. cbn [List.length] in Hi'.
      destruct (Nat.eq_dec i (List.length front)) as [->|Hne].
      * congruence.
      * destruct (StronglySorted_nth_error _ _ Hsorted i (List.length front)
                    c lastCell ltac:(lia) Hi Hlen) as [_ Hsame].
        apply Hsame, Hc.
    + intro Hnonneg.
      destruct Hatt as [HM0|Hex].
      * exists lastCell. split; [exact Hlast|]. split; [reflexivity|].
        apply Qle_antisym; [apply Hub; [exact Hlast|reflexivity]|].
        rewrite HM0. exact Hnonneg.
      * destruct Hex as [c [Hin [Hc Hh]]].
        exists c. split; [exact Hin|]. split; [exact Hc|].
        rewrite Hh. reflexivity.
  - intros gap Hsingle.
    pose proof (pack_single_row_is_first configData Hcc Hsingle) as Hrows.
    rewrite !computeLayoutData_totalHeight. cbv zeta.
    rewrite computeLayoutData_cells in Hrows.
    cbn [withGridGap entries].
    destruct (pack_withGridGap configData gap (entries configData)
                initialLayoutState initialLayoutState 0)
      as [[_ [Hmax _]] Hmap].
    { repeat split. }
    rewrite <- Hmax.
    rewrite (pack_single_row configData (entries configData)
               initialLayoutState 0 Hrows).
    rewrite (pack_single_row (withGridGap gap configData)
               (entries configData) initialLayoutState 0); [reflexivity|].
    apply Forall_map with (f := fun c : Cell P => rowNumber c)
                          (P := fun r : Z => r = 1).
    rewrite <- Hmap. apply Forall_map. exact Hrows.
Qed.

Lemma computeLayoutData_totalHeight_lastRow_sample :
  1 <= columnCount sampleConfig
  /\ totalHeight (computeLayoutData (Some sampleConfig))
     = (340 + rowMaxHeight 3 (cells (computeLayoutData (Some sampleConfig))))%Q
  /\ rowMaxHeight 3 (cells (computeLayoutData (Some sampleConfig))) = 158%Q.
Proof.
  split; [cbn; lia|]. split; [|reflexivity].
  refine (proj1
            (proj1 (computeLayoutData_totalHeight_lastRow unit sampleConfig _)
               (firstn 4 (cells (computeLayoutData (Some sampleConfig))))
               (mkCell (mkItem "e" 158 None 3 false tt) 2 3 340) _)).
  - cbn. lia.
  - reflexivity.
Defined.

(** C7 as stated fails: a single entry of height -5 gives one cell of
    height -5 at offset 0 and a total height of 0, which is not the offset
    of the last row plus the greatest cell height of that row. *)
Lemma computeLayoutData_totalHeight_negative_height :
  1 <= columnCount negativeHeightConfig
  /\ map (fun c : Cell unit => (rowNumber c, offset c, height c))
       (cells (computeLayoutData (Some negativeHeightConfig)))
     = [ (1, 0%Q, (-5)%Q) ]
  /\ totalHeight (computeLayoutData (Some negativeHeightConfig)) = 0%Q
  /\ ~ (exists c : Cell unit,
          In c (cells (computeLayoutData (Some negativeHeightConfig)))
          /\ rowNumber c = 1
          /\ (forall c' : Cell unit,
                In c' (cells (computeLayoutData (Some negativeHeightConfig)))
                -> rowNumber c' = 1 -> (height c' <= height c)%Q)
          /\ (totalHeight (computeLayoutData (Some negativeHeightConfig))
              == offset c + height c)%Q).
Proof.
  split; [cbn; lia|]. split; [reflexivity|]. split; [reflexivity|].
  intros [c [Hin [_ [_ Heq]]]].
  destruct Hin as [<-|[]].
  vm_compute in Heq. discriminate.
Qed.

(** ** Viewport windower *)

Section Windower.

Context {P : Type}.
Variable configData : ConfigData P.
Variable containerData : ContainerData.
Variable elementOffset : Q.

Lemma renderCell_cellsToRender (acc : RenderData P) (cell : Cell P) :
  cellsToRender (renderCell configData containerData elementOffset acc cell)
  = cellsToRender acc
    ++ (if inRenderBand configData containerData elementOffset cell
        then [cell] else []).
Proof.
  unfold renderCell, inRenderBand, Qgtb, Qltb.
  fold (cellTop elementOffset cell).
  fold (cellBottom elementOffset cell).
  fold (renderTop configData containerData).
  replace (ElementScroll.y (scroll containerData)
           + ElementSize.height (size containerData)
           + windowMargin configData)%Q
    with (renderBottom configData containerData) by reflexivity.
  destruct (Qle_bool (cellTop elementOffset cell) _); cbn [negb andb].
  - destruct (Qle_bool _ (cellBottom elementOffset cell)); cbn [negb].
    + reflexivity.
    + now rewrite app_nil_r.
  - now rewrite app_nil_r.
Qed.

Lemma fold_renderCell_cellsToRender (cs : list (Cell P))
    (acc : RenderData P) :
  cellsToRender
    (fold_left (renderCell configData containerData elementOffset) cs acc)
  = cellsToRender acc
    ++ filter (inRenderBand configData containerData elementOffset) cs.
Proof.
  revert acc.
  induction cs as [|c cs IH]; intro acc; cbn [fold_left filter].
  - now rewrite app_nil_r.
  - rewrite IH, renderCell_cellsToRender, <- app_assoc.
    destruct (inRenderBand _ _ _ c); reflexivity.
Qed.

Lemma inRenderBand_spec (cell : Cell P) :
  inRenderBand configData containerData elementOffset cell = true
  <-> (cellTop elementOffset cell <= renderBottom configData containerData)%Q
      /\ (renderTop configData containerData
          <= cellBottom elementOffset cell)%Q.
Proof.
  unfold inRenderBand. rewrite andb_true_iff, !Qle_bool_iff. reflexivity.
Qed.

End Windower.

(** C8: when the element offset is known, the cells to render are the
    cells, in packing order, that are neither entirely below nor entirely
    above the band [renderTop, renderBottom]; for a cell of non-negative
    height and a band that is not empty these are the cells whose
    [top, bottom] has a point in common with the band. *)
Theorem computeRenderData_window (P : Type) (configData : ConfigData P)
    (containerData : ContainerData) (layoutData : LayoutData P)
    (elementOffset0 : Q) :
  elementOffset containerData = Some elementOffset0 ->
  let rendered :=
    cellsToRender
      (computeRenderData (Some configData) containerData (Some layoutData)) in
  let top := cellTop elementOffset0 in
  let bottom := cellBottom elementOffset0 in
  let bandTop := renderTop configData containerData in
  let bandBottom := renderBottom configData containerData in
  rendered
  = filter (inRenderBand configData containerData elementOffset0)
      (cells layoutData)
  /\ (forall c : Cell P,
        In c rendered
        <-> In c (cells layoutData)
            /\ ~ (bottom c < bandTop)%Q /\ ~ (bandBottom < top c)%Q)
  /\ (forall c : Cell P,
        (0 <= height c)%Q -> (bandTop <= bandBottom)%Q ->
        (In c rendered
         <-> In c (cells layoutData)
             /\ exists y : Q,
                  (top c <= y)%Q /\ (y <= bottom c)%Q
                  /\ (bandTop <= y)%Q /\ (y <= bandBottom)%Q)).
Proof.
  intros Hoff rendered top bottom bandTop bandBottom.
  assert (Hfilter : rendered
                    = filter
                        (inRenderBand configData containerData elementOffset0)
                        (cells layoutData)).
  { unfold rendered, computeRenderData. rewrite Hoff.
    rewrite fold_renderCell_cellsToRender. reflexivity. }
  assert (Hin : forall c : Cell P,
            In c rendered
            <-> In c (cells layoutData)
                /\ (top c <= bandBottom)%Q /\ (bandTop <= bottom c)%Q).
  { intro c. rewrite Hfilter, filter_In, inRenderBand_spec. reflexivity. }
  split; [exact Hfilter|]. split.
  - intro c. rewrite Hin.
    split; intros [Hc [H1 H2]]; (split; [exact Hc|]).
    + split; apply Qle_not_lt; assumption.
    + split; apply Qnot_lt_le; assumption.
  - intros c Hh Hband. rewrite Hin.
    assert (Htb : (top c <= bottom c)%Q).
    { unfold bottom, cellBottom, top. lra. }
    split; intros [Hc H]; (split; [exact Hc|]).
    + destruct H as [H1 H2].
      destruct (Qlt_le_dec (top c) bandTop) as [Hlt|Hge].
      * exists bandTop. repeat split; try assumption; try lra.
      * exists (top c). repeat split; try assumption; try lra.
    + destruct H as [y [H1 [H2 [H3 H4]]]]. split; lra.
Qed.

Lemma computeRenderData_window_sample :
  elementOffset sampleWindow = Some 50%Q
  /\ map (fun c : Cell unit => id c)
       (cellsToRender
          (computeRenderData (Some sampleWindowConfig) sampleWindow
             (Some (mkLayoutData 1840 sampleWindowCells))))
     = [ "upper"%string; "inside"%string; "lower"%string ].
Proof.
  split; [reflexivity|].
  rewrite (proj1 (computeRenderData_window unit sampleWindowConfig
                    sampleWindow (mkLayoutData 1840 sampleWindowCells) 50
                    eq_refl)).
  reflexivity.
Defined.

(** C8 as stated fails for a cell of negative height: in a container 1000
    wide, an item 800 x 600 of span 0 gets the width -10 and the height -7;
    its cell reaches from 0 down to -7, so no point lies between its top
    and its bottom, in the band or elsewhere, and yet it is rendered:
    its top is not below the band and its bottom is not above it. *)
Lemma computeRenderData_window_negative_height :
  elementOffset (containerOfWidth 1000) = Some 0%Q
  /\ map (fun c : Cell unit => (offset c, height c))
       (cells (computeLayoutData (Some fullWidthConfig)))
     = [ (0%Q, (-7)%Q) ]
  /\ cellsToRender
       (computeRenderData (Some fullWidthConfig) (containerOfWidth 1000)
          (Some (computeLayoutData (Some fullWidthConfig))))
     = cells (computeLayoutData (Some fullWidthConfig))
  /\ (forall c : Cell unit,
        In c (cellsToRender
                (computeRenderData (Some fullWidthConfig)
                   (containerOfWidth 1000)
                   (Some (computeLayoutData (Some fullWidthConfig))))) ->
        ~ (exists y : Q,
             (cellTop 0 c <= y)%Q /\ (y <= cellBottom 0 c)%Q
             /\ (renderTop fullWidthConfig (containerOfWidth 1000) <= y)%Q
             /\ (y <= renderBottom fullWidthConfig (containerOfWidth 1000))%Q)).
Proof.
  split; [reflexivity|]. split; [vm_compute; reflexivity|].
  split; [vm_compute; reflexivity|].
  intros c Hin [y [Htop [Hbottom _]]].
  assert (Hc : (cellTop 0 c == 0)%Q /\ (cellBottom 0 c == -7)%Q).
  { vm_compute in Hin. destruct Hin as [<-|[]]. split; reflexivity. }
  destruct Hc as [Ht Hb]. rewrite Ht in Htop. rewrite Hb in Hbottom. lra.
Qed.

(** ** Loading state machine *)

Lemma Some_eq_inv {A : Type} (a b : A) : Some a = Some b -> b = a.
Proof. intro H. injection H as ->. reflexivity. Qed.

Section Loader.

Variable updateTriggerMargin : Q.

Lemma computeContainerData_frame (ref : option DomReading) (g : Grid) :
  updateLock (computeContainerData ref g) = updateLock g
  /\ bottomReached (computeContainerData ref g) = bottomReached g
  /\ pendingUpdates (computeContainerData ref g) = pendingUpdates g
  /\ effects (computeContainerData ref g) = effects g.
Proof. destruct ref; repeat split. Qed.

(** The two ways a call of [loadMoreDataAsync] can go: it takes the lock
    and calls [updateFunction], which needs both flags down, or it only
    samples the DOM. *)
Lemma loadMoreDataAsync_cases (ref : option DomReading) (g : Grid) :
  (updateLock g = false /\ bottomReached g = false
   /\ loadMoreDataAsync updateTriggerMargin ref g
      = (Awaiting,
         callUpdateFunction
           (setUpdateLock true (computeContainerData ref g))))
  \/ (exists c : Completion,
        c <> Awaiting
        /\ loadMoreDataAsync updateTriggerMargin ref g
           = (c, computeContainerData ref g)).
Proof.
  destruct (computeContainerData_frame ref g) as [Hl [Hb _]].
  unfold loadMoreDataAsync.
  destruct (elementSize (containerData (computeContainerData ref g)))
    as [es|].
  - rewrite Hl, Hb.
    destruct (bottomReached g), (updateLock g),
      (bottomTriggered updateTriggerMargin _ es); cbn [negb andb];
      try (right; exists Fulfilled; split; [discriminate|reflexivity]).
    left. repeat split.
  - right. eexists. split; [|reflexivity]. discriminate.
Qed.

Lemma catchHandler_frame (c : Completion) (g : Grid) :
  updateLock (catchHandler c g) = updateLock g
  /\ bottomReached (catchHandler c g) = bottomReached g
  /\ pendingUpdates (catchHandler c g) = pendingUpdates g
  /\ fetchCount (catchHandler c g) = fetchCount g.
Proof.
  destruct c as [| |error]; cbn [catchHandler]; try (repeat split; fail).
  destruct (String.length error =? 0)%nat; repeat split.
Qed.

(** Under the lock, or once the bottom is reached, a call of
    [loadMoreDataAsync] only samples the DOM. *)
Lemma loadMoreDataAsync_blocked (ref : option DomReading) (g : Grid) :
  updateLock g = true \/ bottomReached g = true ->
  exists c : Completion,
    c <> Awaiting
    /\ loadMoreDataAsync updateTriggerMargin ref g
       = (c, computeContainerData ref g).
Proof.
  intro Hblocked.
  destruct (loadMoreDataAsync_cases ref g) as [[Hl [Hb _]]|Hidle];
    [|exact Hidle].
  destruct Hblocked; congruence.
Qed.

Lemma loadMoreData_blocked (ref : option DomReading) (g : Grid) :
  updateLock g = true \/ bottomReached g = true ->
  updateLock (loadMoreData updateTriggerMargin ref g) = updateLock g
  /\ bottomReached (loadMoreData updateTriggerMargin ref g) = bottomReached g
  /\ pendingUpdates (loadMoreData updateTriggerMargin ref g)
     = pendingUpdates g
  /\ fetchCount (loadMoreData updateTriggerMargin ref g) = fetchCount g.
Proof.
  intro Hblocked.
  destruct (loadMoreDataAsync_blocked ref g Hblocked) as [c [_ Hc]].
  unfold loadMoreData. rewrite Hc.
  destruct (catchHandler_frame c (computeContainerData ref g))
    as [Hl [Hb [Hp Hf]]].
  destruct (computeContainerData_frame ref g) as [Hl' [Hb' [Hp' He']]].
  unfold fetchCount in *.
  repeat split; congruence.
Qed.

(** [loadMoreDataAsync] keeps the single-flight invariant and never lowers
    [bottomReached]. *)
Lemma loadMoreDataAsync_singleFlight (ref : option DomReading) (g : Grid) :
  singleFlight g ->
  singleFlight (snd (loadMoreDataAsync updateTriggerMargin ref g)).
Proof.
  intros [Hle Hlock].
  destruct (computeContainerData_frame ref g) as [Hl [Hb [Hp He]]].
  destruct (loadMoreDataAsync_cases ref g) as [[Hfree [_ ->]]|[c [_ ->]]];
    cbn [snd]; unfold singleFlight.
  - cbn [callUpdateFunction setUpdateLock pendingUpdates updateLock].
    rewrite Hp.
    assert (pendingUpdates g <> 1%nat)
      by (intro H1; apply Hlock in H1; congruence).
    split; [lia|reflexivity].
  - rewrite Hp, Hl. split; assumption.
Qed.

Lemma loadMoreData_singleFlight (ref : option DomReading) (g : Grid) :
  singleFlight g -> singleFlight (loadMoreData updateTriggerMargin ref g).
Proof.
  intro Hinv.
  pose proof (loadMoreDataAsync_singleFlight ref g Hinv) as H.
  unfold loadMoreData.
  destruct (loadMoreDataAsync updateTriggerMargin ref g) as [c g'].
  cbn [snd] in H.
  destruct (catchHandler_frame c g') as [Hl [_ [Hp _]]].
  unfold singleFlight. rewrite Hl, Hp. exact H.
Qed.

Lemma step_singleFlight (ev : Event) (g g' : Grid) :
  singleFlight g -> step updateTriggerMargin ev g = Some g' ->
  singleFlight g'.
Proof.
  intros Hinv Hstep.
  destruct ev as [ref|ref|ref|ref|isLastBatch ref|error];
    [cbn [step] in Hstep..|].
  - injection Hstep as <-. unfold initiliazeGrid.
    apply loadMoreData_singleFlight.
    destruct (computeContainerData_frame ref g) as [Hl [_ [Hp _]]].
    unfold singleFlight. rewrite Hl, Hp. exact Hinv.
  - injection Hstep as <-. apply loadMoreData_singleFlight, Hinv.
  - injection Hstep as <-. apply loadMoreData_singleFlight, Hinv.
  - injection Hstep as <-. unfold resetGrid.
    apply loadMoreData_singleFlight. exact Hinv.
  - destruct (pendingUpdates g) as [|n] eqn:Hp; [discriminate|].
    destruct Hinv as [Hle _]. rewrite Hp in Hle.
    assert (Hidle : singleFlight
                      (setUpdateLock false
                         (if isLastBatch
                          then setBottomReached true (settleUpdate g)
                          else settleUpdate g))).
    { unfold singleFlight.
      destruct isLastBatch;
        cbn [setUpdateLock setBottomReached settleUpdate pendingUpdates
               updateLock];
        rewrite Hp; cbn [pred]; split; lia. }
    pose proof (loadMoreDataAsync_singleFlight ref _ Hidle) as H.
    unfold resumeLoadMoreDataAsync in Hstep.
    destruct (loadMoreDataAsync updateTriggerMargin ref _) as [c g1].
    injection Hstep as <-. cbn [snd] in H.
    destruct (catchHandler_frame c g1) as [Hl [_ [Hp1 _]]].
    unfold singleFlight. rewrite Hl, Hp1. exact H.
  - change (step updateTriggerMargin (UpdateRejected error) g)
      with (match pendingUpdates g with
            | O => None
            | S _ => Some (catchHandler (Rejected error) (settleUpdate g))
            end) in Hstep.
    destruct (pendingUpdates g) as [|n] eqn:Hp; [discriminate|].
    apply Some_eq_inv in Hstep. subst g'.
    destruct Hinv as [Hle _]. rewrite Hp in Hle.
    destruct (catchHandler_frame (Rejected error) (settleUpdate g))
      as [Hl [_ [Hp1 _]]].
    unfold singleFlight. rewrite Hl, Hp1.
    cbn [settleUpdate pendingUpdates]. rewrite Hp. cbn [pred].
    split; lia.
Qed.

Lemma run_singleFlight (evs : list Event) (g g' : Grid) :
  singleFlight g -> run updateTriggerMargin evs g = Some g' ->
  singleFlight g'.
Proof.
  revert g.
  induction evs as [|ev evs IH]; intros g Hinv Hrun; cbn [run] in Hrun.
  - injection Hrun as <-. exact Hinv.
  - destruct (step updateTriggerMargin ev g) as [g1|] eqn:Hstep;
      [|discriminate].
    apply (IH g1); [|exact Hrun].
    apply (step_singleFlight ev g g1 Hinv Hstep).
Qed.

Lemma singleFlight_initial : singleFlight initialGrid.
Proof. split; cbn; [lia|discriminate]. Qed.

End Loader.

(** C2: a load evaluation that runs under the lock performs no effect, so
    none of [mounted], [resize], [scroll] and [resetGrid] calls
    [updateFunction] then; a call of [updateFunction] is only made from a
    state with the lock free, right after the lock is taken; and in every
    state the component reaches, at most one promise of [updateFunction] is
    pending and the lock is held while one is. *)
Theorem loadMoreData_single_flight (updateTriggerMargin : Q) :
  (forall (ref : option DomReading) (g : Grid),
     updateLock g = true ->
     effects (snd (loadMoreDataAsync updateTriggerMargin ref g)) = effects g
     /\ fetchCount (initiliazeGrid updateTriggerMargin ref g) = fetchCount g
     /\ fetchCount (resize updateTriggerMargin ref g) = fetchCount g
     /\ fetchCount (scroll' updateTriggerMargin ref g) = fetchCount g
     /\ fetchCount (resetGrid updateTriggerMargin ref g) = fetchCount g)
  /\ (forall (ref : option DomReading) (g : Grid),
        fetchCount (snd (loadMoreDataAsync updateTriggerMargin ref g))
        <> fetchCount g ->
        updateLock g = false
        /\ effects (snd (loadMoreDataAsync updateTriggerMargin ref g))
           = CallUpdateFunction :: SetUpdateLock true :: effects g
        /\ updateLock (snd (loadMoreDataAsync updateTriggerMargin ref g))
           = true)
  /\ (forall (evs : list Event) (g : Grid),
        run updateTriggerMargin evs initialGrid = Some g ->
        (pendingUpdates g <= 1)%nat
        /\ (pendingUpdates g = 1%nat -> updateLock g = true)).
Proof.
  split; [|split].
  - intros ref g Hlock.
    split.
    { destruct (loadMoreDataAsync_blocked updateTriggerMargin ref g
                  (or_introl Hlock)) as [c [_ ->]].
      apply computeContainerData_frame. }
    split.
    { unfold initiliazeGrid.
      destruct (computeContainerData_frame ref g) as [Hl [_ [_ He]]].
      destruct (loadMoreData_blocked updateTriggerMargin ref
                  (computeContainerData ref g)) as [_ [_ [_ Hf]]].
      { left. congruence. }
      rewrite Hf. unfold fetchCount. now rewrite He. }
    split; [apply loadMoreData_blocked; left; exact Hlock|].
    split; [apply loadMoreData_blocked; left; exact Hlock|].
    unfold resetGrid.
    destruct (loadMoreData_blocked updateTriggerMargin ref
                (setBottomReached false g)) as [_ [_ [_ Hf]]].
    { left. exact Hlock. }
    rewrite Hf. reflexivity.
  - intros ref g Hcalls.
    destruct (computeContainerData_frame ref g) as [Hl [_ [_ He]]].
    destruct (loadMoreDataAsync_cases updateTriggerMargin ref g)
      as [[Hfree [_ Hrun]]|[c [_ Hrun]]]; rewrite Hrun in *; cbn [snd] in *.
    + split; [exact Hfree|]. split; [|reflexivity].
      cbn [callUpdateFunction setUpdateLock effects]. now rewrite He.
    + exfalso. apply Hcalls. unfold fetchCount. now rewrite He.
  - intros evs g Hrun.
    apply (run_singleFlight updateTriggerMargin evs initialGrid g
             singleFlight_initial Hrun).
Qed.

Section Terminal.

Variable updateTriggerMargin : Q.

(** Once [isLastBatch] is true or the bottom has been reached, the rest of
    [loadMoreDataAsync] leaves [bottomReached] up and calls nothing. *)
Lemma resumeLoadMoreDataAsync_blocked (isLastBatch : bool)
    (ref : option DomReading) (g : Grid) :
  isLastBatch = true \/ bottomReached g = true ->
  let r := resumeLoadMoreDataAsync updateTriggerMargin isLastBatch ref g in
  bottomReached (catchHandler (fst r) (snd r)) = true
  /\ fetchCount (catchHandler (fst r) (snd r)) = fetchCount g.
Proof.
  intros Hlast r. subst r. unfold resumeLoadMoreDataAsync.
  set (g1 := setUpdateLock false
               (if isLastBatch then setBottomReached true g else g)).
  assert (Hb1 : bottomReached g1 = true).
  { subst g1. destruct isLastBatch; cbn; [reflexivity|].
    destruct Hlast; [discriminate|assumption]. }
  assert (Hf1 : fetchCount g1 = fetchCount g).
  { subst g1. destruct isLastBatch; reflexivity. }
  destruct (loadMoreDataAsync_blocked updateTriggerMargin ref g1
              (or_intror Hb1)) as [c [_ ->]].
  cbn [fst snd].
  destruct (catchHandler_frame c (computeContainerData ref g1))
    as [_ [Hb [_ Hf]]].
  destruct (computeContainerData_frame ref g1) as [_ [Hb' [_ He']]].
  rewrite Hb, Hf. unfold fetchCount in *.
  split; congruence.
Qed.

Lemma step_bottomReached (ev : Event) (g g' : Grid) :
  bottomReached g = true -> isResetGrid ev = false ->
  step updateTriggerMargin ev g = Some g' ->
  bottomReached g' = true /\ fetchCount g' = fetchCount g.
Proof.
  intros Hb Hev Hstep.
  destruct ev as [ref|ref|ref|ref|isLastBatch ref|error];
    try discriminate Hev.
  - cbn [step] in Hstep.
    apply Some_eq_inv in Hstep. subst g'. unfold initiliazeGrid.
    destruct (computeContainerData_frame ref g) as [_ [Hb' [_ He]]].
    destruct (loadMoreData_blocked updateTriggerMargin ref
                (computeContainerData ref g)) as [_ [Hb1 [_ Hf]]].
    { right. congruence. }
    rewrite Hb1, Hf. unfold fetchCount. split; congruence.
  - cbn [step] in Hstep.
    apply Some_eq_inv in Hstep. subst g'. unfold resize, scroll'.
    destruct (loadMoreData_blocked updateTriggerMargin ref g
                (or_intror Hb)) as [_ [Hb1 [_ Hf]]].
    split; congruence.
  - cbn [step] in Hstep.
    apply Some_eq_inv in Hstep. subst g'. unfold resize, scroll'.
    destruct (loadMoreData_blocked updateTriggerMargin ref g
                (or_intror Hb)) as [_ [Hb1 [_ Hf]]].
    split; congruence.
  - cbn [step] in Hstep.
    destruct (pendingUpdates g) as [|n]; [discriminate|].
    pose proof (resumeLoadMoreDataAsync_blocked isLastBatch ref
                  (settleUpdate g) (or_intror Hb)) as H.
    cbv zeta in H.
    destruct (resumeLoadMoreDataAsync _ _ _ _) as [c g1].
    cbn [fst snd] in H.
    apply Some_eq_inv in Hstep. subst g'. exact H.
  - change (step updateTriggerMargin (UpdateRejected error) g)
      with (match pendingUpdates g with
            | O => None
            | S _ => Some (catchHandler (Rejected error) (settleUpdate g))
            end) in Hstep.
    destruct (pendingUpdates g) as [|n]; [discriminate|].
    apply Some_eq_inv in Hstep. subst g'.
    destruct (catchHandler_frame (Rejected error) (settleUpdate g))
      as [_ [Hb1 [_ Hf]]].
    rewrite Hb1, Hf. split; [exact Hb|reflexivity].
Qed.

End Terminal.

(** C3: when [updateFunction] resolves to true, [bottomReached] is set and
    the re-check calls nothing; from then on no sequence of mounts, resizes,
    scrolls and settled promises calls [updateFunction] or lowers
    [bottomReached]; [resetGrid] lowers [bottomReached] and evaluates the
    trigger again, which calls [updateFunction] when the trigger condition
    holds and the lock is free. *)
Theorem bottomReached_terminal (updateTriggerMargin : Q) :
  (forall (ref : option DomReading) (g g' : Grid),
     step updateTriggerMargin (UpdateFulfilled true ref) g = Some g' ->
     bottomReached g' = true /\ fetchCount g' = fetchCount g)
  /\ (forall (evs : list Event) (g g' : Grid),
        bottomReached g = true ->
        forallb (fun ev => negb (isResetGrid ev)) evs = true ->
        run updateTriggerMargin evs g = Some g' ->
        bottomReached g' = true /\ fetchCount g' = fetchCount g)
  /\ (forall (ref : option DomReading) (g : Grid),
        step updateTriggerMargin (ResetGrid ref) g
        = Some (loadMoreData updateTriggerMargin ref
                  (setBottomReached false g))
        /\ bottomReached (resetGrid updateTriggerMargin ref g) = false)
  /\ (forall (dom : DomReading) (g : Grid),
        updateLock g = false ->
        bottomTriggered updateTriggerMargin
          (containerData (computeContainerData (Some dom) g))
          (getElementSize dom) = true ->
        fetchCount (resetGrid updateTriggerMargin (Some dom) g)
        = S (fetchCount g)).
Proof.
  split; [|split; [|split]].
  - intros ref g g' Hstep. cbn [step] in Hstep.
    destruct (pendingUpdates g) as [|n]; [discriminate|].
    pose proof (resumeLoadMoreDataAsync_blocked updateTriggerMargin true ref
                  (settleUpdate g) (or_introl eq_refl)) as H.
    cbv zeta in H.
    destruct (resumeLoadMoreDataAsync _ _ _ _) as [c g1].
    cbn [fst snd] in H.
    apply Some_eq_inv in Hstep. subst g'. exact H.
  - intros evs.
    induction evs as [|ev evs IH]; intros g g' Hb Hevs Hrun;
      cbn [run forallb] in Hrun, Hevs.
    + assert (g' = g) by congruence. subst g'. split; [exact Hb|reflexivity].
    + apply andb_true_iff in Hevs. destruct Hevs as [Hev Hevs].
      apply negb_true_iff in Hev.
      destruct (step updateTriggerMargin ev g) as [g1|] eqn:Hstep;
        [|discriminate].
      destruct (step_bottomReached updateTriggerMargin ev g g1 Hb Hev Hstep)
        as [Hb1 Hf1].
      destruct (IH g1 g' Hb1 Hevs Hrun) as [Hb' Hf'].
      split; congruence.
  - intros ref g. split; [reflexivity|].
    unfold resetGrid, loadMoreData.
    destruct (loadMoreDataAsync_cases updateTriggerMargin ref
                (setBottomReached false g))
      as [[_ [_ Hrun]]|[c [_ Hrun]]]; rewrite Hrun.
    + destruct ref; reflexivity.
    + destruct (catchHandler_frame c
                  (computeContainerData ref (setBottomReached false g)))
        as [_ [Hb _]].
      rewrite Hb. destruct ref; reflexivity.
  - intros dom g Hlock Htrigger.
    unfold resetGrid, loadMoreData, loadMoreDataAsync.
    cbn [computeContainerData containerData elementSize setBottomReached
           bottomReached updateLock] in *.
    rewrite Htrigger, Hlock. reflexivity.
Qed.

Section Rejection.

Variable updateTriggerMargin : Q.

(** With the lock held and no promise pending, nothing the event loop can
    deliver releases the lock or calls [updateFunction]. *)
Lemma step_locked (ev : Event) (g g' : Grid) :
  updateLock g = true -> pendingUpdates g = 0%nat ->
  step updateTriggerMargin ev g = Some g' ->
  updateLock g' = true /\ pendingUpdates g' = 0%nat
  /\ fetchCount g' = fetchCount g.
Proof.
  intros Hlock Hpending Hstep.
  destruct ev as [ref|ref|ref|ref|isLastBatch ref|error];
    [cbn [step] in Hstep; apply Some_eq_inv in Hstep; subst g'..| |].
  - unfold initiliazeGrid.
    destruct (computeContainerData_frame ref g) as [Hl [_ [Hp He]]].
    destruct (loadMoreData_blocked updateTriggerMargin ref
                (computeContainerData ref g)) as [Hl1 [_ [Hp1 Hf]]].
    { left. congruence. }
    rewrite Hl1, Hp1, Hf. unfold fetchCount. repeat split; congruence.
  - unfold resize.
    destruct (loadMoreData_blocked updateTriggerMargin ref g
                (or_introl Hlock)) as [Hl1 [_ [Hp1 Hf]]].
    repeat split; congruence.
  - unfold scroll'.
    destruct (loadMoreData_blocked updateTriggerMargin ref g
                (or_introl Hlock)) as [Hl1 [_ [Hp1 Hf]]].
    repeat split; congruence.
  - unfold resetGrid.
    destruct (loadMoreData_blocked updateTriggerMargin ref
                (setBottomReached false g)) as [Hl1 [_ [Hp1 Hf]]].
    { left. exact Hlock. }
    rewrite Hl1, Hp1, Hf. repeat split; assumption.
  - cbn [step] in Hstep. rewrite Hpending in Hstep. discriminate.
  - change (step updateTriggerMargin (UpdateRejected error) g)
      with (match pendingUpdates g with
            | O => None
            | S _ => Some (catchHandler (Rejected error) (settleUpdate g))
            end) in Hstep.
    rewrite Hpending in Hstep. discriminate.
Qed.

Lemma run_locked (evs : list Event) (g g' : Grid) :
  updateLock g = true -> pendingUpdates g = 0%nat ->
  run updateTriggerMargin evs g = Some g' ->
  updateLock g' = true /\ fetchCount g' = fetchCount g.
Proof.
  revert g.
  induction evs as [|ev evs IH]; intros g Hlock Hpending Hrun;
    cbn [run] in Hrun.
  - apply Some_eq_inv in Hrun. subst g'. split; [exact Hlock|reflexivity].
  - destruct (step updateTriggerMargin ev g) as [g1|] eqn:Hstep;
      [|discriminate].
    destruct (step_locked ev g g1 Hlock Hpending Hstep) as [Hl1 [Hp1 Hf1]].
    destruct (IH g1 Hl1 Hp1 Hrun) as [Hl' Hf'].
    split; congruence.
Qed.

(** In every state the component reaches, a rejected promise of
    [updateFunction] leaves the lock held, and no later event releases it or
    calls [updateFunction] again. *)
Lemma updateRejected_holds_lock (evs : list Event) (error : string)
    (g g' : Grid) :
  run updateTriggerMargin evs initialGrid = Some g ->
  step updateTriggerMargin (UpdateRejected error) g = Some g' ->
  updateLock g' = true
  /\ forall (evs' : list Event) (g'' : Grid),
       run updateTriggerMargin evs' g' = Some g'' ->
       updateLock g'' = true /\ fetchCount g'' = fetchCount g'.
Proof.
  intros Hrun Hstep.
  destruct (run_singleFlight updateTriggerMargin evs initialGrid g
              singleFlight_initial Hrun) as [Hle Hlock].
  change (step updateTriggerMargin (UpdateRejected error) g)
    with (match pendingUpdates g with
          | O => None
          | S _ => Some (catchHandler (Rejected error) (settleUpdate g))
          end) in Hstep.
  destruct (pendingUpdates g) as [|n] eqn:Hp; [discriminate|].
  apply Some_eq_inv in Hstep. subst g'.
  assert (Hn : n = 0%nat) by lia. subst n.
  destruct (catchHandler_frame (Rejected error) (settleUpdate g))
    as [Hl [_ [Hp1 _]]].
  assert (Hl' : updateLock (catchHandler (Rejected error) (settleUpdate g))
                = true).
  { rewrite Hl. apply Hlock. reflexivity. }
  split; [exact Hl'|].
  intros evs' g'' Hrun'.
  apply (run_locked evs' _ g'' Hl'); [|exact Hrun'].
  rewrite Hp1. cbn [settleUpdate pendingUpdates]. rewrite Hp. reflexivity.
Qed.

End Rejection.

(** C1 fails on the code: the trigger holds at mount and [updateFunction]
    is called; its promise rejects, the error is logged, and the lock is
    still held; the scroll and the [resetGrid] that follow, with the trigger
    condition still true, call [updateFunction] no more. *)
Theorem loadMoreData_rejection_keeps_lock :
  option_map
    (fun g : Grid =>
       (updateLock g, pendingUpdates g, fetchCount g, effects g))
    (run 500
       [ Mounted (Some emptyGridReading);
         UpdateRejected "offline";
         Scroll (Some emptyGridReading);
         ResetGrid (Some emptyGridReading) ]
       initialGrid)
  = Some (true, 0%nat, 1%nat,
          [ SetBottomReached false;
            ConsoleError "offline";
            CallUpdateFunction;
            SetUpdateLock true ]).
Proof. reflexivity. Qed.

(** The fulfilled path, for comparison: the lock is released and the
    re-check calls [updateFunction] again. *)
Example loadMoreData_fulfilled_releases_lock :
  option_map
    (fun g : Grid =>
       (updateLock g, pendingUpdates g, fetchCount g, effects g))
    (run 500
       [ Mounted (Some emptyGridReading);
         UpdateFulfilled false (Some emptyGridReading) ]
       initialGrid)
  = Some (true, 1%nat, 2%nat,
          [ CallUpdateFunction;
            SetUpdateLock true;
            SetUpdateLock false;
            CallUpdateFunction;
            SetUpdateLock true ]).
Proof. reflexivity. Qed.

(** A run that reaches the bottom: the last batch ends the fetching, a
    scroll changes nothing, [resetGrid] starts it again. *)
Example bottomReached_then_reset :
  option_map
    (fun g : Grid => (updateLock g, bottomReached g, fetchCount g))
    (run 500
       [ Mounted (Some emptyGridReading);
         UpdateFulfilled true (Some emptyGridReading);
         Scroll (Some emptyGridReading) ]
       initialGrid)
  = Some (false, true, 1%nat)
  /\ option_map
       (fun g : Grid => (updateLock g, bottomReached g, fetchCount g))
       (run 500
          [ Mounted (Some emptyGridReading);
            UpdateFulfilled true (Some emptyGridReading);
            Scroll (Some emptyGridReading);
            ResetGrid (Some emptyGridReading) ]
          initialGrid)
     = Some (true, false, 2%nat).
Proof. split; reflexivity. Qed.

(** * Further properties *)

(** ** Rounding *)

Lemma Math_round_bounds (x : Q) :
  (x - (1 # 2) < inject_Z (Math_round x))%Q
  /\ (inject_Z (Math_round x) <= x + (1 # 2))%Q.
Proof.
  unfold Math_round.
  pose proof (Qfloor_le (x + (1 # 2))) as Hle.
  pose proof (Qlt_floor (x + (1 # 2))) as Hlt.
  rewrite inject_Z_plus in Hlt. change (inject_Z 1) with 1%Q in Hlt.
  split; lra.
Qed.

Lemma Math_round_inject_Z (z : Z) : Math_round (inject_Z z) = z.
Proof.
  unfold Math_round.
  pose proof (Qfloor_le (inject_Z z + (1 # 2))) as Hle.
  pose proof (Qlt_floor (inject_Z z + (1 # 2))) as Hlt.
  set (f := Qfloor (inject_Z z + (1 # 2))) in *.
  assert (H1 : (inject_Z f < inject_Z (z + 1))%Q).
  { rewrite inject_Z_plus. change (inject_Z 1) with 1%Q. lra. }
  assert (H2 : (inject_Z (z - 1) < inject_Z f)%Q).
  { rewrite inject_Z_plus in Hlt. unfold Zminus. rewrite inject_Z_plus.
    change (inject_Z 1) with 1%Q in Hlt.
    change (inject_Z (- (1))) with (- (1))%Q. lra. }
  rewrite <- Zlt_Qlt in H1, H2. lia.
Qed.

(** ** Config derivation: the entries *)

Section DeriveEntry.

Context {P : Type}.
Variable columnWidth : option Q.
Variable gridGap0 : Q.

Lemma deriveEntry_frame (it : Item P) :
  id (deriveEntry P columnWidth gridGap0 it) = id it
  /\ columnSpan (deriveEntry P columnWidth gridGap0 it) = columnSpan it
  /\ newRow (deriveEntry P columnWidth gridGap0 it) = newRow it
  /\ renderComponent (deriveEntry P columnWidth gridGap0 it)
     = renderComponent it
  /\ (truthy (width it) = false ->
      deriveEntry P columnWidth gridGap0 it = it).
Proof.
  unfold deriveEntry.
  destruct (truthy (width it)); cbn [negb]; repeat split.
  discriminate.
Qed.


Lemma getItemRatioHeight_self (z : Z) (w : Q) :
  ~ (w == 0)%Q -> getItemRatioHeight (inject_Z z) w w = inject_Z z.
Proof.
  intro Hw. unfold getItemRatioHeight. cbv zeta. f_equal.
  rewrite <- (Math_round_inject_Z z) at 2.
  unfold Math_round. apply Qfloor_comp.
  setoid_replace (w * (inject_Z z / w))%Q with (inject_Z z)
    by (field; exact Hw).
  reflexivity.
Qed.

(** Deriving an entry from a derived entry changes nothing. *)
Lemma deriveEntry_idempotent (it : Item P) :
  deriveEntry P columnWidth gridGap0 (deriveEntry P columnWidth gridGap0 it)
  = deriveEntry P columnWidth gridGap0 it.
Proof.
  unfold deriveEntry.
  destruct (truthy (width it)) eqn:T; cbn [negb].
  - cbn [width height columnSpan id newRow renderComponent truthy toNumber].
    destruct (Qeq_bool _ 0) eqn:E; cbn [negb]; [reflexivity|].
    apply Qeq_bool_neq in E.
    unfold execFunc.
    set (h := getItemRatioHeight (height it) _ _).
    assert (Hh : h = inject_Z (Qnum h)) by reflexivity.
    rewrite Hh at 1. rewrite (getItemRatioHeight_self _ _ E).
    rewrite <- Hh. reflexivity.
  - rewrite T. reflexivity.
Qed.

End DeriveEntry.

Lemma computeConfigData_entries {P : Type} (c : ContainerData)
    (items : list (Item P)) :
  entries (computeConfigData (Some c) (Some items))
  = map (deriveEntry P
           (getColumnWidth
              (columnCount (computeConfigData (Some c) (Some items)))
              (gridGap (computeConfigData (Some c) (Some items)))
              (trackedElementWidth c))
           (gridGap (computeConfigData (Some c) (Some items))))
      items.
Proof. reflexivity. Qed.

(** X1: config derivation makes one entry per item, in the order of the
    items; an entry has the identifier, column span, new-row flag and
    payload of its item, and is the item itself when the item's width is
    not set (or is 0). *)
Theorem computeConfigData_entries_frame (P : Type) (c : ContainerData)
    (items : list (Item P)) :
  Forall2
    (fun (it e : Item P) =>
       id e = id it /\ columnSpan e = columnSpan it
       /\ newRow e = newRow it /\ renderComponent e = renderComponent it
       /\ (truthy (width it) = false -> e = it))
    items (entries (computeConfigData (Some c) (Some items))).
Proof.
  rewrite computeConfigData_entries.
  induction items as [|it items IH]; cbn [map]; constructor.
  - apply deriveEntry_frame.
  - exact IH.
Qed.


(** Either bound of X2 can be met: the product of 293 and 99 / 586 is 49.5,
    which rounds to 50, and the engine, which rounds the quotient and the
    product to binary64 first, gets the number below 49.5 and returns 49. *)
Lemma getItemRatioHeight_half_pixel :
  getItemRatioHeight 99 586 293 = 50%Q
  /\ Binary64.getItemRatioHeight (Double.ofZ 99) (Double.ofZ 586)
       (Double.ofZ 293)
     = Double.ofZ 49.
Proof. split; vm_compute; reflexivity. Qed.


(** X4: with at least one column, deriving the config again from the
    entries of a derived config, for the same container, gives the same
    config. *)
Theorem computeConfigData_idempotent (P : Type) (c : ContainerData)
    (items : list (Item P)) :
  1 <= columnCount (computeConfigData (Some c) (Some items)) ->
  computeConfigData (Some c)
    (Some (entries (computeConfigData (Some c) (Some items))))
  = computeConfigData (Some c) (Some items).
Proof.
  intros _.
  set (gap := getGridGap (trackedElementWidth c)
                (ElementSize.height (size c))).
  set (cw := getColumnWidth (getColumnCount (trackedElementWidth c)) gap
               (trackedElementWidth c)).
  assert (Hcfg : forall l : list (Item P),
            computeConfigData (Some c) (Some l)
            = mkConfigData (getWindowMargin (ElementSize.height (size c)))
                gap (getColumnCount (trackedElementWidth c))
                (map (deriveEntry P cw gap) l))
    by reflexivity.
  rewrite !Hcfg. cbn [entries]. f_equal.
  rewrite map_map. apply map_ext. intro it.
  apply deriveEntry_idempotent.
Qed.

(** X3: with at least one column, the columns and the gaps between them
    fill the width of the element up to half a pixel of rounding per
    column. *)
Theorem getColumnWidth_fills (columnCount0 : Z) (gridGap0 elementWidth : Q) :
  1 <= columnCount0 ->
  exists columnWidth : Z,
    getColumnWidth columnCount0 gridGap0 (Some elementWidth)
    = Some (inject_Z columnWidth)
    /\ (elementWidth - inject_Z columnCount0 * (1 # 2)
        < inject_Z columnCount0 * inject_Z columnWidth
          + inject_Z (columnCount0 - 1) * gridGap0)%Q
    /\ (inject_Z columnCount0 * inject_Z columnWidth
        + inject_Z (columnCount0 - 1) * gridGap0
        <= elementWidth + inject_Z columnCount0 * (1 # 2))%Q.
Proof.
  intro Hcc.
  eexists. split; [reflexivity|].
  set (tg := (inject_Z (columnCount0 - 1) * gridGap0)%Q).
  set (x := ((elementWidth - tg) / inject_Z columnCount0)%Q).
  destruct (Math_round_bounds x) as [Hlo Hhi].
  set (r := inject_Z (Math_round x)) in *.
  assert (HC : (0 < inject_Z columnCount0)%Q).
  { change 0%Q with (inject_Z 0). rewrite <- Zlt_Qlt. lia. }
  assert (Hx : (inject_Z columnCount0 * x == elementWidth - tg)%Q).
  { unfold x. field. intro H0. rewrite H0 in HC. revert HC. apply Qlt_irrefl. }
  set (C := inject_Z columnCount0) in *.
  split.
  - assert (H : (C * (x - (1 # 2)) < C * r)%Q)
      by (apply Qmult_lt_l; assumption).
    lra.
  - assert (H : (C * r <= C * (x + (1 # 2)))%Q)
      by (apply Qmult_le_l; assumption).
    lra.
Qed.


Lemma computeConfigData_idempotent_sample :
  1 <= columnCount
         (computeConfigData (Some (containerOfWidth 1000)) (Some sampleItems))
  /\ computeConfigData (Some (containerOfWidth 1000))
       (Some (entries
                (computeConfigData (Some (containerOfWidth 1000))
                   (Some sampleItems))))
     = computeConfigData (Some (containerOfWidth 1000)) (Some sampleItems).
Proof.
  split; [vm_compute; discriminate|].
  apply (computeConfigData_idempotent unit (containerOfWidth 1000)
           sampleItems).
  vm_compute. discriminate.
Defined.

Lemma getColumnWidth_fills_sample :
  1 <= 4
  /\ exists columnWidth : Z,
       getColumnWidth 4 10 (Some 1000%Q) = Some (inject_Z columnWidth)
       /\ (1000 - inject_Z 4 * (1 # 2)
           < inject_Z 4 * inject_Z columnWidth + inject_Z (4 - 1) * 10)%Q
       /\ (inject_Z 4 * inject_Z columnWidth + inject_Z (4 - 1) * 10
           <= 1000 + inject_Z 4 * (1 # 2))%Q.
Proof.
  split; [lia|].
  apply (getColumnWidth_fills 4 10 1000). lia.
Defined.

(** ** Grid packer: placement *)

Section PackerPlacement.

Context {P : Type}.
Variable configData : ConfigData P.
Hypothesis columnCount_pos : 1 <= columnCount configData.

Lemma fullRowSpan_pos (entry : Item P) :
  1 <= fullRowSpan (columnCount configData) entry.
Proof.
  unfold fullRowSpan.
  destruct (columnSpan entry <? 1) eqn:E; [assumption|].
  apply Z.ltb_ge in E. exact E.
Qed.

Lemma layoutEntry_span_bounds (st : LayoutState) (entry : Item P)
    (index : Z) :
  shiftInv st index ->
  let cell := snd (layoutEntry configData st entry index) in
  1 <= columnSpan cell
  /\ columnSpan cell <= columnCount configData
  /\ columnSpan cell <= fullRowSpan (columnCount configData) entry
  /\ (columnNumber cell + fullRowSpan (columnCount configData) entry
      <= columnCount configData + 1 ->
      columnSpan cell = fullRowSpan (columnCount configData) entry).
Proof.
  intros Hinv cell.
  pose proof (layoutEntry_insideGrid configData columnCount_pos st entry
                index Hinv) as [[Hc1 Hc2] Hfit].
  pose proof (layoutEntry_clip configData st entry index) as Hclip.
  cbv zeta in Hclip. fold cell in Hclip, Hc1, Hc2, Hfit.
  pose proof (fullRowSpan_pos entry) as Hfull.
  destruct (_ >? _) eqn:E in Hclip; destruct Hclip as [Hspan _].
  - rewrite Z.gtb_ltb in E. apply Z.ltb_lt in E. lia.
  - rewrite Z.gtb_ltb in E. apply Z.ltb_ge in E. lia.
Qed.

Lemma layoutEntry_position (st : LayoutState) (entry : Item P) (index : Z) :
  shiftInv st index ->
  position (columnCount configData)
    (snd (layoutEntry configData st entry index))
  = shiftedIndexOf configData st entry index.
Proof.
  intro Hinv.
  pose proof (newRowShift_ge configData columnCount_pos st entry index Hinv)
    as Hge.
  destruct Hinv as [Hi Hs].
  unfold position.
  rewrite layoutEntry_rowNumber, layoutEntry_columnNumber.
  set (sh := shiftedIndexOf configData st entry index).
  assert (Hsh : 0 <= sh) by (unfold sh, shiftedIndexOf; lia).
  rewrite Z.rem_mod_nonneg by lia.
  pose proof (Z.div_mod sh (columnCount configData)).
  lia.
Qed.

(** The next free slot after a cell is the slot after its last column. *)
Lemma layoutEntry_nextFree (st : LayoutState) (entry : Item P) (index : Z) :
  shiftInv st index ->
  index + 1 + columnShift (fst (layoutEntry configData st entry index))
  = position (columnCount configData)
      (snd (layoutEntry configData st entry index))
    + columnSpan (snd (layoutEntry configData st entry index)).
Proof.
  intro Hinv.
  rewrite (layoutEntry_position st entry index Hinv).
  destruct (layoutEntry_span_bounds st entry index Hinv) as [Hpos _].
  rewrite layoutEntry_columnShift. cbv zeta. unfold shiftedIndexOf.
  destruct (_ >? 1) eqn:E; [lia|].
  rewrite Z.gtb_ltb in E. apply Z.ltb_ge in E. lia.
Qed.

Lemma layoutEntry_newRow (st : LayoutState) (entry : Item P) (index : Z) :
  shiftInv st index -> newRow entry = true ->
  columnNumber (snd (layoutEntry configData st entry index)) = 1.
Proof.
  intros [Hi Hs] Hnew.
  rewrite layoutEntry_columnNumber.
  unfold shiftedIndexOf, newRowShift. rewrite Hnew. cbn [andb].
  set (a := index + columnShift st).
  assert (Ha : 0 <= a) by (unfold a; lia).
  rewrite (Z.rem_mod_nonneg a) by lia.
  pose proof (Z.mod_pos_bound a (columnCount configData) ltac:(lia)) as Hb.
  destruct (a mod columnCount configData =? 0) eqn:E; cbn [negb].
  - apply Z.eqb_eq in E. fold a.
    rewrite Z.rem_mod_nonneg by lia. lia.
  - replace (index + (columnShift st
                      + (columnCount configData
                         - a mod columnCount configData)))
      with ((a / columnCount configData + 1) * columnCount configData).
    + rewrite Z.rem_mod_nonneg.
      * rewrite Z_mod_mult. reflexivity.
      * apply Z.mul_nonneg_nonneg; [|lia].
        pose proof (Z.div_pos a (columnCount configData) Ha ltac:(lia)). lia.
      * lia.
    + pose proof (Z.div_mod a (columnCount configData) ltac:(lia)).
      unfold a in *. lia.
Qed.

(** Along a run of the packer every cell starts at or after the next free
    slot, and each cell starts after the last column of the cells before
    it. *)
Lemma pack_positions (l : list (Item P)) (st : LayoutState) (index : Z) :
  shiftInv st index ->
  Forall
    (fun c : Cell P =>
       index + columnShift st <= position (columnCount configData) c)
    (snd (mapWithState (layoutEntry configData) st index l))
  /\ StronglySorted
       (fun c1 c2 : Cell P =>
          position (columnCount configData) c1 + columnSpan c1
          <= position (columnCount configData) c2)
       (snd (mapWithState (layoutEntry configData) st index l)).
Proof.
  revert st index.
  induction l as [|e l IH]; intros st index Hinv.
  - cbn. split; constructor.
  - rewrite mapWithState_cons. cbn [fst snd].
    pose proof (layoutEntry_position st e index Hinv) as Hpos.
    pose proof (layoutEntry_nextFree st e index Hinv) as Hnext.
    pose proof (newRowShift_ge configData columnCount_pos st e index Hinv)
      as Hge.
    destruct (layoutEntry_span_bounds st e index Hinv) as [Hspan _].
    destruct (IH _ _ (layoutEntry_shiftInv configData columnCount_pos
                        st e index Hinv)) as [Hall Hsorted].
    unfold shiftedIndexOf in Hpos.
    split; constructor.
    + lia.
    + eapply Forall_impl; [|exact Hall].
      intros c' Hc'. cbv beta in Hc'. lia.
    + exact Hsorted.
    + eapply Forall_impl; [|exact Hall].
      intros c' Hc'. cbv beta in Hc'. lia.
Qed.

End PackerPlacement.

(** X5: with at least one column, an entry that asks for a new row gets a
    cell in column 1. *)
Theorem computeLayoutData_newRow_first_column (P : Type)
    (configData : ConfigData P) (n : nat) (entry : Item P) (cell : Cell P) :
  1 <= columnCount configData ->
  nth_error (entries configData) n = Some entry ->
  nth_error (cells (computeLayoutData (Some configData))) n = Some cell ->
  newRow entry = true ->
  columnNumber cell = 1.
Proof.
  intros Hcc He Hc Hnew.
  rewrite computeLayoutData_cells in Hc.
  destruct (mapWithState_nth_error (layoutEntry configData) shiftInv
              (fun st a index =>
                 layoutEntry_shiftInv configData Hcc st a index)
              (entries configData) initialLayoutState 0 shiftInv_initial
              n entry He) as [st [Hinv Hn]].
  rewrite Hn in Hc. apply Some_eq_inv in Hc. subst cell.
  apply layoutEntry_newRow; assumption.
Qed.

(** X6: with at least one column, cells never overlap: in reading order
    each cell starts after the last column of every cell before it, so a
    later cell of the same row begins at or after the column where an
    earlier one ends. *)
Theorem computeLayoutData_no_overlap (P : Type) (configData : ConfigData P)
    (i j : nat) (c1 c2 : Cell P) :
  1 <= columnCount configData ->
  (i < j)%nat ->
  nth_error (cells (computeLayoutData (Some configData))) i = Some c1 ->
  nth_error (cells (computeLayoutData (Some configData))) j = Some c2 ->
  position (columnCount configData) c1 + columnSpan c1
  <= position (columnCount configData) c2
  /\ (rowNumber c1 = rowNumber c2 ->
      columnNumber c1 + columnSpan c1 <= columnNumber c2).
Proof.
  intros Hcc Hij H1 H2.
  rewrite computeLayoutData_cells in H1, H2.
  destruct (pack_positions configData Hcc (entries configData)
              initialLayoutState 0 shiftInv_initial) as [_ Hsorted].
  pose proof (StronglySorted_nth_error _ _ Hsorted i j c1 c2 Hij H1 H2)
    as Hle.
  split; [exact Hle|].
  intro Hrow. unfold position in Hle. rewrite Hrow in Hle. lia.
Qed.


(** ** Grid packer: rows are filled one after the other *)

Section PackerContiguous.

Context {P : Type}.
Variable configData : ConfigData P.
Hypothesis columnCount_pos : 1 <= columnCount configData.

Lemma layoutEntry_rowBound (st : LayoutState) (entry : Item P) (index : Z) :
  shiftInv st index ->
  rowBound configData (fst (layoutEntry configData st entry index))
    (index + 1).
Proof.
  intro Hinv.
  split; [apply layoutEntry_shiftInv; assumption|].
  rewrite (layoutEntry_nextFree configData columnCount_pos st entry index
             Hinv).
  rewrite layoutEntry_currentRowNumber.
  destruct (layoutEntry_insideGrid configData columnCount_pos st entry index
              Hinv) as [_ Hfit].
  unfold position. lia.
Qed.

Lemma layoutEntry_row_le_succ (st : LayoutState) (entry : Item P)
    (index : Z) :
  rowBound configData st index ->
  rowNumber (snd (layoutEntry configData st entry index))
  <= currentRowNumber st + 1.
Proof.
  intros [[Hi Hs] Hbound].
  rewrite layoutEntry_rowNumber.
  unfold shiftedIndexOf, newRowShift.
  set (a := index + columnShift st) in *.
  assert (Ha : 0 <= a) by (unfold a; lia).
  set (cc := columnCount configData) in *.
  rewrite (Z.rem_mod_nonneg a) by lia.
  pose proof (Z.mod_pos_bound a cc ltac:(lia)) as Hb.
  pose proof (Z.div_mod a cc ltac:(lia)) as Hdm.
  destruct (newRow entry && negb (a mod cc =? 0)) eqn:E.
  - apply andb_true_iff in E. destruct E as [_ E].
    apply negb_true_iff, Z.eqb_neq in E.
    replace (index + (columnShift st + (cc - a mod cc)))
      with ((a / cc + 1) * cc) by (unfold a in *; lia).
    rewrite Z.div_mul by lia.
    assert (Hlt : a < cc * currentRowNumber st).
    { destruct (Z.eq_dec a (currentRowNumber st * cc)) as [Heq|Hne]; [|lia].
      rewrite Heq, Z_mod_mult in E. contradiction. }
    pose proof (Z.div_lt_upper_bound a cc (currentRowNumber st)
                  ltac:(lia) Hlt).
    lia.
  - fold a.
    assert (Hle : a <= cc * currentRowNumber st) by lia.
    pose proof (Z.div_le_upper_bound a cc (currentRowNumber st)
                  ltac:(lia) Hle).
    lia.
Qed.

(** Along a run of the packer the first cell is at most one row after the
    row being filled, and so is each cell after the cell before it. *)
Lemma pack_rows_contiguous (l : list (Item P)) (st : LayoutState)
    (index : Z) :
  rowBound configData st index ->
  (forall c : Cell P,
     nth_error (snd (mapWithState (layoutEntry configData) st index l)) 0
     = Some c ->
     rowNumber c <= currentRowNumber st + 1)
  /\ (forall (n : nat) (c1 c2 : Cell P),
        nth_error (snd (mapWithState (layoutEntry configData) st index l)) n
        = Some c1 ->
        nth_error (snd (mapWithState (layoutEntry configData) st index l))
          (S n) = Some c2 ->
        rowNumber c2 <= rowNumber c1 + 1).
Proof.
  revert st index.
  induction l as [|e l IH]; intros st index Hinv.
  - cbn. split; [discriminate|]. intros [|n]; discriminate.
  - rewrite mapWithState_cons. cbn [fst snd].
    pose proof (layoutEntry_row_le_succ st e index Hinv) as Hrow.
    pose proof (layoutEntry_currentRowNumber configData st e index) as Hcur.
    destruct (IH _ _ (layoutEntry_rowBound st e index (proj1 Hinv)))
      as [Hhead Hpairs].
    split.
    + intros c Hc. cbn [nth_error] in Hc.
      apply Some_eq_inv in Hc. subst c. exact Hrow.
    + intros [|n] c1 c2 H1 H2; cbn [nth_error] in H1, H2.
      * apply Some_eq_inv in H1. subst c1.
        rewrite <- Hcur. apply Hhead. exact H2.
      * apply (Hpairs n c1 c2 H1 H2).
Qed.

Lemma rowBound_initial : rowBound configData initialLayoutState 0.
Proof.
  split; [apply shiftInv_initial|].
  cbn [initialLayoutState currentRowNumber columnShift]. lia.
Qed.

Lemma layoutEntry_first_cell (entry : Item P) :
  columnNumber (snd (layoutEntry configData initialLayoutState entry 0)) = 1
  /\ rowNumber (snd (layoutEntry configData initialLayoutState entry 0)) = 1
  /\ offset (snd (layoutEntry configData initialLayoutState entry 0)) = 0%Q.
Proof.
  pose proof (layoutEntry_first_row configData entry columnCount_pos) as Hrow.
  split; [|split; [exact Hrow|]].
  - rewrite layoutEntry_columnNumber.
    unfold shiftedIndexOf, newRowShift.
    cbn [initialLayoutState columnShift]. change (0 + 0) with 0.
    rewrite Z.rem_0_l by lia. cbn [Z.eqb negb].
    rewrite andb_false_r. change (0 + 0) with 0.
    rewrite Z.rem_0_l by lia. reflexivity.
  - rewrite layoutEntry_offset, layoutEntry_prevRowsTotalHeight.
    rewrite Hrow. reflexivity.
Qed.

End PackerContiguous.

(** X8: with at least one column, the first cell is in column 1 of row 1
    at offset 0, and from a cell to the next the row number grows by at
    most one: no row is left empty. *)
Theorem computeLayoutData_rows_contiguous (P : Type)
    (configData : ConfigData P) :
  1 <= columnCount configData ->
  (forall c : Cell P,
     nth_error (cells (computeLayoutData (Some configData))) 0 = Some c ->
     columnNumber c = 1 /\ rowNumber c = 1 /\ offset c = 0%Q)
  /\ (forall (n : nat) (c1 c2 : Cell P),
        nth_error (cells (computeLayoutData (Some configData))) n = Some c1 ->
        nth_error (cells (computeLayoutData (Some configData))) (S n)
        = Some c2 ->
        rowNumber c2 <= rowNumber c1 + 1).
Proof.
  intro Hcc. rewrite computeLayoutData_cells.
  split.
  - intros c Hc.
    destruct (entries configData) as [|e l]; [discriminate|].
    rewrite mapWithState_cons in Hc. cbn [snd nth_error] in Hc.
    apply Some_eq_inv in Hc. subst c.
    apply layoutEntry_first_cell, Hcc.
  - exact (proj2 (pack_rows_contiguous configData Hcc (entries configData)
                    initialLayoutState 0 (rowBound_initial configData Hcc))).
Qed.

Lemma computeLayoutData_rows_contiguous_sample :
  1 <= columnCount sampleConfig
  /\ forall (n : nat) (c1 c2 : Cell unit),
       nth_error (cells (computeLayoutData (Some sampleConfig))) n = Some c1 ->
       nth_error (cells (computeLayoutData (Some sampleConfig))) (S n)
       = Some c2 ->
       rowNumber c2 <= rowNumber c1 + 1.
Proof.
  split; [cbn; lia|].
  apply (computeLayoutData_rows_contiguous unit sampleConfig).
  cbn. lia.
Defined.

Lemma computeLayoutData_newRow_first_column_sample :
  1 <= columnCount sampleConfig
  /\ nth_error (entries sampleConfig) 3 = Some (mkItem "d" 95 None 1 true tt)
  /\ columnNumber (mkCell (mkItem "d" 95 None 1 true tt) 1 3 340) = 1.
Proof.
  split; [cbn; lia|]. split; [reflexivity|].
  refine (computeLayoutData_newRow_first_column unit sampleConfig 3
            (mkItem "d" 95 None 1 true tt)
            (mkCell (mkItem "d" 95 None 1 true tt) 1 3 340) _ _ _ _).
  - cbn. lia.
  - reflexivity.
  - reflexivity.
  - reflexivity.
Defined.

Lemma computeLayoutData_no_overlap_sample :
  1 <= columnCount sampleConfig
  /\ position 4 (mkCell (mkItem "b" 120 None 1 false tt) 1 2 210) + 1
     <= position 4 (mkCell (mkItem "c" 80 None 2 false tt) 2 2 210).
Proof.
  split; [cbn; lia|].
  refine (proj1
            (computeLayoutData_no_overlap unit sampleConfig 1 2
               (mkCell (mkItem "b" 120 None 1 false tt) 1 2 210)
               (mkCell (mkItem "c" 80 None 2 false tt) 2 2 210) _ _ _ _)).
  - cbn. lia.
  - lia.
  - reflexivity.
  - reflexivity.
Defined.


(** ** Grid packer: plain grids, fitting and the gap *)

Section PackerPlain.

Context {P : Type}.
Variable configData : ConfigData P.
Hypothesis columnCount_pos : 1 <= columnCount configData.

Lemma layoutEntry_plain (st : LayoutState) (entry : Item P) (index : Z) :
  columnShift st = 0 -> 0 <= index -> plainEntry entry ->
  columnShift (fst (layoutEntry configData st entry index)) = 0
  /\ columnNumber (snd (layoutEntry configData st entry index))
     = index mod columnCount configData + 1
  /\ rowNumber (snd (layoutEntry configData st entry index))
     = index / columnCount configData + 1
  /\ columnSpan (snd (layoutEntry configData st entry index)) = 1
  /\ height (snd (layoutEntry configData st entry index))
     = inject_Z (Math_round (height entry)).
Proof.
  intros Hshift Hindex [Hspan Hnew].
  assert (Hsh : shiftedIndexOf configData st entry index = index).
  { unfold shiftedIndexOf, newRowShift. rewrite Hnew, Hshift.
    cbn [andb]. lia. }
  assert (Hfull : fullRowSpan (columnCount configData) entry = 1).
  { unfold fullRowSpan. rewrite Hspan. reflexivity. }
  pose proof (layoutEntry_columnNumber configData st entry index) as Hcol.
  pose proof (layoutEntry_rowNumber configData st entry index) as Hrow.
  pose proof (layoutEntry_clip configData st entry index) as Hclip.
  pose proof (layoutEntry_columnShift configData st entry index) as Hcs.
  cbv zeta in Hclip, Hcs.
  rewrite Hsh in Hcol, Hrow. rewrite Z.rem_mod_nonneg in Hcol by lia.
  pose proof (Z.mod_pos_bound index (columnCount configData) ltac:(lia)).
  rewrite Hfull in Hclip.
  assert (E : (columnNumber (snd (layoutEntry configData st entry index)) + 1
               >? columnCount configData + 1) = false).
  { rewrite Z.gtb_ltb. apply Z.ltb_ge. lia. }
  rewrite E in Hclip. destruct Hclip as [Hspan' Hheight].
  rewrite Hspan' in Hcs. cbn [Z.gtb Z.compare] in Hcs.
  unfold newRowShift in Hcs. rewrite Hnew, Hshift in Hcs.
  cbn [andb] in Hcs.
  repeat split; assumption.
Qed.

Lemma pack_plain (l : list (Item P)) (st : LayoutState) (index : Z) :
  columnShift st = 0 -> 0 <= index -> Forall plainEntry l ->
  forall (n : nat) (entry : Item P), nth_error l n = Some entry ->
  exists cell : Cell P,
    nth_error (snd (mapWithState (layoutEntry configData) st index l)) n
    = Some cell
    /\ columnNumber cell
       = (index + Z.of_nat n) mod columnCount configData + 1
    /\ rowNumber cell = (index + Z.of_nat n) / columnCount configData + 1
    /\ columnSpan cell = 1
    /\ height cell = inject_Z (Math_round (height entry)).
Proof.
  revert st index.
  induction l as [|e l IH]; intros st index Hshift Hindex Hall n entry Hn.
  - destruct n; discriminate.
  - rewrite mapWithState_cons. cbn [snd].
    inversion Hall as [|e' l' He Hl]; subst.
    destruct (layoutEntry_plain st e index Hshift Hindex He)
      as [Hshift1 Hcell].
    destruct n as [|n]; cbn [nth_error] in Hn |- *.
    + apply Some_eq_inv in Hn. subst entry.
      eexists. split; [reflexivity|].
      rewrite Z.add_0_r. exact Hcell.
    + destruct (IH _ (index + 1) Hshift1 ltac:(lia) Hl n entry Hn)
        as [cell [Hc Hgeom]].
      exists cell. split; [exact Hc|].
      replace (index + Z.of_nat (S n)) with (index + 1 + Z.of_nat n) by lia.
      exact Hgeom.
Qed.

End PackerPlain.

(** X9: with at least one column, when every entry is one column wide and
    none asks for a new row, the cells fill the grid in reading order: the
    cell of index [n] is in column [n mod columnCount + 1] of row
    [n / columnCount + 1], one column wide, with its entry's height
    rounded. *)
Theorem computeLayoutData_plain_grid (P : Type) (configData : ConfigData P)
    (n : nat) (entry : Item P) :
  1 <= columnCount configData ->
  Forall plainEntry (entries configData) ->
  nth_error (entries configData) n = Some entry ->
  exists cell : Cell P,
    nth_error (cells (computeLayoutData (Some configData))) n = Some cell
    /\ columnNumber cell = Z.of_nat n mod columnCount configData + 1
    /\ rowNumber cell = Z.of_nat n / columnCount configData + 1
    /\ columnSpan cell = 1
    /\ height cell = inject_Z (Math_round (height entry)).
Proof.
  intros Hcc Hplain Hn.
  rewrite computeLayoutData_cells.
  apply (pack_plain configData Hcc (entries configData) initialLayoutState 0
           eq_refl ltac:(lia) Hplain n entry Hn).
Qed.

Section PackerFits.

Context {P : Type}.
Variable configData : ConfigData P.
Hypothesis gridGap_nonneg : (0 <= gridGap configData)%Q.

(** Along a run of the packer the bottom of the row being filled never
    comes up, and every cell ends above the bottom of the last row. *)
Lemma pack_fits (l : list (Item P)) (st : LayoutState) (index : Z) :
  (0 <= currentRowMaxHeight st)%Q ->
  let st' := fst (mapWithState (layoutEntry configData) st index l) in
  (prevRowsTotalHeight st + currentRowMaxHeight st
   <= prevRowsTotalHeight st' + currentRowMaxHeight st')%Q
  /\ (0 <= currentRowMaxHeight st')%Q
  /\ Forall
       (fun c : Cell P =>
          (offset c + height c
           <= prevRowsTotalHeight st' + currentRowMaxHeight st')%Q)
       (snd (mapWithState (layoutEntry configData) st index l)).
Proof.
  revert st index.
  induction l as [|e l IH]; intros st index Hmax; cbv zeta.
  - cbn. split; [apply Qle_refl|]. split; [exact Hmax|constructor].
  - rewrite mapWithState_cons. cbn [fst snd].
    pose proof (layoutEntry_offset configData st e index) as Hoff.
    pose proof (layoutEntry_prevRowsTotalHeight configData st e index)
      as Hprev.
    pose proof (layoutEntry_currentRowMaxHeight configData st e index)
      as Hm.
    set (st1 := fst (layoutEntry configData st e index)) in *.
    set (c := snd (layoutEntry configData st e index)) in *.
    assert (Hl : ((if rowNumber c =? currentRowNumber st
                   then currentRowMaxHeight st else 0)
                  <= currentRowMaxHeight st1)%Q).
    { rewrite Hm. apply Q.le_max_l. }
    assert (Hr : (height c <= currentRowMaxHeight st1)%Q).
    { rewrite Hm. apply Q.le_max_r. }
    assert (Hmax1 : (0 <= currentRowMaxHeight st1)%Q).
    { destruct (rowNumber c =? currentRowNumber st); lra. }
    assert (Hstep : (prevRowsTotalHeight st + currentRowMaxHeight st
                     <= prevRowsTotalHeight st1 + currentRowMaxHeight st1)%Q).
    { rewrite Hprev. destruct (rowNumber c =? currentRowNumber st); lra. }
    destruct (IH st1 (index + 1) Hmax1) as [Hmono [Hmax' Hall]].
    split; [lra|]. split; [exact Hmax'|].
    constructor; [|exact Hall].
    rewrite Hoff. lra.
Qed.

End PackerFits.

(** X10: with at least one column and a gap that is not negative, no cell
    starts above the top of the content or ends below its total height,
    and the total height is not negative. *)
Theorem computeLayoutData_fits (P : Type) (configData : ConfigData P) :
  1 <= columnCount configData ->
  (0 <= gridGap configData)%Q ->
  (0 <= totalHeight (computeLayoutData (Some configData)))%Q
  /\ Forall
       (fun c : Cell P =>
          (0 <= offset c)%Q
          /\ (offset c + height c
              <= totalHeight (computeLayoutData (Some configData)))%Q)
       (cells (computeLayoutData (Some configData))).
Proof.
  intros Hcc Hgap.
  rewrite computeLayoutData_totalHeight, computeLayoutData_cells.
  cbv zeta.
  destruct (pack_fits configData Hgap (entries configData)
              initialLayoutState 0 (Qle_refl 0)) as [Hmono [_ Hfits]].
  destruct (pack_offsets configData Hcc (entries configData)
              initialLayoutState 0 Hgap (rowInv_initial configData))
    as [Htop _].
  cbv zeta in Hmono, Hfits.
  split.
  - cbn [initialLayoutState prevRowsTotalHeight currentRowMaxHeight]
      in Hmono. lra.
  - rewrite Forall_forall in *. intros c Hin.
    split; [apply (Htop c Hin)|apply (Hfits c Hin)].
Qed.

Lemma computeLayoutData_fits_sample :
  1 <= columnCount sampleConfig /\ (0 <= gridGap sampleConfig)%Q
  /\ (0 <= totalHeight (computeLayoutData (Some sampleConfig)))%Q.
Proof.
  split; [cbn; lia|]. split; [cbn; lra|].
  apply (computeLayoutData_fits unit sampleConfig); [cbn; lia|cbn; lra].
Defined.

Lemma computeLayoutData_plain_grid_sample :
  1 <= columnCount samplePlainConfig
  /\ exists cell : Cell unit,
       nth_error (cells (computeLayoutData (Some samplePlainConfig))) 3
       = Some cell
       /\ columnNumber cell = 3 mod 3 + 1
       /\ rowNumber cell = 3 / 3 + 1
       /\ columnSpan cell = 1
       /\ height cell = inject_Z (Math_round 130).
Proof.
  split; [cbn; lia|].
  refine (computeLayoutData_plain_grid unit samplePlainConfig 3
            (mkItem "d" 130 None 1 false tt) _ _ _).
  - cbn. lia.
  - repeat constructor.
  - reflexivity.
Defined.

Lemma layoutEntry_withGridGap_slot {P : Type} (configData : ConfigData P)
    (gap : Q) (st1 st2 : LayoutState) (entry : Item P) (index : Z) :
  sameRowState st1 st2 ->
  gridSlot (snd (layoutEntry configData st1 entry index))
  = gridSlot (snd (layoutEntry (withGridGap gap configData) st2 entry index)).
Proof.
  intros [Hcur [Hmax Hshift]].
  unfold layoutEntry, gridSlot.
  cbn [withGridGap columnCount gridGap].
  rewrite <- Hcur, <- Hmax, <- Hshift.
  destruct (_ >? columnCount configData + 1);
    destruct (negb (_ =? currentRowNumber st1)); reflexivity.
Qed.

Lemma pack_withGridGap_slots {P : Type} (configData : ConfigData P)
    (gap : Q) (l : list (Item P)) (st1 st2 : LayoutState) (index : Z) :
  sameRowState st1 st2 ->
  map gridSlot (snd (mapWithState (layoutEntry configData) st1 index l))
  = map gridSlot
      (snd (mapWithState (layoutEntry (withGridGap gap configData)) st2
              index l)).
Proof.
  revert st1 st2 index.
  induction l as [|e l IH]; intros st1 st2 index Hsame; [reflexivity|].
  rewrite !mapWithState_cons. cbn [fst snd map].
  destruct (layoutEntry_withGridGap configData gap st1 st2 e index Hsame)
    as [Hsame1 _].
  rewrite (layoutEntry_withGridGap_slot configData gap st1 st2 e index Hsame).
  f_equal. apply IH. exact Hsame1.
Qed.

(** X11: with at least one column, the gap only moves rows down: with
    another gap every cell keeps its column, row, span and height. *)
Theorem computeLayoutData_gap_moves_rows_only (P : Type)
    (configData : ConfigData P) (gap : Q) :
  1 <= columnCount configData ->
  map gridSlot
    (cells (computeLayoutData (Some (withGridGap gap configData))))
  = map gridSlot (cells (computeLayoutData (Some configData))).
Proof.
  intros _. rewrite !computeLayoutData_cells.
  cbn [withGridGap entries]. symmetry.
  apply pack_withGridGap_slots. repeat split.
Qed.

Lemma computeLayoutData_gap_moves_rows_only_sample :
  1 <= columnCount sampleConfig
  /\ map gridSlot
       (cells (computeLayoutData (Some (withGridGap 50 sampleConfig))))
     = map gridSlot (cells (computeLayoutData (Some sampleConfig))).
Proof.
  split; [cbn; lia|].
  apply (computeLayoutData_gap_moves_rows_only unit sampleConfig 50).
  cbn. lia.
Defined.

(** ** The pipeline from container and items to the layout *)

(** X12: when the tracked element is at least 250 wide, the layout of the
    derived config has one cell per item, in the order of the items and
    with their identifiers; every cell lies within the derived number of
    columns, starts at or below the top of the content and ends at or above
    its total height. *)
Theorem pipeline_layout (P : Type) (c : ContainerData)
    (items : list (Item P)) (w : Q) :
  trackedElementWidth c = Some w -> (250 <= w)%Q ->
  let configData := computeConfigData (Some c) (Some items) in
  let layoutData := computeLayoutData (Some configData) in
  columnCount configData = Math_floor (w / 250)
  /\ map (fun cell : Cell P => id cell) (cells layoutData)
     = map (fun it : Item P => id it) items
  /\ Forall
       (fun cell : Cell P =>
          1 <= columnNumber cell
          /\ columnNumber cell + columnSpan cell - 1 <= Math_floor (w / 250)
          /\ (0 <= offset cell)%Q
          /\ (offset cell + height cell <= totalHeight layoutData)%Q)
       (cells layoutData).
Proof.
  intros Hw Hwide configData layoutData.
  assert (Hcount : columnCount configData = Math_floor (w / 250)).
  { unfold configData. cbn [computeConfigData columnCount].
    unfold getColumnCount. fold (trackedElementWidth c). rewrite Hw.
    reflexivity. }
  assert (Hcc : 1 <= columnCount configData).
  { rewrite Hcount. apply Math_floor_ge_1.
    setoid_replace w with ((w / 250) * 250)%Q in Hwide by field. lra. }
  assert (Hgap : (0 <= gridGap configData)%Q).
  { destruct (computeConfigData_gridGap P (Some c) (Some items))
      as [H|[H|H]]; unfold configData; rewrite H; lra. }
  split; [exact Hcount|]. split.
  - assert (HF : Forall2 carriesOver (entries configData)
                   (cells layoutData)).
    { unfold layoutData. rewrite computeLayoutData_cells.
      apply mapWithState_Forall2. intros st a index.
      apply layoutEntry_carriesOver. }
    assert (Hids : map (fun cell : Cell P => id cell) (cells layoutData)
                   = map (fun e : Item P => id e) (entries configData)).
    { induction HF as [|e cell es cs [Hid _] _ IH]; [reflexivity|].
      cbn [map]. now rewrite Hid, IH. }
    rewrite Hids. unfold configData. rewrite computeConfigData_entries.
    rewrite map_map. apply map_ext. intro it.
    apply deriveEntry_frame.
  - destruct (pack_fits configData Hgap (entries configData)
                initialLayoutState 0 (Qle_refl 0)) as [_ [_ Hfits]].
    destruct (pack_offsets configData Hcc (entries configData)
                initialLayoutState 0 Hgap (rowInv_initial configData))
      as [Htop _].
    pose proof (mapWithState_Forall (layoutEntry configData) shiftInv
                  (insideGrid (columnCount configData))
                  (fun st a index =>
                     layoutEntry_shiftInv configData Hcc st a index)
                  (fun st a index =>
                     layoutEntry_insideGrid configData Hcc st a index)
                  (entries configData) initialLayoutState 0
                  shiftInv_initial) as Hgrid.
    cbv zeta in Hfits.
    unfold layoutData.
    rewrite computeLayoutData_totalHeight, computeLayoutData_cells.
    cbv zeta.
    rewrite Forall_forall in *. intros cell Hin.
    destruct (Hgrid cell Hin) as [[Hc1 _] Hc2].
    rewrite Hcount in Hc2.
    split; [exact Hc1|]. split; [exact Hc2|].
    split; [apply (Htop cell Hin)|apply (Hfits cell Hin)].
Qed.

Lemma pipeline_layout_sample :
  trackedElementWidth (containerOfWidth 1000) = Some 1000%Q
  /\ (250 <= 1000)%Q
  /\ columnCount (computeConfigData (Some (containerOfWidth 1000))
                    (Some sampleItems))
     = Math_floor (1000 / 250).
Proof.
  split; [reflexivity|]. split; [lra|].
  apply (pipeline_layout unit (containerOfWidth 1000) sampleItems 1000).
  - reflexivity.
  - lra.
Defined.

(** ** Viewport windower: the first rendered row *)

Section WindowerFirstRow.

Context {P : Type}.
Variable cfg : ConfigData P.
Variable box : ContainerData.
Variable top0 : Q.

Lemma renderCell_unfold (acc : RenderData P) (cell : Cell P) :
  renderCell cfg box top0 acc cell
  = if inRenderBand cfg box top0 cell
    then
      let first :=
        match firstRenderedRowNumber acc with
        | None => rowNumber cell
        | Some n => n
        end in
      mkRenderData (cellsToRender acc ++ [cell]) (Some first)
        (if rowNumber cell =? first
         then
           if truthy (firstRenderedRowOffset acc)
           then Some (Math_min (toNumber (firstRenderedRowOffset acc))
                        (offset cell))
           else Some (offset cell)
         else firstRenderedRowOffset acc)
    else acc.
Proof.
  unfold renderCell, inRenderBand, Qgtb, Qltb, cellBottom, cellTop,
    renderTop, renderBottom.
  destruct (Qle_bool (top0 + offset cell) _); cbn [negb andb];
    [|reflexivity].
  destruct (Qle_bool _ (top0 + offset cell + height cell));
    cbn [negb]; [|reflexivity].
  destruct (firstRenderedRowNumber acc); reflexivity.
Qed.

Lemma Math_min_same (x : Q) : Math_min x x = x.
Proof.
  unfold Math_min, Qmin, GenericMinMax.gmin. destruct (x ?= x)%Q; reflexivity.
Qed.

(** Once a first row is recorded, it stays, and so does its offset as long
    as the cells of that row all sit at that offset. *)
Lemma fold_renderCell_started (cs : list (Cell P)) (acc : RenderData P)
    (r : Z) (o : Q) :
  firstRenderedRowNumber acc = Some r ->
  firstRenderedRowOffset acc = Some o ->
  (forall c : Cell P, In c cs -> rowNumber c = r -> offset c = o) ->
  firstRenderedRowNumber (fold_left (renderCell cfg box top0) cs acc)
  = Some r
  /\ firstRenderedRowOffset (fold_left (renderCell cfg box top0) cs acc)
     = Some o.
Proof.
  revert acc.
  induction cs as [|c cs IH]; intros acc Hr Ho Hsame; cbn [fold_left].
  - split; assumption.
  - apply IH.
    + rewrite renderCell_unfold.
      destruct (inRenderBand cfg box top0 c); [|exact Hr].
      rewrite Hr. reflexivity.
    + rewrite renderCell_unfold.
      destruct (inRenderBand cfg box top0 c); [|exact Ho].
      rewrite Hr. cbv zeta. cbn [firstRenderedRowOffset].
      destruct (rowNumber c =? r) eqn:E; [|exact Ho].
      apply Z.eqb_eq in E.
      rewrite (Hsame c (or_introl eq_refl) E) in *.
      rewrite Ho. cbn [toNumber truthy].
      destruct (negb (Qeq_bool o 0)); [|reflexivity].
      now rewrite Math_min_same.
    + intros c' Hin. apply Hsame. right. exact Hin.
Qed.

(** The first row recorded is the row of the first cell in the band. *)
Lemma fold_renderCell_first (cs : list (Cell P)) (acc : RenderData P) :
  firstRenderedRowNumber acc = None ->
  firstRenderedRowNumber (fold_left (renderCell cfg box top0) cs acc)
  = option_map (fun c : Cell P => rowNumber c)
      (head (filter (inRenderBand cfg box top0) cs)).
Proof.
  revert acc.
  induction cs as [|c cs IH]; intros acc Hnone; cbn [fold_left filter].
  - exact Hnone.
  - destruct (inRenderBand cfg box top0 c) eqn:E.
    + cbn [head option_map].
      assert (Hfirst : firstRenderedRowNumber
                         (renderCell cfg box top0 acc c)
                       = Some (rowNumber c)).
      { rewrite renderCell_unfold, E, Hnone. reflexivity. }
      clear IH. revert Hfirst.
      generalize (renderCell cfg box top0 acc c). clear acc Hnone.
      induction cs as [|c' cs IH]; intros acc Hfirst; cbn [fold_left];
        [exact Hfirst|].
      apply IH. rewrite renderCell_unfold.
      destruct (inRenderBand cfg box top0 c'); [|exact Hfirst].
      rewrite Hfirst. reflexivity.
    + apply IH. rewrite renderCell_unfold, E. exact Hnone.
Qed.

(** Over cells in row order, the offset recorded is the offset of the
    first cell in the band. *)
Lemma fold_renderCell_offset (cs : list (Cell P)) (acc : RenderData P) :
  StronglySorted rowOrder cs ->
  firstRenderedRowNumber acc = None ->
  firstRenderedRowOffset acc = None ->
  firstRenderedRowOffset (fold_left (renderCell cfg box top0) cs acc)
  = option_map (fun c : Cell P => offset c)
      (head (filter (inRenderBand cfg box top0) cs)).
Proof.
  intro Hsorted. revert acc.
  induction Hsorted as [|c cs Hs IH Hc]; intros acc Hr Ho;
    cbn [fold_left filter].
  - exact Ho.
  - destruct (inRenderBand cfg box top0 c) eqn:E.
    + cbn [head option_map].
      apply (fold_renderCell_started cs (renderCell cfg box top0 acc c)
               (rowNumber c)).
      * rewrite renderCell_unfold, E, Hr. reflexivity.
      * rewrite renderCell_unfold, E, Hr, Ho. cbv zeta.
        cbn [firstRenderedRowOffset truthy]. now rewrite Z.eqb_refl.
      * intros c' Hin Hrow. rewrite Forall_forall in Hc.
        destruct (Hc c' Hin) as [_ Hsame]. symmetry. apply Hsame.
        symmetry. exact Hrow.
    + apply IH; rewrite renderCell_unfold, E; assumption.
Qed.

End WindowerFirstRow.

(** In a list in row order, everything that a filter keeps is in the row
    of the first element kept or in a later one. *)
Lemma head_filter_rowOrder {P : Type} (p : Cell P -> bool)
    (cs : list (Cell P)) (h : Cell P) :
  StronglySorted rowOrder cs ->
  head (filter p cs) = Some h ->
  forall c : Cell P, In c (filter p cs) -> rowNumber h <= rowNumber c.
Proof.
  induction 1 as [|c0 cs Hs IH Hc0]; intros Hh c Hin; cbn [filter] in *.
  - destruct Hin.
  - destruct (p c0).
    + cbn [head] in Hh. apply Some_eq_inv in Hh. subst c0.
      destruct Hin as [<-|Hin]; [lia|].
      apply filter_In in Hin. destruct Hin as [Hin _].
      rewrite Forall_forall in Hc0. apply (Hc0 c Hin).
    + apply IH; assumption.
Qed.

(** X13: when the element offset is known, the first rendered row number
    is the row number of the first cell to render, and [null] when there is
    none. *)
Theorem computeRenderData_first_row (P : Type) (configData : ConfigData P)
    (containerData0 : ContainerData) (layoutData : LayoutData P)
    (elementOffset0 : Q) :
  elementOffset containerData0 = Some elementOffset0 ->
  firstRenderedRowNumber
    (computeRenderData (Some configData) containerData0 (Some layoutData))
  = option_map (fun c : Cell P => rowNumber c)
      (head
         (cellsToRender
            (computeRenderData (Some configData) containerData0
               (Some layoutData)))).
Proof.
  intro Hoff. unfold computeRenderData. rewrite Hoff.
  rewrite fold_renderCell_cellsToRender. cbn [cellsToRender app].
  apply fold_renderCell_first. reflexivity.
Qed.

(** X14: for the layout that the packer makes of a config with at least
    one column, the first rendered row offset, which the template uses as
    top padding, is the offset of the first cell to render. *)
Theorem computeRenderData_first_row_offset (P : Type)
    (configData : ConfigData P) (containerData0 : ContainerData)
    (elementOffset0 : Q) :
  1 <= columnCount configData ->
  elementOffset containerData0 = Some elementOffset0 ->
  let renderData :=
    computeRenderData (Some configData) containerData0
      (Some (computeLayoutData (Some configData))) in
  firstRenderedRowOffset renderData
  = option_map (fun c : Cell P => offset c) (head (cellsToRender renderData)).
Proof.
  intros Hcc Hoff renderData. subst renderData.
  unfold computeRenderData. rewrite Hoff.
  rewrite fold_renderCell_cellsToRender. cbn [cellsToRender app].
  apply fold_renderCell_offset; [|reflexivity..].
  rewrite computeLayoutData_cells.
  apply (pack_rows configData Hcc (entries configData) initialLayoutState 0
           (rowInv_initial configData)).
Qed.

(** X15: for the layout that the packer makes of a config with at least
    one column, every rendered cell gets a grid row start that is the
    numeral of its row number counted from the first rendered row, which is
    at least 1, and is 1 for the first rendered cell. *)
Theorem getGridRowStart_rendered (P : Type) (configData : ConfigData P)
    (containerData0 : ContainerData) (elementOffset0 : Q)
    (first cell : Cell P) :
  1 <= columnCount configData ->
  elementOffset containerData0 = Some elementOffset0 ->
  let renderData :=
    computeRenderData (Some configData) containerData0
      (Some (computeLayoutData (Some configData))) in
  head (cellsToRender renderData) = Some first ->
  In cell (cellsToRender renderData) ->
  getGridRowStart cell (Some renderData)
  = Some (numberToString (rowNumber cell - rowNumber first + 1))
  /\ 1 <= rowNumber cell - rowNumber first + 1
  /\ getGridRowStart first (Some renderData) = Some "1"%string.
Proof.
  intros Hcc Hoff renderData Hhead Hin.
  assert (Hfirst : firstRenderedRowNumber renderData
                   = Some (rowNumber first)).
  { unfold renderData, computeRenderData in Hhead |- *.
    rewrite Hoff in Hhead |- *.
    rewrite fold_renderCell_cellsToRender in Hhead.
    cbn [cellsToRender app] in Hhead.
    rewrite fold_renderCell_first by reflexivity.
    rewrite Hhead. reflexivity. }
  assert (Hle : rowNumber first <= rowNumber cell).
  { unfold renderData, computeRenderData in Hhead, Hin.
    rewrite Hoff in Hhead, Hin.
    rewrite fold_renderCell_cellsToRender in Hhead, Hin.
    cbn [cellsToRender app] in Hhead, Hin.
    refine (head_filter_rowOrder _ _ first _ Hhead cell Hin).
    rewrite computeLayoutData_cells.
    apply (pack_rows configData Hcc (entries configData) initialLayoutState
             0 (rowInv_initial configData)). }
  unfold getGridRowStart. rewrite Hfirst. cbv zeta.
  split; [|split].
  - f_equal. f_equal. lia.
  - lia.
  - f_equal.
    replace (rowNumber first - (rowNumber first - 1)) with 1 by lia.
    reflexivity.
Qed.

Lemma computeRenderData_first_row_sample :
  elementOffset sampleWindow = Some 50%Q
  /\ firstRenderedRowNumber
       (computeRenderData (Some sampleWindowConfig) sampleWindow
          (Some (mkLayoutData 1840 sampleWindowCells)))
     = Some 2.
Proof.
  split; [reflexivity|].
  rewrite (computeRenderData_first_row unit sampleWindowConfig sampleWindow
             (mkLayoutData 1840 sampleWindowCells) 50 eq_refl).
  reflexivity.
Defined.

Lemma computeRenderData_first_row_offset_sample :
  1 <= columnCount sampleScrolledConfig
  /\ elementOffset sampleScrolledWindow = Some 50%Q
  /\ firstRenderedRowOffset
       (computeRenderData (Some sampleScrolledConfig) sampleScrolledWindow
          (Some (computeLayoutData (Some sampleScrolledConfig))))
     = Some 210%Q.
Proof.
  split; [cbn; lia|]. split; [reflexivity|].
  rewrite (computeRenderData_first_row_offset unit sampleScrolledConfig
             sampleScrolledWindow 50 ltac:(cbn; lia) eq_refl).
  reflexivity.
Defined.

Lemma getGridRowStart_rendered_sample :
  1 <= columnCount sampleScrolledConfig
  /\ elementOffset sampleScrolledWindow = Some 50%Q
  /\ getGridRowStart (mkCell (mkItem "d" 95 None 1 true tt) 1 3 340)
       (Some
          (computeRenderData (Some sampleScrolledConfig) sampleScrolledWindow
             (Some (computeLayoutData (Some sampleScrolledConfig)))))
     = Some "2"%string.
Proof.
  split; [cbn; lia|]. split; [reflexivity|].
  refine (proj1
            (getGridRowStart_rendered unit sampleScrolledConfig
               sampleScrolledWindow 50
               (mkCell (mkItem "b" 120 None 1 false tt) 1 2 210)
               (mkCell (mkItem "d" 95 None 1 true tt) 1 3 340) _ _ _ _)).
  - cbn. lia.
  - reflexivity.
  - reflexivity.
  - vm_compute. right. right. left. reflexivity.
Defined.

(** ** Loading state machine: accounting, the lock and the log *)

Section LoaderAccounting.

Variable updateTriggerMargin : Q.

(** What a call of [loadMoreDataAsync] does to the component, for a
    geometry without [null]: it takes the lock and calls [updateFunction],
    or it only samples the DOM. *)
Lemma loadMoreDataAsync_known (ref : option DomReading) (g : Grid) :
  geometryKnown g ->
  (updateLock g = false /\ bottomReached g = false
   /\ loadMoreDataAsync updateTriggerMargin ref g
      = (Awaiting,
         callUpdateFunction
           (setUpdateLock true (computeContainerData ref g))))
  \/ loadMoreDataAsync updateTriggerMargin ref g
     = (Fulfilled, computeContainerData ref g).
Proof.
  intro Hknown.
  destruct (computeContainerData_frame ref g) as [Hl [Hb _]].
  unfold loadMoreDataAsync.
  destruct (elementSize (containerData (computeContainerData ref g)))
    as [es|] eqn:Hes.
  - rewrite Hl, Hb.
    destruct (bottomReached g), (updateLock g),
      (bottomTriggered updateTriggerMargin _ es); cbn [negb andb];
      try (right; reflexivity).
    left. repeat split.
  - exfalso. destruct ref as [dom|]; [discriminate Hes|].
    apply Hknown. exact Hes.
Qed.

Lemma computeContainerData_known (ref : option DomReading) (g : Grid) :
  geometryKnown g -> geometryKnown (computeContainerData ref g).
Proof.
  intro Hknown. destruct ref as [dom|]; [|exact Hknown].
  unfold geometryKnown. cbn. discriminate.
Qed.

(** Calls are never lost: each one is pending or was settled. *)
Lemma loadMoreDataAsync_accounting (ref : option DomReading) (g : Grid) :
  (fetchCount (snd (loadMoreDataAsync updateTriggerMargin ref g))
   + pendingUpdates g
   = fetchCount g
     + pendingUpdates (snd (loadMoreDataAsync updateTriggerMargin ref g)))%nat.
Proof.
  destruct (computeContainerData_frame ref g) as [_ [_ [Hp He]]].
  destruct (loadMoreDataAsync_cases updateTriggerMargin ref g)
    as [[_ [_ ->]]|[c [_ ->]]]; cbn [snd].
  - unfold fetchCount.
    cbn [callUpdateFunction setUpdateLock effects pendingUpdates filter
           isCallUpdateFunction List.length].
    rewrite He, Hp. lia.
  - unfold fetchCount. rewrite He, Hp. lia.
Qed.

Lemma loadMoreData_accounting (ref : option DomReading) (g : Grid) :
  (fetchCount (loadMoreData updateTriggerMargin ref g) + pendingUpdates g
   = fetchCount g
     + pendingUpdates (loadMoreData updateTriggerMargin ref g))%nat.
Proof.
  pose proof (loadMoreDataAsync_accounting ref g) as H.
  unfold loadMoreData.
  destruct (loadMoreDataAsync updateTriggerMargin ref g) as [c g1].
  cbn [snd] in H.
  destruct (catchHandler_frame c g1) as [_ [_ [Hp Hf]]].
  rewrite Hp, Hf. exact H.
Qed.

Lemma step_accounting (ev : Event) (g g' : Grid) :
  step updateTriggerMargin ev g = Some g' ->
  (fetchCount g' + pendingUpdates g
   = fetchCount g + pendingUpdates g'
     + (if isSettlement ev then 1 else 0))%nat.
Proof.
  intro Hstep.
  destruct ev as [ref|ref|ref|ref|isLastBatch ref|error];
    [cbn [step] in Hstep; apply Some_eq_inv in Hstep; subst g';
     cbn [isSettlement]..| |].
  - unfold initiliazeGrid.
    pose proof (loadMoreData_accounting ref (computeContainerData ref g))
      as H.
    destruct (computeContainerData_frame ref g) as [_ [_ [Hp He]]].
    unfold fetchCount in *. rewrite Hp, He in H. lia.
  - unfold resize. pose proof (loadMoreData_accounting ref g). lia.
  - unfold scroll'. pose proof (loadMoreData_accounting ref g). lia.
  - unfold resetGrid.
    pose proof (loadMoreData_accounting ref (setBottomReached false g))
      as H.
    change (fetchCount (setBottomReached false g)) with (fetchCount g) in H.
    change (pendingUpdates (setBottomReached false g))
      with (pendingUpdates g) in H.
    lia.
  - cbn [step] in Hstep.
    destruct (pendingUpdates g) as [|n] eqn:Hp; [discriminate|].
    unfold resumeLoadMoreDataAsync in Hstep.
    set (g1 := setUpdateLock false
                 (if isLastBatch then setBottomReached true (settleUpdate g)
                  else settleUpdate g)) in *.
    pose proof (loadMoreDataAsync_accounting ref g1) as H.
    destruct (loadMoreDataAsync updateTriggerMargin ref g1) as [c g2].
    apply Some_eq_inv in Hstep. subst g'. cbn [snd] in H.
    destruct (catchHandler_frame c g2) as [_ [_ [Hp2 Hf2]]].
    rewrite Hp2, Hf2. cbn [isSettlement].
    assert (Hf1 : fetchCount g1 = fetchCount g)
      by (subst g1; destruct isLastBatch; reflexivity).
    assert (Hp1 : pendingUpdates g1 = n).
    { subst g1. destruct isLastBatch;
        cbn [setUpdateLock setBottomReached settleUpdate pendingUpdates];
        rewrite Hp; reflexivity. }
    lia.
  - change (step updateTriggerMargin (UpdateRejected error) g)
      with (match pendingUpdates g with
            | O => None
            | S _ => Some (catchHandler (Rejected error) (settleUpdate g))
            end) in Hstep.
    destruct (pendingUpdates g) as [|n] eqn:Hp; [discriminate|].
    apply Some_eq_inv in Hstep. subst g'.
    destruct (catchHandler_frame (Rejected error) (settleUpdate g))
      as [_ [_ [Hp2 Hf2]]].
    rewrite Hp2, Hf2. cbn [isSettlement settleUpdate pendingUpdates].
    rewrite Hp. change (fetchCount (settleUpdate g)) with (fetchCount g).
    cbn [pred]. lia.
Qed.

Lemma run_accounting (evs : list Event) (g g' : Grid) :
  run updateTriggerMargin evs g = Some g' ->
  (fetchCount g' + pendingUpdates g
   = fetchCount g + pendingUpdates g' + settledCount evs)%nat.
Proof.
  revert g.
  induction evs as [|ev evs IH]; intros g Hrun; cbn [run] in Hrun.
  - apply Some_eq_inv in Hrun. subst g'. cbn. lia.
  - destruct (step updateTriggerMargin ev g) as [g1|] eqn:Hstep;
      [|discriminate].
    pose proof (step_accounting ev g g1 Hstep) as H1.
    pose proof (IH g1 Hrun) as H2.
    unfold settledCount in *. cbn [filter].
    destruct (isSettlement ev); cbn [List.length]; lia.
Qed.

End LoaderAccounting.

(** X16: on every run from the initial state, the number of calls of
    [updateFunction] is the number of its promises that have settled plus
    the number still pending, so it is at most one more than the number
    settled. *)
Theorem fetchCount_accounting (updateTriggerMargin : Q) (evs : list Event)
    (g : Grid) :
  run updateTriggerMargin evs initialGrid = Some g ->
  fetchCount g = (settledCount evs + pendingUpdates g)%nat
  /\ (fetchCount g <= settledCount evs + 1)%nat.
Proof.
  intro Hrun.
  pose proof (run_accounting updateTriggerMargin evs initialGrid g Hrun) as H.
  destruct (run_singleFlight updateTriggerMargin evs initialGrid g
              singleFlight_initial Hrun) as [Hle _].
  change (fetchCount initialGrid) with 0%nat in H.
  change (pendingUpdates initialGrid) with 0%nat in H.
  lia.
Qed.

Lemma fetchCount_accounting_sample :
  exists g : Grid,
    run 500
      [ Mounted (Some emptyGridReading);
        UpdateFulfilled false (Some emptyGridReading) ]
      initialGrid = Some g
    /\ fetchCount g = 2%nat.
Proof.
  eexists. split; [reflexivity|].
  refine (proj1
            (fetchCount_accounting 500
               [ Mounted (Some emptyGridReading);
                 UpdateFulfilled false (Some emptyGridReading) ]
               _ eq_refl)).
Defined.

Section LoaderLock.

Variable updateTriggerMargin : Q.

Lemma loadMoreDataAsync_lockExact (ref : option DomReading) (g : Grid) :
  lockExact g ->
  lockExact (snd (loadMoreDataAsync updateTriggerMargin ref g)).
Proof.
  intros [Hle Hiff].
  destruct (computeContainerData_frame ref g) as [Hl [_ [Hp _]]].
  destruct (loadMoreDataAsync_cases updateTriggerMargin ref g)
    as [[Hfree [_ ->]]|[c [_ ->]]]; cbn [snd]; unfold lockExact.
  - cbn [callUpdateFunction setUpdateLock pendingUpdates updateLock].
    rewrite Hp.
    assert (pendingUpdates g <> 1%nat)
      by (intro H1; apply Hiff in H1; congruence).
    split; [lia|]. split; intros _; [lia|reflexivity].
  - rewrite Hp, Hl. split; assumption.
Qed.

Lemma loadMoreData_lockExact (ref : option DomReading) (g : Grid) :
  lockExact g -> lockExact (loadMoreData updateTriggerMargin ref g).
Proof.
  intro Hinv.
  pose proof (loadMoreDataAsync_lockExact ref g Hinv) as H.
  unfold loadMoreData.
  destruct (loadMoreDataAsync updateTriggerMargin ref g) as [c g'].
  cbn [snd] in H.
  destruct (catchHandler_frame c g') as [Hl [_ [Hp _]]].
  unfold lockExact. rewrite Hl, Hp. exact H.
Qed.

Lemma step_lockExact (ev : Event) (g g' : Grid) :
  lockExact g -> isRejection ev = false ->
  step updateTriggerMargin ev g = Some g' ->
  lockExact g'.
Proof.
  intros Hinv Hev Hstep.
  destruct ev as [ref|ref|ref|ref|isLastBatch ref|error];
    try discriminate Hev; cbn [step] in Hstep.
  - apply Some_eq_inv in Hstep. subst g'. unfold initiliazeGrid.
    apply loadMoreData_lockExact.
    destruct (computeContainerData_frame ref g) as [Hl [_ [Hp _]]].
    unfold lockExact. rewrite Hl, Hp. exact Hinv.
  - apply Some_eq_inv in Hstep. subst g'.
    apply loadMoreData_lockExact, Hinv.
  - apply Some_eq_inv in Hstep. subst g'.
    apply loadMoreData_lockExact, Hinv.
  - apply Some_eq_inv in Hstep. subst g'. unfold resetGrid.
    apply loadMoreData_lockExact. exact Hinv.
  - destruct (pendingUpdates g) as [|n] eqn:Hp; [discriminate|].
    destruct Hinv as [Hle _]. rewrite Hp in Hle.
    assert (Hidle : lockExact
                      (setUpdateLock false
                         (if isLastBatch
                          then setBottomReached true (settleUpdate g)
                          else settleUpdate g))).
    { unfold lockExact.
      destruct isLastBatch;
        cbn [setUpdateLock setBottomReached settleUpdate pendingUpdates
               updateLock];
        rewrite Hp; cbn [pred];
        (split; [lia|]; split; [discriminate|lia]). }
    pose proof (loadMoreDataAsync_lockExact ref _ Hidle) as H.
    unfold resumeLoadMoreDataAsync in Hstep.
    destruct (loadMoreDataAsync updateTriggerMargin ref _) as [c g1].
    apply Some_eq_inv in Hstep. subst g'. cbn [snd] in H.
    destruct (catchHandler_frame c g1) as [Hl [_ [Hp1 _]]].
    unfold lockExact. rewrite Hl, Hp1. exact H.
Qed.

Lemma run_lockExact (evs : list Event) (g g' : Grid) :
  lockExact g ->
  forallb (fun ev => negb (isRejection ev)) evs = true ->
  run updateTriggerMargin evs g = Some g' ->
  lockExact g'.
Proof.
  revert g.
  induction evs as [|ev evs IH]; intros g Hinv Hevs Hrun;
    cbn [run forallb] in Hrun, Hevs.
  - apply Some_eq_inv in Hrun. subst g'. exact Hinv.
  - apply andb_true_iff in Hevs. destruct Hevs as [Hev Hevs].
    apply negb_true_iff in Hev.
    destruct (step updateTriggerMargin ev g) as [g1|] eqn:Hstep;
      [|discriminate].
    apply (IH g1); [|exact Hevs|exact Hrun].
    apply (step_lockExact ev g g1 Hinv Hev Hstep).
Qed.

Lemma lockExact_initial : lockExact initialGrid.
Proof.
  split; [cbn; lia|]. cbn. split; discriminate.
Qed.

End LoaderLock.

(** X17: on every run from the initial state in which no promise of
    [updateFunction] is rejected, the lock is held exactly while a promise
    is pending, so [loadingBatch] is true exactly when a loader is
    configured and a fetch is in flight. *)
Theorem loadingBatch_in_flight (updateTriggerMargin : Q) (evs : list Event)
    (g : Grid) (L : Type) (loader : option L) :
  forallb (fun ev => negb (isRejection ev)) evs = true ->
  run updateTriggerMargin evs initialGrid = Some g ->
  (updateLock g = true <-> pendingUpdates g = 1%nat)
  /\ (loadingBatch loader g = Some true
      <-> loader <> None /\ pendingUpdates g = 1%nat).
Proof.
  intros Hevs Hrun.
  destruct (run_lockExact updateTriggerMargin evs initialGrid g
              lockExact_initial Hevs Hrun) as [_ Hiff].
  split; [exact Hiff|].
  unfold loadingBatch. destruct loader as [l|].
  - split.
    + intro H. apply Some_eq_inv in H. split; [discriminate|].
      apply Hiff. symmetry. exact H.
    + intros [_ Hp]. f_equal. apply Hiff. exact Hp.
  - split; [discriminate|]. intros [H _]. contradiction.
Qed.

Lemma loadingBatch_in_flight_sample :
  exists g : Grid,
    run 500 [ Mounted (Some emptyGridReading) ] initialGrid = Some g
    /\ loadingBatch (Some tt) g = Some true.
Proof.
  eexists. split; [reflexivity|].
  refine (proj2
            (proj2
               (loadingBatch_in_flight 500
                  [ Mounted (Some emptyGridReading) ] _ unit (Some tt)
                  eq_refl eq_refl))
            _).
  split; [discriminate|reflexivity].
Defined.

Section LoaderLog.

Variable updateTriggerMargin : Q.

Lemma loadMoreData_logged (ref : option DomReading) (g : Grid) :
  geometryKnown g ->
  geometryKnown (loadMoreData updateTriggerMargin ref g)
  /\ loggedErrors (effects (loadMoreData updateTriggerMargin ref g))
     = loggedErrors (effects g).
Proof.
  intro Hknown.
  pose proof (computeContainerData_known ref g Hknown) as Hknown0.
  destruct (computeContainerData_frame ref g) as [_ [_ [_ He]]].
  unfold loadMoreData.
  destruct (loadMoreDataAsync_known updateTriggerMargin ref g Hknown)
    as [[_ [_ ->]]| ->]; cbn [catchHandler].
  - split; [exact Hknown0|].
    cbn [callUpdateFunction setUpdateLock effects loggedErrors].
    now rewrite He.
  - split; [exact Hknown0|]. now rewrite He.
Qed.

Lemma step_logged (ev : Event) (g g' : Grid) :
  geometryKnown g -> step updateTriggerMargin ev g = Some g' ->
  geometryKnown g'
  /\ loggedErrors (effects g')
     = rejectionReasons [ev] ++ loggedErrors (effects g).
Proof.
  intros Hknown Hstep.
  destruct ev as [ref|ref|ref|ref|isLastBatch ref|error];
    [cbn [step] in Hstep; apply Some_eq_inv in Hstep; subst g';
     cbn [rejectionReasons app]..| |].
  - unfold initiliazeGrid.
    destruct (loadMoreData_logged ref (computeContainerData ref g)
                (computeContainerData_known ref g Hknown)) as [Hk Hlog].
    destruct (computeContainerData_frame ref g) as [_ [_ [_ He]]].
    split; [exact Hk|]. now rewrite Hlog, He.
  - apply loadMoreData_logged, Hknown.
  - apply loadMoreData_logged, Hknown.
  - unfold resetGrid.
    apply (loadMoreData_logged ref (setBottomReached false g)). exact Hknown.
  - cbn [step] in Hstep.
    destruct (pendingUpdates g) as [|n]; [discriminate|].
    unfold resumeLoadMoreDataAsync in Hstep.
    set (g1 := setUpdateLock false
                 (if isLastBatch then setBottomReached true (settleUpdate g)
                  else settleUpdate g)) in *.
    assert (Hk1 : geometryKnown g1)
      by (subst g1; destruct isLastBatch; exact Hknown).
    assert (Hl1 : loggedErrors (effects g1) = loggedErrors (effects g))
      by (subst g1; destruct isLastBatch; reflexivity).
    destruct (loadMoreData_logged ref g1 Hk1) as [Hk Hlog].
    unfold loadMoreData in Hk, Hlog.
    destruct (loadMoreDataAsync updateTriggerMargin ref g1) as [c g2].
    apply Some_eq_inv in Hstep. subst g'.
    cbn [rejectionReasons app].
    split; [exact Hk|]. now rewrite Hlog.
  - change (step updateTriggerMargin (UpdateRejected error) g)
      with (match pendingUpdates g with
            | O => None
            | S _ => Some (catchHandler (Rejected error) (settleUpdate g))
            end) in Hstep.
    destruct (pendingUpdates g) as [|n]; [discriminate|].
    apply Some_eq_inv in Hstep. subst g'.
    cbn [catchHandler rejectionReasons].
    destruct (String.length error =? 0)%nat; split; try exact Hknown;
      reflexivity.
Qed.

Lemma run_logged (evs : list Event) (g g' : Grid) :
  geometryKnown g -> run updateTriggerMargin evs g = Some g' ->
  geometryKnown g'
  /\ loggedErrors (effects g')
     = rev (rejectionReasons evs) ++ loggedErrors (effects g).
Proof.
  revert g.
  induction evs as [|ev evs IH]; intros g Hknown Hrun; cbn [run] in Hrun.
  - apply Some_eq_inv in Hrun. subst g'. split; [exact Hknown|reflexivity].
  - destruct (step updateTriggerMargin ev g) as [g1|] eqn:Hstep;
      [|discriminate].
    destruct (step_logged ev g g1 Hknown Hstep) as [Hk1 Hl1].
    destruct (IH g1 Hk1 Hrun) as [Hk' Hl'].
    split; [exact Hk'|].
    rewrite Hl', Hl1.
    assert (Hsplit : rejectionReasons (ev :: evs)
                     = rejectionReasons [ev] ++ rejectionReasons evs).
    { destruct ev as [ref|ref|ref|ref|b ref|error]; try reflexivity.
      cbn [rejectionReasons].
      destruct (String.length error =? 0)%nat; reflexivity. }
    rewrite Hsplit, rev_app_distr, <- app_assoc. f_equal.
    destruct ev as [ref|ref|ref|ref|b ref|error]; try reflexivity.
    cbn [rejectionReasons].
    destruct (String.length error =? 0)%nat; reflexivity.
Qed.

End LoaderLog.

(** X18: on every run from the initial state, the sampled geometry never
    holds a [null], so the component throws nothing of its own, and the
    errors it logs are exactly the truthy reasons with which promises of
    [updateFunction] were rejected, in the order of the rejections. *)
Theorem loggedErrors_are_rejections (updateTriggerMargin : Q)
    (evs : list Event) (g : Grid) :
  run updateTriggerMargin evs initialGrid = Some g ->
  elementSize (containerData g) <> None
  /\ rev (loggedErrors (effects g)) = rejectionReasons evs.
Proof.
  intro Hrun.
  assert (Hinit : geometryKnown initialGrid) by (cbn; discriminate).
  destruct (run_logged updateTriggerMargin evs initialGrid g Hinit Hrun)
    as [Hk Hlog].
  split; [exact Hk|].
  rewrite Hlog. cbn [initialGrid effects loggedErrors].
  rewrite app_nil_r. apply rev_involutive.
Qed.

Lemma loggedErrors_are_rejections_sample :
  exists g : Grid,
    run 500
      [ Mounted (Some emptyGridReading); UpdateRejected "offline" ]
      initialGrid = Some g
    /\ rev (loggedErrors (effects g)) = [ "offline"%string ].
Proof.
  eexists. split; [reflexivity|].
  refine (proj2
            (loggedErrors_are_rejections 500
               [ Mounted (Some emptyGridReading); UpdateRejected "offline" ]
               _ eq_refl)).
Defined.

(** ** Loading state machine: the trigger *)

(** X19: the trigger condition holds exactly when the bottom of the window
    is not negative and is within the trigger margin of the bottom of the
    tracked element; so a condition that holds for one margin holds for
    every larger margin. *)
Theorem bottomTriggered_threshold (updateTriggerMargin : Q)
    (containerData0 : ContainerData) (elementSize0 : ElementSize.t) :
  let windowBottom :=
    (ElementScroll.y (scroll containerData0)
     + ElementSize.height (size containerData0))%Q in
  let elementBottom :=
    (toNumber (elementOffset containerData0)
     + ElementSize.height elementSize0)%Q in
  (bottomTriggered updateTriggerMargin containerData0 elementSize0 = true
   <-> (0 <= windowBottom)%Q
       /\ (elementBottom - updateTriggerMargin <= windowBottom)%Q)
  /\ (forall margin' : Q,
        (updateTriggerMargin <= margin')%Q ->
        bottomTriggered updateTriggerMargin containerData0 elementSize0
        = true ->
        bottomTriggered margin' containerData0 elementSize0 = true).
Proof.
  intros windowBottom elementBottom.
  assert (Hspec : forall m : Q,
            bottomTriggered m containerData0 elementSize0 = true
            <-> (0 <= windowBottom)%Q
                /\ (elementBottom - m <= windowBottom)%Q).
  { intro m. unfold bottomTriggered, Math_max.
    rewrite Qle_bool_iff, Q.max_lub_iff. reflexivity. }
  split; [apply Hspec|].
  intros margin' Hle Htrig.
  apply Hspec in Htrig. apply Hspec.
  destruct Htrig as [H0 H1]. split; [exact H0|lra].
Qed.

Section LoaderRecheck.

Variable updateTriggerMargin : Q.

Lemma step_UpdateFulfilled_false (dom : DomReading) (g : Grid) (n : nat) :
  pendingUpdates g = S n ->
  step updateTriggerMargin (UpdateFulfilled false (Some dom)) g
  = Some
      (let g1 := computeContainerData (Some dom)
                   (setUpdateLock false (settleUpdate g)) in
       if negb (bottomReached g)
          && bottomTriggered updateTriggerMargin (containerData g1)
               (getElementSize dom)
       then callUpdateFunction (setUpdateLock true g1)
       else g1).
Proof.
  intro Hp. cbn [step]. rewrite Hp.
  unfold resumeLoadMoreDataAsync, loadMoreDataAsync.
  cbn [computeContainerData containerData elementSize setUpdateLock
         settleUpdate bottomReached updateLock negb].
  rewrite andb_true_r.
  destruct (negb (bottomReached g) && _); reflexivity.
Qed.

End LoaderRecheck.

(** X20: when a promise of [updateFunction] is fulfilled with false and
    the bottom has not been reached, the lock is released and the trigger
    is evaluated on a fresh reading of the DOM: if it holds,
    [updateFunction] is called again at once and the lock is held again;
    if not, the component is idle with the lock free. *)
Theorem updateFulfilled_rechecks (updateTriggerMargin : Q)
    (dom : DomReading) (g : Grid) :
  pendingUpdates g = 1%nat -> bottomReached g = false ->
  exists g' : Grid,
    step updateTriggerMargin (UpdateFulfilled false (Some dom)) g = Some g'
    /\ bottomReached g' = false
    /\ if bottomTriggered updateTriggerMargin
            (mkContainerData (getSize dom) (getScroll dom)
               (Some (getElementOffset dom)) (Some (getElementSize dom)))
            (getElementSize dom)
       then updateLock g' = true /\ pendingUpdates g' = 1%nat
            /\ fetchCount g' = S (fetchCount g)
            /\ effects g'
               = CallUpdateFunction :: SetUpdateLock true
                 :: SetUpdateLock false :: effects g
       else updateLock g' = false /\ pendingUpdates g' = 0%nat
            /\ fetchCount g' = fetchCount g.
Proof.
  intros Hp Hb.
  eexists. split; [apply (step_UpdateFulfilled_false _ dom g 0 Hp)|].
  rewrite Hb. cbn [negb andb computeContainerData containerData].
  destruct (bottomTriggered _ _ _).
  - cbn [callUpdateFunction setUpdateLock settleUpdate bottomReached
           updateLock pendingUpdates effects].
    rewrite Hp. unfold fetchCount.
    cbn [callUpdateFunction setUpdateLock settleUpdate effects filter
           isCallUpdateFunction List.length].
    repeat split; assumption.
  - cbn [setUpdateLock settleUpdate bottomReached updateLock
           pendingUpdates].
    rewrite Hp. repeat split; assumption.
Qed.

Lemma updateFulfilled_rechecks_sample :
  exists g g' : Grid,
    run 500 [ Mounted (Some emptyGridReading) ] initialGrid = Some g
    /\ step 500 (UpdateFulfilled false (Some emptyGridReading)) g = Some g'
    /\ bottomReached g' = false.
Proof.
  eexists.
  destruct (updateFulfilled_rechecks 500 emptyGridReading
              (initiliazeGrid 500 (Some emptyGridReading) initialGrid)
              eq_refl eq_refl) as [g' [Hstep [Hb _]]].
  exists g'. split; [reflexivity|]. split; assumption.
Defined.

Section LoaderBottom.

Variable updateTriggerMargin : Q.

Lemma loadMoreData_bottomReached (ref : option DomReading) (g : Grid) :
  bottomReached (loadMoreData updateTriggerMargin ref g) = bottomReached g.
Proof.
  destruct (computeContainerData_frame ref g) as [_ [Hb _]].
  unfold loadMoreData.
  destruct (loadMoreDataAsync_cases updateTriggerMargin ref g)
    as [[_ [_ ->]]|[c [_ ->]]].
  - cbn [catchHandler]. exact Hb.
  - destruct (catchHandler_frame c (computeContainerData ref g))
      as [_ [Hb' _]].
    now rewrite Hb'.
Qed.

Lemma step_bottomReached_raised (ev : Event) (g g' : Grid) :
  step updateTriggerMargin ev g = Some g' ->
  bottomReached g' = true ->
  bottomReached g = true \/ isLastBatchFulfilled ev = true.
Proof.
  intros Hstep Hb'.
  destruct ev as [ref|ref|ref|ref|isLastBatch ref|error];
    [cbn [step] in Hstep; apply Some_eq_inv in Hstep; subst g'..| |].
  - unfold initiliazeGrid in Hb'.
    rewrite loadMoreData_bottomReached in Hb'.
    destruct (computeContainerData_frame ref g) as [_ [Hb _]].
    left. congruence.
  - unfold resize in Hb'. rewrite loadMoreData_bottomReached in Hb'.
    left. exact Hb'.
  - unfold scroll' in Hb'. rewrite loadMoreData_bottomReached in Hb'.
    left. exact Hb'.
  - unfold resetGrid in Hb'. rewrite loadMoreData_bottomReached in Hb'.
    discriminate Hb'.
  - destruct isLastBatch; [right; reflexivity|].
    cbn [step] in Hstep.
    destruct (pendingUpdates g) as [|n]; [discriminate|].
    unfold resumeLoadMoreDataAsync in Hstep.
    pose proof (loadMoreData_bottomReached ref
                  (setUpdateLock false (settleUpdate g))) as H.
    unfold loadMoreData in H.
    destruct (loadMoreDataAsync updateTriggerMargin ref _) as [c g2].
    apply Some_eq_inv in Hstep. subst g'.
    rewrite H in Hb'. left. exact Hb'.
  - change (step updateTriggerMargin (UpdateRejected error) g)
      with (match pendingUpdates g with
            | O => None
            | S _ => Some (catchHandler (Rejected error) (settleUpdate g))
            end) in Hstep.
    destruct (pendingUpdates g) as [|n]; [discriminate|].
    apply Some_eq_inv in Hstep. subst g'.
    destruct (catchHandler_frame (Rejected error) (settleUpdate g))
      as [_ [Hb _]].
    rewrite Hb in Hb'. left. exact Hb'.
Qed.

Lemma run_bottomReached_raised (evs : list Event) (g g' : Grid) :
  run updateTriggerMargin evs g = Some g' ->
  bottomReached g' = true ->
  bottomReached g = true \/ existsb isLastBatchFulfilled evs = true.
Proof.
  revert g.
  induction evs as [|ev evs IH]; intros g Hrun Hb'; cbn [run] in Hrun.
  - apply Some_eq_inv in Hrun. subst g'. left. exact Hb'.
  - destruct (step updateTriggerMargin ev g) as [g1|] eqn:Hstep;
      [|discriminate].
    cbn [existsb].
    destruct (IH g1 Hrun Hb') as [Hb1|Hex].
    + destruct (step_bottomReached_raised ev g g1 Hstep Hb1) as [Hb|Hev].
      * left. exact Hb.
      * right. rewrite Hev. reflexivity.
    + right. rewrite Hex. apply orb_true_r.
Qed.

End LoaderBottom.

(** X21: on every run from the initial state, [bottomReached] is only
    true if a promise of [updateFunction] was fulfilled with true: no
    trigger, rejection or other fulfilment raises it. *)
Theorem bottomReached_needs_last_batch (updateTriggerMargin : Q)
    (evs : list Event) (g : Grid) :
  run updateTriggerMargin evs initialGrid = Some g ->
  bottomReached g = true ->
  existsb isLastBatchFulfilled evs = true.
Proof.
  intros Hrun Hb.
  destruct (run_bottomReached_raised updateTriggerMargin evs initialGrid g
              Hrun Hb) as [H|H]; [discriminate H|exact H].
Qed.

Lemma bottomReached_needs_last_batch_sample :
  exists g : Grid,
    run 500
      [ Mounted (Some emptyGridReading);
        UpdateFulfilled true (Some emptyGridReading) ]
      initialGrid = Some g
    /\ bottomReached g = true
    /\ existsb isLastBatchFulfilled
         [ Mounted (Some emptyGridReading);
           UpdateFulfilled true (Some emptyGridReading) ] = true.
Proof.
  eexists. split; [reflexivity|]. split; [reflexivity|].
  refine (bottomReached_needs_last_batch 500
            [ Mounted (Some emptyGridReading);
              UpdateFulfilled true (Some emptyGridReading) ]
            _ eq_refl eq_refl).
Defined.
